(** * Family Budget Manager: a shallow embedding of the Python sources

    The development follows the layout of the repository:

    - [PyStr], [PyDict], [Py]   the Python values the code manipulates
                                (text, dicts, exceptions) and the monad of
                                state and exceptions;
    - [Sha256]                  [hashlib.sha256], which [utils/auth.py] calls;
    - [Utf8]                    [str.encode()] and the texts it refuses;
    - [Categories]              [config/categories.py];
    - [Database]                the schema of [config/database.py] and the
                                statements the code runs against it;
    - [Auth]                    [utils/auth.py];
    - [Models], [Analytics]     the ledger functions and the analytics of
                                [models/], which the sources do not hold,
                                written from the specification;
    - [Session]                 logs of committed statements;
    - [DataExport]              [utils/data_export.py];
    - [App]                     the two forms of the login page of [app.py];
    - [Calls]                   histories of calls that write to [users].

    The second half of the file holds the properties.

    Conventions.  A Python [str] is a sequence of code points and is
    represented by the bytes UTF-8 gives each of them, a Rocq [string];
    a code point of U+D800..U+DFFF (a lone surrogate, which a [str] may
    hold and UTF-8 refuses) is written with the three bytes the same
    scheme gives it.  [len] counts the bytes that start a code point;
    [str.encode()] and the binding of a text to a statement return the
    bytes, or raise [UnicodeEncodeError] on a surrogate.  A Python [dict]
    literal is an association list in insertion order.  Code that may
    raise returns an [outcome]; code that talks to the database threads a
    [db] value, the file as [sqlite3] finds it, which may be a file that
    cannot be opened.  What the operating system and the clock supply
    ([secrets], [datetime.now]) is an argument of the function that asks
    for it. *)

From Stdlib Require Import ZArith NArith QArith List String Ascii Bool Lia.
From Stdlib Require Import Qround DecimalString Permutation Sorted.
Import ListNotations.

Local Close Scope Q_scope.

Local Open Scope string_scope.
Local Open Scope list_scope.

(* ================================================================== *)
(** * Python text *)

Module PyStr.

Definition str := string.

(** A byte [10xxxxxx] continues a code point started earlier. *)
Definition is_continuation (c : ascii) : bool :=
  let n := N_of_ascii c in ((128 <=? n) && (n <? 192))%N.

(** [len(s)]: the number of code points of [s]. *)
Fixpoint len (s : str) : nat :=
  match s with
  | EmptyString => 0
  | String c s' => if is_continuation c then len s' else S (len s')
  end.

(** [s.split(sep)] for a one-character separator: never empty, one more
    piece than there are separators. *)
Fixpoint split (sep : ascii) (s : str) : list str :=
  match s with
  | EmptyString => [EmptyString]
  | String c s' =>
      if Ascii.eqb c sep then EmptyString :: split sep s'
      else match split sep s' with
           | [] => [String c EmptyString]
           | p :: ps => String c p :: ps
           end
  end.

(** [needle in haystack]. *)
Fixpoint contains (needle haystack : str) : bool :=
  String.prefix needle haystack ||
  match haystack with
  | EmptyString => false
  | String _ h' => contains needle h'
  end.

(** Membership of a character, [c in s]. *)
Fixpoint has_char (c : ascii) (s : str) : bool :=
  match s with
  | EmptyString => false
  | String d s' => Ascii.eqb d c || has_char c s'
  end.

(** [s.count(c)] *)
Fixpoint count (c : ascii) (s : str) : nat :=
  match s with
  | EmptyString => 0
  | String d s' => if Ascii.eqb d c then S (count c s') else count c s'
  end.

Definition colon : ascii := ":"%char.

End PyStr.

(* ================================================================== *)
(** * Python dict literals *)

Module PyDict.

Section Dict.
Context {V : Type}.

Definition dict := list (string * V).

Fixpoint get (d : dict) (k : string) : option V :=
  match d with
  | [] => None
  | (k', v) :: d' => if String.eqb k k' then Some v else get d' k
  end.

(** [d.get(k, default)] *)
Definition get_default (d : dict) (k : string) (default : V) : V :=
  match get d k with Some v => v | None => default end.

(** [list(d.keys())] *)
Definition keys (d : dict) : list string := map fst d.

Definition has_key (d : dict) (k : string) : bool :=
  match get d k with Some _ => true | None => false end.
End Dict.

Arguments dict V : clear implicits.

End PyDict.

(* ================================================================== *)
(** * Python values, exceptions and the state-and-exception monad *)

Module Py.
Import PyStr.

Inductive exn_class :=
| TypeError | ValueError | KeyError | AttributeError | JSONDecodeError
| IntegrityError | OperationalError | UnicodeEncodeError.

(** An exception object; [exn_msg] is what [str(e)] returns. *)
Record exn := Exn { exn_cls : exn_class; exn_msg : string }.

Inductive outcome (A : Type) :=
| Return (a : A)
| Raise (e : exn).
Arguments Return {A} a.
Arguments Raise {A} e.

(** The values [json.loads] produces and the dicts the code builds. *)
#[warnings="-register-all"] Inductive value :=
| VNone
| VBool (b : bool)
| VInt (z : Z)
| VFloat (q : Q)
| VStr (s : str)
| VList (l : list value)
| VDict (d : list (string * value)).

(** Truth value of an object in a condition. *)
Definition truthy (v : value) : bool :=
  match v with
  | VNone => false
  | VBool b => b
  | VInt z => negb (z =? 0)%Z
  | VFloat q => negb (Qeq_bool q 0)
  | VStr s => negb (String.eqb s "")
  | VList l => match l with [] => false | _ => true end
  | VDict d => match d with [] => false | _ => true end
  end.

Definition type_name (v : value) : string :=
  match v with
  | VNone => "NoneType" | VBool _ => "bool" | VInt _ => "int"
  | VFloat _ => "float" | VStr _ => "str" | VList _ => "list"
  | VDict _ => "dict"
  end.

(** [v[k]] for a string key [k]. *)
Definition getitem (v : value) (k : string) : outcome value :=
  match v with
  | VDict d =>
      match PyDict.get d k with
      | Some x => Return x
      | None => Raise (Exn KeyError ("'" ++ k ++ "'"))
      end
  | VStr _ => Raise (Exn TypeError "string indices must be integers, not 'str'")
  | VList _ => Raise (Exn TypeError "list indices must be integers or slices, not str")
  | _ => Raise (Exn TypeError ("'" ++ type_name v ++ "' object is not subscriptable"))
  end.

(** [v.get(k, default)] *)
Definition get_method (v : value) (k : string) (default : value) : outcome value :=
  match v with
  | VDict d => Return (PyDict.get_default d k default)
  | _ => Raise (Exn AttributeError
                  ("'" ++ type_name v ++ "' object has no attribute 'get'"))
  end.

(** The code points of a text, each as a one-character text. *)
Fixpoint code_points_from (cur : string) (s : str) : list str :=
  match s with
  | EmptyString => match cur with EmptyString => [] | _ => [cur] end
  | String c s' =>
      if is_continuation c then code_points_from (cur ++ String c EmptyString) s'
      else match cur with
           | EmptyString => code_points_from (String c EmptyString) s'
           | _ => cur :: code_points_from (String c EmptyString) s'
           end
  end.

(** The items [for x in v] runs through. *)
Definition iterate (v : value) : outcome (list value) :=
  match v with
  | VList l => Return l
  | VDict d => Return (map VStr (PyDict.keys d))
  | VStr s => Return (map VStr (code_points_from EmptyString s))
  | _ => Raise (Exn TypeError ("'" ++ type_name v ++ "' object is not iterable"))
  end.

(** A structured result: a dict with a boolean under ["success"] and a
    text under ["message"]. *)
Definition structured_result (v : value) : Prop :=
  exists (b : bool) (m : str),
    getitem v "success" = Return (VBool b) /\
    getitem v "message" = Return (VStr m).

(** State [S] survives an exception: what was written before the raise
    stays written. *)
Definition M (S A : Type) : Type := S -> outcome A * S.

Definition ret {S A} (a : A) : M S A := fun s => (Return a, s).
Definition lift {S A} (o : outcome A) : M S A := fun s => (o, s).
Definition bind {S A B} (m : M S A) (k : A -> M S B) : M S B :=
  fun s => match m s with
           | (Return a, s') => k a s'
           | (Raise e, s') => (Raise e, s')
           end.

(** [try: body  except Exception as e: handler(e)] *)
Definition try_except {S A} (body : M S A) (handler : exn -> M S A) : M S A :=
  fun s => match body s with
           | (Return a, s') => (Return a, s')
           | (Raise e, s') => handler e s'
           end.

(** [for x in items: acc = body(acc, x)] *)
Fixpoint for_each {S A B} (items : list A) (acc : B) (body : B -> A -> M S B)
  : M S B :=
  match items with
  | [] => ret acc
  | x :: rest => bind (body acc x) (fun acc' => for_each rest acc' body)
  end.

(** Every run of [m], whether it returns or raises, moves the state
    along [R]. *)
Definition moves_along {S A} (R : S -> S -> Prop) (m : M S A) : Prop :=
  forall s o s', m s = (o, s') -> R s s'.

End Py.

Declare Scope py_scope.
Delimit Scope py_scope with py.
Notation "x <- m ;; k" := (Py.bind m (fun x => k))
  (at level 61, m at next level, right associativity) : py_scope.
Notation "m ;;; k" := (Py.bind m (fun _ => k))
  (at level 61, right associativity) : py_scope.

(* ================================================================== *)
(** * hashlib.sha256

    [hashlib.sha256(data).hexdigest()] as FIPS 180-4 defines it: 32-bit
    words are [N] values below [2^32], additions wrap around. *)

Module Sha256.
Local Open Scope N_scope.

Definition mask32 : N := 0xffffffff.
Definition add32 (a b : N) : N := N.land (a + b) mask32.
Definition not32 (a : N) : N := N.lxor a mask32.
Definition rotr (n x : N) : N :=
  N.lor (N.shiftr x n) (N.land (N.shiftl x (32 - n)) mask32).

Definition Ch (x y z : N) : N := N.lxor (N.land x y) (N.land (not32 x) z).
Definition Maj (x y z : N) : N :=
  N.lxor (N.land x y) (N.lxor (N.land x z) (N.land y z)).
Definition Sigma0 (x : N) : N := N.lxor (rotr 2 x) (N.lxor (rotr 13 x) (rotr 22 x)).
Definition Sigma1 (x : N) : N := N.lxor (rotr 6 x) (N.lxor (rotr 11 x) (rotr 25 x)).
Definition sigma0 (x : N) : N := N.lxor (rotr 7 x) (N.lxor (rotr 18 x) (N.shiftr x 3)).
Definition sigma1 (x : N) : N := N.lxor (rotr 17 x) (N.lxor (rotr 19 x) (N.shiftr x 10)).

(** The round constants and the initial hash value are the first 32 bits
    of the fractional parts of the cube roots of the first 64 primes, and
    of the square roots of the first 8. *)
Definition is_prime (n : nat) : bool :=
  (1 <? n)%nat && forallb (fun d => negb (n mod d =? 0)%nat) (seq 2 (n - 2)).

Definition first_primes (count : nat) : list N :=
  map N.of_nat (firstn count (filter is_prime (seq 2 320))).

(** Largest [r] below [2^bits] with [r^3 <= n], one bit at a time. *)
Fixpoint cube_root (bits : nat) (n r : N) : N :=
  match bits with
  | O => r
  | S b =>
      let c := r + 2 ^ N.of_nat b in
      cube_root b n (if c * c * c <=? n then c else r)
  end.

Definition K : list N :=
  Eval vm_compute in
    map (fun p => N.land (cube_root 40 (p * 2 ^ 96) 0) mask32) (first_primes 64).

Definition H0 : list N :=
  Eval vm_compute in
    map (fun p => N.land (N.sqrt (p * 2 ^ 64)) mask32) (first_primes 8).

(** Big-endian bytes of [x], [n] of them. *)
Fixpoint be_bytes (n : nat) (x : N) : list N :=
  match n with
  | O => []
  | S n' => N.land (N.shiftr x (8 * N.of_nat n')) 0xff :: be_bytes n' x
  end.

Definition be_word (bs : list N) : N :=
  fold_left (fun acc b => N.lor (N.shiftl acc 8) b) bs 0.

(** The message, a [1] bit, zeros up to 56 modulo 64 bytes, and the bit
    length on 64 bits. *)
Definition pad (msg : list N) : list N :=
  let l := N.of_nat (List.length msg) in
  let zeros := (119 - l mod 64) mod 64 in
  msg ++ [0x80] ++ repeat 0 (N.to_nat zeros) ++ be_bytes 8 (8 * l).

(** Consecutive groups of [size] elements; [fuel] bounds their number. *)
Fixpoint chunks {A} (fuel size : nat) (l : list A) : list (list A) :=
  match fuel, l with
  | O, _ | _, [] => []
  | S fuel', _ => firstn size l :: chunks fuel' size (skipn size l)
  end.

Definition words_of_block (block : list N) : list N :=
  map be_word (chunks 16 4 block).

(** Working variables [a..h] and the sixteen most recent schedule words;
    the head of the window is the word of the current round. *)
Definition round (st : list N * list N) (k : N) : list N * list N :=
  match st with
  | ([a; b; c; d; e; f; g; h], w) =>
      let wt := hd 0 w in
      let t1 := add32 (add32 (add32 (add32 h (Sigma1 e)) (Ch e f g)) k) wt in
      let t2 := add32 (Sigma0 a) (Maj a b c) in
      let next := add32 (add32 (add32 (sigma1 (nth 14 w 0)) (nth 9 w 0))
                               (sigma0 (nth 1 w 0))) wt in
      ([add32 t1 t2; a; b; c; add32 d t1; e; f; g], tl w ++ [next])
  | _ => st
  end.

Definition compress (h : list N) (block : list N) : list N :=
  let '(v, _) := fold_left round K (h, words_of_block block) in
  map (fun p => add32 (fst p) (snd p)) (combine h v).

Definition digest_words (msg : list N) : list N :=
  let padded := pad msg in
  fold_left compress (chunks (List.length padded) 64 padded) H0.

Definition hex_digit (n : N) : ascii :=
  if n <? 10 then ascii_of_N (48 + n) else ascii_of_N (87 + n).

(** Eight lower-case hexadecimal digits of a word. *)
Definition hex_word (x : N) : list ascii :=
  map (fun i => hex_digit (N.land (N.shiftr x (4 * N.of_nat i)) 0xf))
      [7; 6; 5; 4; 3; 2; 1; 0]%nat.

Definition hex_byte (b : N) : list ascii :=
  [hex_digit (N.land (N.shiftr b 4) 0xf); hex_digit (N.land b 0xf)].

Definition bytes_of_string (s : string) : list N :=
  map N_of_ascii (list_ascii_of_string s).

(** [hashlib.sha256(data).hexdigest()], [data] given by its bytes. *)
Definition hexdigest (data : string) : string :=
  string_of_list_ascii
    (flat_map hex_word (digest_words (bytes_of_string data))).

End Sha256.

(* ================================================================== *)
(** * str.encode()

    [s.encode()], and [sqlite3] when it binds a [str] to a statement,
    encode as UTF-8 with the error handler [strict]: a code point of
    U+D800..U+DFFF is refused with [UnicodeEncodeError], whose text names
    the run of surrogates the encoder stopped at. *)

Module Utf8.
Import PyStr Py.
Local Open Scope string_scope.

(** The bytes [ED A0..BF] start the three bytes of a surrogate. *)
Definition surrogate_lead (a b : ascii) : bool :=
  ((N_of_ascii a =? 0xED) && (0xA0 <=? N_of_ascii b) && (N_of_ascii b <? 0xC0))%N.

Definition starts_with_surrogate (s : str) : bool :=
  match s with
  | String a (String b _) => surrogate_lead a b
  | _ => false
  end.

(** No code point of [s] is a surrogate. *)
Fixpoint encodable (s : str) : bool :=
  match s with
  | EmptyString => true
  | String _ s' => negb (starts_with_surrogate s) && encodable s'
  end.

(** [s.isascii()] *)
Fixpoint isascii (s : str) : bool :=
  match s with
  | EmptyString => true
  | String c s' => (N_of_ascii c <? 0x80)%N && isascii s'
  end.

Definition byte (n : N) : ascii := ascii_of_N n.

(** [chr(i)], the one-character text of the code point [i < 0x110000]. *)
Definition chr (i : N) : str :=
  let low (x : N) := byte (N.lor 0x80 (N.land x 0x3F)) in
  string_of_list_ascii
    (if i <? 0x80 then [byte i]
     else if i <? 0x800 then [byte (N.lor 0xC0 (N.shiftr i 6)); low i]
     else if i <? 0x10000 then
       [byte (N.lor 0xE0 (N.shiftr i 12)); low (N.shiftr i 6); low i]
     else
       [byte (N.lor 0xF0 (N.shiftr i 18)); low (N.shiftr i 12);
        low (N.shiftr i 6); low i])%N.

(** The index, in code points, of the first surrogate of [s], and the
    text from that surrogate on. *)
Fixpoint first_surrogate (s : str) : option (nat * str) :=
  match s with
  | EmptyString => None
  | String c s' =>
      if starts_with_surrogate s then Some (O, s)
      else match first_surrogate s' with
           | None => None
           | Some (n, from) => Some (if is_continuation c then n else S n, from)
           end
  end.

(** The number of surrogates [s] starts with. *)
Fixpoint surrogate_run (s : str) : nat :=
  match s with
  | String a (String b (String _ rest)) =>
      if surrogate_lead a b then S (surrogate_run rest) else O
  | _ => O
  end.

(** The four hexadecimal digits of the surrogate [s] starts with. *)
Definition surrogate_digits (s : str) : string :=
  match s with
  | String _ (String b rest) =>
      let b := N_of_ascii b in
      let c := match rest with
               | String c _ => N_of_ascii c
               | EmptyString => 0%N
               end in
      string_of_list_ascii
        [ "d"%char;
          Sha256.hex_digit (N.shiftr (N.land b 0x3F) 2);
          Sha256.hex_digit (N.lor (N.shiftl (N.land b 0x3) 2)
                                  (N.shiftr (N.land c 0x3F) 4));
          Sha256.hex_digit (N.land c 0xF) ]
  | _ => ""
  end.

Definition decimal (n : nat) : string := NilZero.string_of_uint (Nat.to_uint n).

(** [str(e)] of the [UnicodeEncodeError] for the surrogates at index
    [position], where [from] starts. *)
Definition surrogates_not_allowed (position : nat) (from : str) : exn :=
  let run := surrogate_run from in
  Exn UnicodeEncodeError
    (if (run <=? 1)%nat
     then "'utf-8' codec can't encode character '\u" ++ surrogate_digits from
          ++ "' in position " ++ decimal position ++ ": surrogates not allowed"
     else "'utf-8' codec can't encode characters in position "
          ++ decimal position ++ "-" ++ decimal (position + run - 1)
          ++ ": surrogates not allowed").

(** [s.encode()]: the bytes of [s]. *)
Definition encode (s : str) : outcome string :=
  match first_surrogate s with
  | None => Return s
  | Some (position, from) => Raise (surrogates_not_allowed position from)
  end.

End Utf8.

(* ================================================================== *)
(** * config/categories.py *)

Module Categories.
Import PyDict.

Definition BUDGET_CATEGORIES : dict (list string) :=
  [ ("Children",
      [ "Childcare"; "Medical & Consultations"; "School Supplies & Toys";
        "School Tuition"; "Children's Food"; "Children's Entertainment" ]);
    ("Entertainment",
      [ "Concerts"; "Theatre & Opera"; "Cinema";
        "Music (CDs, Downloads, etc.)"; "Sports Events";
        "Video/DVD (Purchase)"; "Video/DVD (Rental)"; "Books" ]);
    ("Food",
      [ "Dining Out & Catering"; "Groceries"; "Fruits & Vegetables";
        "Meat & Deli"; "Fish & Seafood" ]);
    ("Gifts and Charity",
      [ "Religious Donations"; "Gifts"; "Gift 1"; "Gift 2" ]);
    ("Housing",
      [ "Cable/Satellite"; "Electricity"; "Gas"; "House Cleaning";
        "Home Maintenance & Repairs"; "Utilities"; "Natural Gas/Oil";
        "Internet Service"; "Mobile Phone"; "Landline Phone";
        "Other Housing Expenses"; "Waste Removal & Recycling";
        "Water & Bottled Water" ]);
    ("Insurance",
      [ "Health Insurance"; "Home Insurance"; "Life Insurance" ]);
    ("Loans",
      [ "Personal Loan"; "Overdraft"; "Credit Card"; "Personal Debt";
        "Student Loan" ]);
    ("Personal Care",
      [ "Clothing"; "Hygiene Products"; "Hair Salon & Manicure";
        "Fitness & Beauty Salon"; "Medical & Consultations" ]);
    ("Pets",
      [ "Pet Food"; "Grooming"; "Veterinary & Medicine"; "Pet Toys" ]);
    ("Savings or Investments",
      [ "Investments"; "Retirement Account" ]);
    ("Taxes",
      [ "Federal Taxes"; "Local Taxes"; "State Taxes" ]);
    ("Transportation",
      [ "Public Transport & Taxi"; "Fuel/Gasoline"; "Car Insurance";
        "License & Registration"; "Car Maintenance"; "Parking";
        "Vehicle Taxes" ]) ].

Definition CATEGORY_COLORS : dict string :=
  [ ("Children", "#FF6B6B"); ("Entertainment", "#4ECDC4");
    ("Food", "#45B7D1"); ("Gifts and Charity", "#FFA07A");
    ("Housing", "#98D8C8"); ("Insurance", "#6C5CE7");
    ("Loans", "#FDCB6E"); ("Personal Care", "#FF7675");
    ("Pets", "#74B9FF"); ("Savings or Investments", "#55EFC4");
    ("Taxes", "#A29BFE"); ("Transportation", "#FD79A8") ].

Definition CATEGORY_ICONS : dict string :=
  [ ("Children", "👶"); ("Entertainment", "🎭"); ("Food", "🍕");
    ("Gifts and Charity", "🎁"); ("Housing", "🏠");
    ("Insurance", "🛡️"); ("Loans", "💳"); ("Personal Care", "💄");
    ("Pets", "🐾"); ("Savings or Investments", "💰"); ("Taxes", "📊");
    ("Transportation", "🚗") ].

Definition get_all_categories : list string := keys BUDGET_CATEGORIES.

Definition get_subcategories (category : string) : list string :=
  get_default BUDGET_CATEGORIES category [].

Definition INCOME_CATEGORIES : list string :=
  [ "💼 Salary"; "🎁 Bonus"; "🏢 Freelance/Business";
    "🏠 Rental Income"; "📈 Investments"; "🎉 Gifts & Inheritance";
    "💰 Other Income" ].

Definition get_income_categories : list string := INCOME_CATEGORIES.

(** The lookup the spec calls validating a pair against the taxonomy:
    [subcategory in get_subcategories(category)]. *)
Definition in_taxonomy (category subcategory : string) : bool :=
  existsb (String.eqb subcategory) (get_subcategories category).

(** What has to hold of one category name for the configuration to be
    consistent; decided by evaluation. *)
Definition category_configured (c : string) : bool :=
  match get BUDGET_CATEGORIES c with
  | Some (_ :: _ as subs) =>
      has_key CATEGORY_COLORS c && has_key CATEGORY_ICONS c &&
      forallb (fun s => in_taxonomy c s) subs
  | _ => false
  end.

Fixpoint distinct (l : list string) : bool :=
  match l with
  | [] => true
  | x :: l' => negb (existsb (String.eqb x) l') && distinct l'
  end.

(** [get_all_subcategories_flat()]: one dict per (category, subcategory)
    pair, in the order of the table. *)
Definition get_all_subcategories_flat : list (dict string) :=
  flat_map
    (fun entry : string * list string =>
       let (category, subcategories) := entry in
       map (fun subcategory =>
              [("category", category);
               ("subcategory", subcategory);
               ("icon", get_default CATEGORY_ICONS category "📌");
               ("color", get_default CATEGORY_COLORS category "#95A5A6")])
           subcategories)
    BUDGET_CATEGORIES.

End Categories.

(* ================================================================== *)
(** * config/database.py

    One record per table of [init_database], columns in the order of the
    [CREATE TABLE] statements.  A table that has not been created is
    [None].  [seq] is the [sqlite_sequence] entry of an
    [AUTOINCREMENT] key.  The file at [DB_PATH] is either one that
    [sqlite3.connect] cannot open, or the tables it holds. *)

Module Database.
Import PyStr Py.

Definition timestamp := string.

Record date := Date { year_of : Z; month_of : Z; day_of : Z }.

Record user_row := UserRow {
  u_id : Z;
  u_username : str;
  u_password_hash : str;
  u_email : option str;
  u_created_at : option timestamp;
  u_last_login : option timestamp }.

Record budget_plan_row := BudgetPlanRow {
  b_id : Z;
  b_user_id : Z;
  b_category : str;
  b_subcategory : str;
  b_planned_amount : Q;
  b_month : Z;
  b_year : Z;
  b_created_at : option timestamp }.

Record expense_row := ExpenseRow {
  e_id : Z;
  e_user_id : Z;
  e_category : str;
  e_subcategory : str;
  e_amount : Q;
  e_description : option str;
  e_expense_date : date;
  e_tags : option str;
  e_created_at : option timestamp;
  e_updated_at : option timestamp }.

Record income_row := IncomeRow {
  i_id : Z;
  i_user_id : Z;
  i_source : str;
  i_amount : Q;
  i_income_date : date;
  i_description : option str;
  i_created_at : option timestamp }.

Record preference_row := PreferenceRow {
  p_id : Z;
  p_user_id : Z;
  p_currency : str;
  p_language : str;
  p_theme : str;
  p_notifications : Z }.

Record prediction_row := PredictionRow {
  a_id : Z;
  a_user_id : Z;
  a_category : str;
  a_predicted_amount : Q;
  a_confidence : option Q;
  a_prediction_month : Z;
  a_prediction_year : Z;
  a_created_at : option timestamp }.

Record table (R : Type) := Table { rows : list R; seq : Z }.
Arguments Table {R} rows seq.
Arguments rows {R} t.
Arguments seq {R} t.

Definition empty_table {R} : table R := Table [] 0.

Inductive db :=
| Unopenable
| Db (users : option (table user_row))
     (budget_plans : option (table budget_plan_row))
     (expenses : option (table expense_row))
     (income : option (table income_row))
     (user_preferences : option (table preference_row))
     (ai_predictions : option (table prediction_row)).

(** [sqlite3.connect(DB_PATH)] succeeds. *)
Definition opens (d : db) : bool :=
  match d with
  | Unopenable => false
  | Db _ _ _ _ _ _ => true
  end.

(** The tables of the file; one that cannot be opened shows none. *)
Definition users (d : db) : option (table user_row) :=
  match d with Db t _ _ _ _ _ => t | Unopenable => None end.
Definition budget_plans (d : db) : option (table budget_plan_row) :=
  match d with Db _ t _ _ _ _ => t | Unopenable => None end.
Definition expenses (d : db) : option (table expense_row) :=
  match d with Db _ _ t _ _ _ => t | Unopenable => None end.
Definition income (d : db) : option (table income_row) :=
  match d with Db _ _ _ t _ _ => t | Unopenable => None end.
Definition user_preferences (d : db) : option (table preference_row) :=
  match d with Db _ _ _ _ t _ => t | Unopenable => None end.
Definition ai_predictions (d : db) : option (table prediction_row) :=
  match d with Db _ _ _ _ _ t => t | Unopenable => None end.

(** The database file before any table exists. *)
Definition empty_db : db := Db None None None None None None.

(** [CREATE TABLE IF NOT EXISTS]: an existing table is left as it is. *)
Definition create_table_if_not_exists {R} (t : option (table R))
  : option (table R) :=
  match t with
  | None => Some empty_table
  | Some _ => t
  end.

(** The file after [init_database()]; when [get_connection()] raises,
    nothing is created. *)
Definition init_database (d : db) : db :=
  if opens d then
    Db (create_table_if_not_exists (users d))
       (create_table_if_not_exists (budget_plans d))
       (create_table_if_not_exists (expenses d))
       (create_table_if_not_exists (income d))
       (create_table_if_not_exists (user_preferences d))
       (create_table_if_not_exists (ai_predictions d))
  else d.

Definition set_users (d : db) (t : table user_row) : db :=
  Db (Some t) (budget_plans d) (expenses d) (income d)
     (user_preferences d) (ai_predictions d).
Definition set_budget_plans (d : db) (t : table budget_plan_row) : db :=
  Db (users d) (Some t) (expenses d) (income d)
     (user_preferences d) (ai_predictions d).
Definition set_expenses (d : db) (t : table expense_row) : db :=
  Db (users d) (budget_plans d) (Some t) (income d)
     (user_preferences d) (ai_predictions d).
Definition set_income (d : db) (t : table income_row) : db :=
  Db (users d) (budget_plans d) (expenses d) (Some t)
     (user_preferences d) (ai_predictions d).
Definition set_user_preferences (d : db) (t : table preference_row) : db :=
  Db (users d) (budget_plans d) (expenses d) (income d)
     (Some t) (ai_predictions d).

(** [INTEGER PRIMARY KEY AUTOINCREMENT]: one more than the largest key
    the table has ever held. *)
Definition next_rowid {R} (id_of : R -> Z) (t : table R) : Z :=
  (fold_right Z.max (seq t) (map id_of (rows t)) + 1)%Z.

Definition append_row {R} (t : table R) (id : Z) (r : R) : table R :=
  Table (rows t ++ [r]) id.

Definition no_such_table (name : string) : exn :=
  Exn OperationalError ("no such table: " ++ name).
Definition unique_failed (columns : string) : exn :=
  Exn IntegrityError ("UNIQUE constraint failed: " ++ columns).

(** ** Statements.  Each returns the database after the statement, or
    raises and changes nothing.  A statement is compiled, which needs its
    table, then its parameters are bound, then it runs. *)

(** Binding a [str] parameter encodes it. *)
Definition bind_text (s : str) : outcome unit :=
  match Utf8.encode s with
  | Return _ => Return tt
  | Raise e => Raise e
  end.

(** [None] is bound as [NULL]. *)
Definition bind_optional_text (o : option str) : outcome unit :=
  match o with
  | Some s => bind_text s
  | None => Return tt
  end.

(** The parameters of a statement, bound from left to right. *)
Fixpoint bind_parameters (parameters : list (outcome unit)) : outcome unit :=
  match parameters with
  | [] => Return tt
  | Return _ :: rest => bind_parameters rest
  | Raise e :: _ => Raise e
  end.

(** [INSERT INTO users (username, password_hash, email, created_at)];
    [username TEXT UNIQUE NOT NULL].  Returns [lastrowid]. *)
Definition insert_user (username password_hash : str) (email : option str)
    (created_at : timestamp) (d : db) : outcome (Z * db) :=
  match users d with
  | None => Raise (no_such_table "users")
  | Some t =>
      match bind_parameters [bind_text username; bind_text password_hash;
                             bind_optional_text email] with
      | Raise e => Raise e
      | Return _ =>
          if existsb (fun r => String.eqb (u_username r) username) (rows t)
          then Raise (unique_failed "users.username")
          else
            let id := next_rowid u_id t in
            let r := UserRow id username password_hash email
                       (Some created_at) None in
            Return (id, set_users d (append_row t id r))
      end
  end.

(** [INSERT INTO user_preferences (user_id)]; the other columns take
    their defaults; [UNIQUE(user_id)]. *)
Definition insert_preferences (user_id : Z) (d : db) : outcome (Z * db) :=
  match user_preferences d with
  | None => Raise (no_such_table "user_preferences")
  | Some t =>
      if existsb (fun r => (p_user_id r =? user_id)%Z) (rows t)
      then Raise (unique_failed "user_preferences.user_id")
      else
        let id := next_rowid p_id t in
        let r := PreferenceRow id user_id "USD" "en" "light" 1 in
        Return (id, set_user_preferences d (append_row t id r))
  end.

(** The columns of [UNIQUE(user_id, category, subcategory, month, year)]. *)
Definition budget_key (r : budget_plan_row) : Z * str * str * Z * Z :=
  (b_user_id r, b_category r, b_subcategory r, b_month r, b_year r).

Definition budget_key_eqb (k1 k2 : Z * str * str * Z * Z) : bool :=
  let '(u1, c1, s1, m1, y1) := k1 in
  let '(u2, c2, s2, m2, y2) := k2 in
  (u1 =? u2)%Z && String.eqb c1 c2 && String.eqb s1 s2 &&
  (m1 =? m2)%Z && (y1 =? y2)%Z.

(** [INSERT INTO budget_plans (user_id, category, subcategory,
    planned_amount, month, year)]. *)
Definition insert_budget_plan (user_id : Z) (category subcategory : str)
    (planned_amount : Q) (month year : Z) (now : timestamp) (d : db)
  : outcome (Z * db) :=
  match budget_plans d with
  | None => Raise (no_such_table "budget_plans")
  | Some t =>
      let key := (user_id, category, subcategory, month, year) in
      if existsb (fun r => budget_key_eqb (budget_key r) key) (rows t)
      then Raise (unique_failed
        "budget_plans.user_id, budget_plans.category, budget_plans.subcategory, budget_plans.month, budget_plans.year")
      else
        let id := next_rowid b_id t in
        let r := BudgetPlanRow id user_id category subcategory
                   planned_amount month year (Some now) in
        Return (id, set_budget_plans d (append_row t id r))
  end.

(** [INSERT INTO expenses (user_id, category, subcategory, amount,
    description, expense_date, tags)]. *)
Definition insert_expense (user_id : Z) (category subcategory : str)
    (amount : Q) (description : option str) (expense_date : date)
    (tags : option str) (now : timestamp) (d : db) : outcome (Z * db) :=
  match expenses d with
  | None => Raise (no_such_table "expenses")
  | Some t =>
      let id := next_rowid e_id t in
      let r := ExpenseRow id user_id category subcategory amount description
                 expense_date tags (Some now) (Some now) in
      Return (id, set_expenses d (append_row t id r))
  end.

(** [INSERT INTO income (user_id, source, amount, income_date,
    description)]. *)
Definition insert_income (user_id : Z) (source : str) (amount : Q)
    (income_date : date) (description : option str) (now : timestamp)
    (d : db) : outcome (Z * db) :=
  match income d with
  | None => Raise (no_such_table "income")
  | Some t =>
      let id := next_rowid i_id t in
      let r := IncomeRow id user_id source amount income_date description
                 (Some now) in
      Return (id, set_income d (append_row t id r))
  end.

(** [SELECT id, username, password_hash FROM users WHERE username = ?] *)
Definition select_user_by_username (username : str) (d : db)
  : outcome (list user_row) :=
  match users d with
  | None => Raise (no_such_table "users")
  | Some t =>
      match bind_text username with
      | Raise e => Raise e
      | Return _ =>
          Return (filter (fun r => String.eqb (u_username r) username) (rows t))
      end
  end.

(** [UPDATE users SET last_login = ? WHERE id = ?] *)
Definition update_last_login (now : timestamp) (id : Z) (d : db)
  : outcome (unit * db) :=
  match users d with
  | None => Raise (no_such_table "users")
  | Some t =>
      let upd r :=
        if (u_id r =? id)%Z
        then UserRow (u_id r) (u_username r) (u_password_hash r) (u_email r)
                     (u_created_at r) (Some now)
        else r in
      Return (tt, set_users d (Table (map upd (rows t)) (seq t)))
  end.

(** The order of the index SQLite keeps for [UNIQUE(user_id, category,
    subcategory, month, year)], among the rows of one user: by category,
    then subcategory (texts compare byte by byte), then month, then year
    (numbers by value), rows that agree on all of them by [id]. *)
Definition and_then_by (c1 c2 : comparison) : comparison :=
  match c1 with
  | Eq => c2
  | _ => c1
  end.

Definition index_compare (r1 r2 : budget_plan_row) : comparison :=
  and_then_by (String.compare (b_category r1) (b_category r2))
    (and_then_by (String.compare (b_subcategory r1) (b_subcategory r2))
       (and_then_by (Z.compare (b_month r1) (b_month r2))
          (and_then_by (Z.compare (b_year r1) (b_year r2))
             (Z.compare (b_id r1) (b_id r2))))).

Definition index_leb (r1 r2 : budget_plan_row) : bool :=
  match index_compare r1 r2 with
  | Gt => false
  | _ => true
  end.

Fixpoint index_insert (r : budget_plan_row) (l : list budget_plan_row)
  : list budget_plan_row :=
  match l with
  | [] => [r]
  | x :: l' => if index_leb r x then r :: l else x :: index_insert r l'
  end.

Definition index_order (l : list budget_plan_row) : list budget_plan_row :=
  fold_right index_insert [] l.

(** [SELECT * FROM budget_plans WHERE user_id = ?]: SQLite answers it
    from the index of the [UNIQUE] constraint, whose first column is
    [user_id], so the rows of the user come in the order of that index. *)
Definition select_budget_plans (user_id : Z) (d : db)
  : outcome (list budget_plan_row) :=
  match budget_plans d with
  | None => Raise (no_such_table "budget_plans")
  | Some t =>
      Return (index_order
                (filter (fun r => (b_user_id r =? user_id)%Z) (rows t)))
  end.

(** [SELECT * FROM user_preferences WHERE user_id = ?] *)
Definition select_preferences (user_id : Z) (d : db)
  : outcome (list preference_row) :=
  match user_preferences d with
  | None => Raise (no_such_table "user_preferences")
  | Some t => Return (filter (fun r => (p_user_id r =? user_id)%Z) (rows t))
  end.

(** ** Connections.  Statements act on the working copy; [commit] makes
    it durable; [close] drops what was not committed. *)

Record connection := Connection { durable : db; working : db }.

Definition unable_to_open : exn :=
  Exn OperationalError "unable to open database file".

(** [get_connection()]: [sqlite3.connect(DB_PATH)]. *)
Definition get_connection (d : db) : outcome connection :=
  if opens d then Return (Connection d d) else Raise unable_to_open.

Definition execute {A} (stmt : db -> outcome (A * db)) : M connection A :=
  fun c => match stmt (working c) with
           | Return (a, d') => (Return a, Connection (durable c) d')
           | Raise e => (Raise e, c)
           end.

Definition query {A} (q : db -> outcome A) : M connection A :=
  fun c => (q (working c), c).

Definition commit : M connection unit :=
  fun c => (Return tt, Connection (working c) (working c)).

Definition close : M connection unit :=
  fun c => (Return tt, Connection (durable c) (durable c)).

(** [conn = get_connection()] and the part of a function from there to
    its return; when the connection is not made the exception leaves the
    function. *)
Definition with_connection {A} (body : M connection A) : M db A :=
  fun d => match get_connection d with
           | Return conn => let '(o, c) := body conn in (o, durable c)
           | Raise e => (Raise e, d)
           end.

(** Cursor result sets: [fetchone] hands out the next row and moves on. *)
Definition fetchone {R} (pending : list R) : option R * list R :=
  match pending with
  | [] => (None, [])
  | r :: rest => (Some r, rest)
  end.

Definition fetchall {R} (pending : list R) : list R * list R := (pending, []).

(** The rows of a table; a table that does not exist has none. *)
Definition table_rows {R} (t : option (table R)) : list R :=
  match t with
  | Some t => rows t
  | None => []
  end.

(** No two rows of [budget_plans] agree on the unique key. *)
Definition budget_plans_unique (d : db) : Prop :=
  match budget_plans d with
  | None => True
  | Some t => NoDup (map budget_key (rows t))
  end.

(** [SELECT u.id, u.username, u.email, u.created_at, u.last_login,
    p.currency, p.language, p.theme, p.notifications FROM users u
    LEFT JOIN user_preferences p ON u.id = p.user_id WHERE u.id = ?]:
    every user row under the key, with each of its preference rows or,
    when it has none, alone. *)
Definition select_user_info (user_id : Z) (d : db)
  : outcome (list (user_row * option preference_row)) :=
  match users d with
  | None => Raise (no_such_table "users")
  | Some tu =>
      match user_preferences d with
      | None => Raise (no_such_table "user_preferences")
      | Some tp =>
          Return
            (flat_map
               (fun u =>
                  match filter (fun p => (p_user_id p =? u_id u)%Z) (rows tp) with
                  | [] => [(u, None)]
                  | ps => map (fun p => (u, Some p)) ps
                  end)
               (filter (fun u => (u_id u =? user_id)%Z) (rows tu)))
      end
  end.

End Database.

(* ================================================================== *)
(** * utils/auth.py *)

Module Auth.
Import PyStr Py Database.
Local Open Scope string_scope.
Local Open Scope py_scope.

(** [secrets.token_hex(n)]: the hexadecimal text of the [n] random bytes
    the operating system handed out. *)
Definition token_hex (random_bytes : list N) : str :=
  string_of_list_ascii (flat_map Sha256.hex_byte random_bytes).

(** [hash_password(password, salt=None)]; [random_bytes] is the entropy
    [secrets] draws when no salt is given.  Returns [(hash, salt)], or
    raises what [pwd_salt.encode()] raises. *)
Definition hash_password (password : str) (salt : option str)
    (random_bytes : list N) : outcome (str * str) :=
  let salt := match salt with
              | None => token_hex random_bytes
              | Some s => s
              end in
  let pwd_salt := password ++ salt in
  match Utf8.encode pwd_salt with
  | Raise e => Raise e
  | Return data =>
      let password_hash := Sha256.hexdigest data in
      Return (password_hash, salt)
  end.

(** [a, b = l] *)
Definition unpack2 (l : list str) : outcome (str * str) :=
  match l with
  | [a; b] => Return (a, b)
  | [] | [_] => Raise (Exn ValueError "not enough values to unpack (expected 2)")
  | _ => Raise (Exn ValueError "too many values to unpack (expected 2)")
  end.

(** [verify_password]: whatever is raised inside its [try] is answered
    with [False]. *)
Definition verify_password (password stored_hash : str) : bool :=
  let attempt :=
    match unpack2 (split colon stored_hash) with
    | Return (salt, hash_value) =>
        match hash_password password (Some salt) [] with
        | Return (computed_hash, _) => Return (String.eqb computed_hash hash_value)
        | Raise e => Raise e
        end
    | Raise e => Raise e
    end in
  match attempt with
  | Return b => b
  | Raise _ => false
  end.

Definition failure (message : str) : value :=
  VDict [("success", VBool false); ("message", VStr message)].

(** [register_user]: the two checks; then [hash_password] and
    [get_connection()], whose exceptions leave the function; then the
    [try] block with its handler. *)
Definition register_user (random_bytes : list N) (now : timestamp)
    (username password : str) (email : option str) : M db value :=
  if String.eqb username "" || (len username <? 3)%nat then
    ret (failure "Username must be at least 3 characters long")
  else if String.eqb password "" || (len password <? 6)%nat then
    ret (failure "Password must be at least 6 characters long")
  else
    hashed <- lift (hash_password password None random_bytes) ;;
    let '(pwd_hash, salt) := hashed in
    let stored_hash := salt ++ ":" ++ pwd_hash in
    with_connection
      (try_except
         (user_id <- execute (insert_user username stored_hash email now) ;;
          _ <- execute (insert_preferences user_id) ;;
          commit ;;;
          close ;;;
          ret (VDict [("success", VBool true);
                      ("message", VStr "Account created successfully!");
                      ("user_id", VInt user_id)]))
         (fun e =>
            close ;;;
            if contains "UNIQUE constraint failed" (exn_msg e)
            then ret (failure "Username already exists")
            else ret (failure ("Error creating account: " ++ exn_msg e)))).

(** The message the [except] branch of [register_user] answers with. *)
Definition register_handler_message (e : exn) : str :=
  if contains "UNIQUE constraint failed" (exn_msg e)
  then "Username already exists"
  else "Error creating account: " ++ exn_msg e.

(** [login_user]: [get_connection()], whose exception leaves the
    function; then the [try] block with its handler. *)
Definition login_user (now : timestamp) (username password : str)
  : M db value :=
  with_connection
    (try_except
       (result <- query (select_user_by_username username) ;;
        match fst (fetchone result) with
        | None =>
            close ;;;
            ret (failure "Invalid username or password")
        | Some user =>
            if verify_password password (u_password_hash user) then
              execute (update_last_login now (u_id user)) ;;;
              commit ;;;
              close ;;;
              ret (VDict [("success", VBool true);
                          ("message", VStr "Login successful!");
                          ("user_id", VInt (u_id user));
                          ("username", VStr (u_username user))])
            else
              close ;;;
              ret (failure "Invalid username or password")
        end)
       (fun e =>
          close ;;;
          ret (failure ("Login error: " ++ exn_msg e)))).

(** The row a successful [register_user] writes to [users] under the
    key [id]. *)
Definition registered_user (random_bytes : list N) (now : timestamp)
    (username password : str) (email : option str) (id : Z) : user_row :=
  UserRow id username
    (token_hex random_bytes ++ ":"
       ++ Sha256.hexdigest (password ++ token_hex random_bytes))
    email (Some now) None.

Definition text_or_none (o : option str) : value :=
  match o with
  | Some s => VStr s
  | None => VNone
  end.

(** [dict(user)] for a row of the join of [get_user_info]; the columns of
    a missing preference row are [None]. *)
Definition dict_of_user_info (row : user_row * option preference_row) : value :=
  let (u, p) := row in
  VDict [("id", VInt (u_id u));
         ("username", VStr (u_username u));
         ("email", text_or_none (u_email u));
         ("created_at", text_or_none (u_created_at u));
         ("last_login", text_or_none (u_last_login u));
         ("currency", text_or_none (option_map p_currency p));
         ("language", text_or_none (option_map p_language p));
         ("theme", text_or_none (option_map p_theme p));
         ("notifications",
           match p with
           | Some p => VInt (p_notifications p)
           | None => VNone
           end)].

(** [get_user_info(user_id)]: the dict of the user, or [None]. *)
Definition get_user_info (user_id : Z) : M db value :=
  with_connection
    (cursor <- query (select_user_info user_id) ;;
     let user := fst (fetchone cursor) in
     close ;;;
     match user with
     | Some row => ret (dict_of_user_info row)
     | None => ret VNone
     end).

(** The placeholder of a bound parameter. *)
Definition question_mark : ascii := "?"%char.

(** The keys [update_user_preferences] lets through. *)
Definition preference_fields : list string :=
  ["currency"; "language"; "theme"; "notifications"].

(** The loop over [kwargs.items()] of [update_user_preferences]:
    [fields] and [values]. *)
Fixpoint collect_updates (kwargs : list (string * value))
  : list string * list value :=
  match kwargs with
  | [] => ([], [])
  | (key, v) :: rest =>
      let (fields, values) := collect_updates rest in
      if existsb (String.eqb key) preference_fields
      then ((key ++ " = ?") :: fields, v :: values)
      else (fields, values)
  end.

(** [sep.join(l)] *)
Fixpoint join (sep : string) (l : list string) : string :=
  match l with
  | [] => ""
  | [x] => x
  | x :: rest => x ++ sep ++ join sep rest
  end.

(** What [update_user_preferences(user_id, **kwargs)] hands to
    [cursor.execute], the query and its parameters; [None] when no key is
    let through and the function returns [False] without a statement. *)
Definition preferences_update (user_id : Z) (kwargs : list (string * value))
  : option (str * list value) :=
  let (fields, values) := collect_updates kwargs in
  match fields with
  | [] => None
  | _ =>
      Some ("UPDATE user_preferences SET " ++ join ", " fields
              ++ " WHERE user_id = ?",
            (values ++ [VInt user_id])%list)
  end.

End Auth.

(* ================================================================== *)
(** * The ledger functions [utils/data_export.py] imports

    [models/expense.py], [models/income.py] and [models/budget.py] are not
    among the sources; what follows is their contract as the specification
    words it. *)

Module Models.
Import PyStr Py Database.
Local Open Scope string_scope.
Local Open Scope py_scope.

Definition result (success : bool) (message : str) : value :=
  VDict [("success", VBool success); ("message", VStr message)].

Definition optional_text (v : value) : option str :=
  match v with
  | VStr s => Some s
  | _ => None
  end.

(** Modelled from the spec: [add_expense] of [models/expense.py] is
    missing.  Ingestion is where a record whose (category, subcategory)
    pair is outside the taxonomy is rejected; an accepted record becomes
    one row of [expenses]; the caller gets a structured result. *)
Definition add_expense (now : timestamp) (user_id : Z)
    (category subcategory : value) (amount : Q) (expense_date : date)
    (description tags : value) : M db value :=
  match category, subcategory with
  | VStr c, VStr s =>
      if Categories.in_taxonomy c s then
        fun d =>
          match insert_expense user_id c s amount (optional_text description)
                  expense_date (optional_text tags) now d with
          | Return (_, d') => (Return (result true "Expense added successfully!"), d')
          | Raise e => (Return (result false ("Error adding expense: " ++ exn_msg e)), d)
          end
      else ret (result false "Invalid category or subcategory")
  | _, _ => ret (result false "Invalid category or subcategory")
  end.

(** Modelled from the spec: [add_income] of [models/income.py] is
    missing.  Income carries a flat source label; an accepted record
    becomes one row of [income]. *)
Definition add_income (now : timestamp) (user_id : Z) (source : value)
    (amount : Q) (income_date : date) (description : value) : M db value :=
  match source with
  | VStr src =>
      fun d =>
        match insert_income user_id src amount income_date
                (optional_text description) now d with
        | Return (_, d') => (Return (result true "Income added successfully!"), d')
        | Raise e => (Return (result false ("Error adding income: " ++ exn_msg e)), d)
        end
  | _ => ret (result false "Invalid income source")
  end.

(** Modelled from the spec: the statement behind [set_budget] is
    missing.  The record store upserts on the unique budget-plan key: a
    plan already stored under the key gives way to the new one. *)
Definition upsert_budget_plan (user_id : Z) (category subcategory : str)
    (planned_amount : Q) (month year : Z) (now : timestamp) (d : db)
  : outcome (Z * db) :=
  match budget_plans d with
  | None => Raise (no_such_table "budget_plans")
  | Some t =>
      let key := (user_id, category, subcategory, month, year) in
      let kept := filter (fun r => negb (budget_key_eqb (budget_key r) key))
                         (rows t) in
      let id := next_rowid b_id t in
      let r := BudgetPlanRow id user_id category subcategory
                 planned_amount month year (Some now) in
      Return (id, set_budget_plans d (Table (kept ++ [r]) id))
  end.

(** Modelled from the spec: [set_budget] of [models/budget.py] is
    missing.  A plan whose pair is outside the taxonomy is rejected; an
    accepted plan is upserted. *)
Definition set_budget (now : timestamp) (user_id : Z)
    (category subcategory : value) (planned_amount : Q) (month year : Z)
  : M db value :=
  match category, subcategory with
  | VStr c, VStr s =>
      if Categories.in_taxonomy c s then
        fun d =>
          match upsert_budget_plan user_id c s planned_amount month year now d with
          | Return (_, d') => (Return (result true "Budget set successfully!"), d')
          | Raise e => (Return (result false ("Error setting budget: " ++ exn_msg e)), d)
          end
      else ret (result false "Invalid category or subcategory")
  | _, _ => ret (result false "Invalid category or subcategory")
  end.

(** From [d] to [d'], every expense and every budget plan that is new
    has its (category, subcategory) pair in the taxonomy. *)
Definition only_taxonomy_rows_added (d d' : db) : Prop :=
  (forall r, In r (table_rows (expenses d')) ->
     In r (table_rows (expenses d)) \/
     Categories.in_taxonomy (e_category r) (e_subcategory r) = true) /\
  (forall r, In r (table_rows (budget_plans d')) ->
     In r (table_rows (budget_plans d)) \/
     Categories.in_taxonomy (b_category r) (b_subcategory r) = true).

(** The (category, subcategory) pair a backup record carries, when both
    are texts. *)
Definition pair_of_record (record : value) : option (str * str) :=
  match getitem record "category", getitem record "subcategory" with
  | Return (VStr c), Return (VStr s) => Some (c, s)
  | _, _ => None
  end.

Definition record_in_taxonomy (record : value) : Prop :=
  exists c s, pair_of_record record = Some (c, s) /\
              Categories.in_taxonomy c s = true.

End Models.

(* ================================================================== *)
(** * The analytics the claims refer to

    The reconciler and the monthly balance live in [models/budget.py] and
    [models/income.py], which are not among the sources; they are written
    here from sections 4.2, 6 and 8 and the glossary of the specification.
    Amounts are decimal quantities, modelled as rationals. *)

Module Analytics.
Import PyStr Py Database.
Local Open Scope Q_scope.

Inductive status := UnderBudget | OnTrack | OverBudget | NoBudgetSet.

Definition status_text (s : status) : string :=
  match s with
  | UnderBudget => "Under Budget"
  | OnTrack => "On Track"
  | OverBudget => "Over Budget"
  | NoBudgetSet => "No Budget Set"
  end.

Record comparison_row := ComparisonRow {
  c_category : str;
  c_subcategory : str;
  c_planned_amount : Q;
  c_actual_amount : Q;
  c_difference : Q;
  c_percentage : option Q;
  c_status : status }.

Definition Qltb (a b : Q) : bool := negb (Qle_bool b a).

(** Nearest integer, a tie going to the even neighbour, as [round] does. *)
Definition round_half_even (q : Q) : Z :=
  let f := Qfloor q in
  match Qcompare (q - inject_Z f) (1 # 2) with
  | Lt => f
  | Gt => (f + 1)%Z
  | Eq => if Z.even f then f else (f + 1)%Z
  end.

(** [round(q, 1)] *)
Definition round1 (q : Q) : Q := round_half_even (q * 10) # 10.

(** Modelled from the spec: the status rule of the reconciler
    ([models/budget.py], missing).  The thresholds of section 4.2, applied
    when a plan exists: under 90 is Under Budget, 90 to 110 On Track,
    above 110 Over Budget. *)
Definition status_of_percentage (percentage : Q) : status :=
  if Qltb percentage 90 then UnderBudget
  else if Qle_bool percentage 110 then OnTrack
  else OverBudget.

Definition in_period (d : date) (month year : Z) : bool :=
  ((month_of d =? month) && (year_of d =? year))%Z.

Definition Qsum (l : list Q) : Q := fold_right Qplus 0 l.

Definition pair_eqb (k1 k2 : str * str) : bool :=
  String.eqb (fst k1) (fst k2) && String.eqb (snd k1) (snd k2).

Fixpoint dedup (l : list (str * str)) : list (str * str) :=
  match l with
  | [] => []
  | k :: l' => k :: filter (fun k' => negb (pair_eqb k' k)) (dedup l')
  end.

(** Planned amount of a pair in the period; no plan counts as zero. *)
Definition planned_for (plans : list budget_plan_row) (month year : Z)
    (k : str * str) : Q :=
  Qsum (map b_planned_amount
          (filter (fun r => pair_eqb (b_category r, b_subcategory r) k &&
                            (b_month r =? month)%Z && (b_year r =? year)%Z)
                  plans)).

(** Actual spend of a pair in the period, as the Aggregator sums it. *)
Definition actual_for (actuals : list expense_row) (month year : Z)
    (k : str * str) : Q :=
  Qsum (map e_amount
          (filter (fun r => pair_eqb (e_category r, e_subcategory r) k &&
                            in_period (e_expense_date r) month year)
                  actuals)).

(** Modelled from the spec: one comparison row of the reconciler
    ([models/budget.py], missing), sections 4.2 and 8.  With a plan, the
    percentage is [round(actual / planned * 100, 1)] and the status
    follows the thresholds; with no plan and some spend the percentage is
    the sentinel and the status No Budget Set; with neither there is no
    row. *)
Definition comparison (k : str * str) (planned actual : Q)
  : option comparison_row :=
  if Qltb 0 planned then
    let percentage := round1 (actual / planned * 100) in
    Some (ComparisonRow (fst k) (snd k) planned actual (actual - planned)
            (Some percentage) (status_of_percentage percentage))
  else if Qltb 0 actual then
    Some (ComparisonRow (fst k) (snd k) planned actual (actual - planned)
            None NoBudgetSet)
  else None.

Fixpoint somes {A} (l : list (option A)) : list A :=
  match l with
  | [] => []
  | Some a :: l' => a :: somes l'
  | None :: l' => somes l'
  end.

(** Modelled from the spec: [reconcile(plans, actuals, month, year)] of
    section 4.2 ([get_budget_vs_actual] of [models/budget.py], missing),
    one row for every pair that has a plan or spend in the period. *)
Definition reconcile (plans : list budget_plan_row) (actuals : list expense_row)
    (month year : Z) : list comparison_row :=
  let planned_pairs :=
    map (fun r => (b_category r, b_subcategory r))
        (filter (fun r => (b_month r =? month)%Z && (b_year r =? year)%Z) plans) in
  let spent_pairs :=
    map (fun r => (e_category r, e_subcategory r))
        (filter (fun r => in_period (e_expense_date r) month year) actuals) in
  somes (map (fun k => comparison k (planned_for plans month year k)
                                    (actual_for actuals month year k))
             (dedup (planned_pairs ++ spent_pairs))).

Record balance_info := BalanceInfo {
  income_total : Q;
  expenses_total : Q;
  balance : Q;
  savings_rate : Q }.

(** Modelled from the spec: [fetch_monthly_balance(user_id, month, year)]
    of section 6 ([get_monthly_balance] of [models/income.py], missing):
    the totals of the period, their difference, and the savings rate of
    the glossary, [(income - expenses) / income * 100]; a period without
    income has rate zero. *)
Definition fetch_monthly_balance (d : db) (user_id month year : Z)
  : balance_info :=
  let inc := Qsum (map i_amount
      (filter (fun r => (i_user_id r =? user_id)%Z &&
                        in_period (i_income_date r) month year)
              (table_rows (income d)))) in
  let exp := Qsum (map e_amount
      (filter (fun r => (e_user_id r =? user_id)%Z &&
                        in_period (e_expense_date r) month year)
              (table_rows (expenses d)))) in
  BalanceInfo inc exp (inc - exp)
    (if Qltb 0 inc then (inc - exp) / inc * 100 else 0).

End Analytics.

(* ================================================================== *)
(** * Write logs *)

Module Session.
Import PyStr Py Database.

(** The statements that write to the file: those of [init_database] and
    the inserts, each committed on its own. *)
Inductive statement :=
| InitDatabase
| InsertUser (username password_hash : str) (email : option str)
             (created_at : timestamp)
| InsertPreferences (user_id : Z)
| InsertBudgetPlan (user_id : Z) (category subcategory : str)
                   (planned_amount : Q) (month year : Z) (now : timestamp)
| UpsertBudgetPlan (user_id : Z) (category subcategory : str)
                   (planned_amount : Q) (month year : Z) (now : timestamp)
| InsertExpense (user_id : Z) (category subcategory : str) (amount : Q)
                (description : option str) (expense_date : date)
                (tags : option str) (now : timestamp)
| InsertIncome (user_id : Z) (source : str) (amount : Q) (income_date : date)
               (description : option str) (now : timestamp).

Definition after {A} (o : outcome (A * db)) (d : db) : db :=
  match o with
  | Return (_, d') => d'
  | Raise _ => d
  end.

(** One committed statement; a statement that raises changes nothing. *)
Definition run (d : db) (s : statement) : db :=
  match s with
  | InitDatabase => init_database d
  | InsertUser u h e c => after (insert_user u h e c d) d
  | InsertPreferences uid => after (insert_preferences uid d) d
  | InsertBudgetPlan uid c s a m y now =>
      after (insert_budget_plan uid c s a m y now d) d
  | UpsertBudgetPlan uid c s a m y now =>
      after (Models.upsert_budget_plan uid c s a m y now d) d
  | InsertExpense uid c s a de dt tg now =>
      after (insert_expense uid c s a de dt tg now d) d
  | InsertIncome uid src a dt de now =>
      after (insert_income uid src a dt de now d) d
  end.

Definition run_all (d : db) (log : list statement) : db := fold_left run log d.

End Session.

(* ================================================================== *)
(** * utils/data_export.py *)

Module DataExport.
Import PyStr Py Database.
Local Open Scope string_scope.
Local Open Scope py_scope.

Definition opt_text (o : option str) : value :=
  match o with
  | Some s => VStr s
  | None => VNone
  end.

(** [dict(row)] for a row of [budget_plans]. *)
Definition dict_of_budget_plan (r : budget_plan_row) : value :=
  VDict [("id", VInt (b_id r)); ("user_id", VInt (b_user_id r));
         ("category", VStr (b_category r));
         ("subcategory", VStr (b_subcategory r));
         ("planned_amount", VFloat (b_planned_amount r));
         ("month", VInt (b_month r)); ("year", VInt (b_year r));
         ("created_at", opt_text (b_created_at r))].

(** [dict(x)] for what [fetchone] gave on [user_preferences]: a row, or
    [None], which is not iterable. *)
Definition dict_of_fetched_preferences (x : option preference_row)
  : outcome value :=
  match x with
  | Some r =>
      Return (VDict [("id", VInt (p_id r)); ("user_id", VInt (p_user_id r));
                     ("currency", VStr (p_currency r));
                     ("language", VStr (p_language r));
                     ("theme", VStr (p_theme r));
                     ("notifications", VInt (p_notifications r))])
  | None => Raise (Exn TypeError "'NoneType' object is not iterable")
  end.

(** Truth value of what [fetchone] gave: [None] is false, a row (which
    has columns) is true. *)
Definition fetched_truthy {R} (x : option R) : bool :=
  match x with
  | Some _ => true
  | None => false
  end.

(** A call to a function that opens a connection of its own. *)
Definition call {A} (f : M db A) : M connection A :=
  fun c => let '(o, d') := f (durable c) in (o, Connection d' (working c)).

Definition py_float (parse_float : str -> option Q) (v : value) : outcome Q :=
  match v with
  | VInt z => Return (inject_Z z)
  | VFloat q => Return q
  | VBool b => Return (if b then 1%Q else 0%Q)
  | VStr s =>
      match parse_float s with
      | Some q => Return q
      | None => Raise (Exn ValueError ("could not convert string to float: '" ++ s ++ "'"))
      end
  | _ => Raise (Exn TypeError
                  ("float() argument must be a string or a real number, not '"
                   ++ type_name v ++ "'"))
  end.

Definition py_int (parse_int : str -> option Z) (v : value) : outcome Z :=
  match v with
  | VInt z => Return z
  | VFloat q => Return (Qnum q ÷ Z.pos (Qden q))%Z
  | VBool b => Return (if b then 1%Z else 0%Z)
  | VStr s =>
      match parse_int s with
      | Some z => Return z
      | None => Raise (Exn ValueError
                         ("invalid literal for int() with base 10: '" ++ s ++ "'"))
      end
  | _ => Raise (Exn TypeError
                  ("int() argument must be a string, a bytes-like object or a real number, not '"
                   ++ type_name v ++ "'"))
  end.

(** [datetime.fromisoformat(v).date()] *)
Definition isoformat_date (fromisoformat : str -> option date) (v : value)
  : outcome date :=
  match v with
  | VStr s =>
      match fromisoformat s with
      | Some d => Return d
      | None => Raise (Exn ValueError ("Invalid isoformat string: '" ++ s ++ "'"))
      end
  | _ => Raise (Exn TypeError "fromisoformat: argument must be str")
  end.

Definition and_then {A B} (o : outcome A) (k : A -> outcome B) : outcome B :=
  match o with
  | Return a => k a
  | Raise e => Raise e
  end.

(** The dict [restored] of [restore_from_backup]. *)
Record counters := Counters {
  n_expenses : nat;
  n_income : nat;
  n_budgets : nat }.

Definition decimal (n : nat) : string := NilZero.string_of_uint (Nat.to_uint n).

Section Imports.
(** Library calls and the ledger functions the module imports. *)
Variable get_expenses : Z -> M db (list value).
Variable get_income : Z -> M db (list value).
Variable now_isoformat : str.
Variable json_dumps : value -> str.
Variable json_loads : str -> outcome value.
Variable parse_float : str -> option Q.
Variable parse_int : str -> option Z.
Variable fromisoformat : str -> option date.
Variable add_expense :
  Z -> value -> value -> Q -> date -> value -> value -> M db value.
Variable add_income : Z -> value -> Q -> date -> value -> M db value.
Variable set_budget : Z -> value -> value -> Q -> Z -> Z -> M db value.

(** A DataFrame is the list of its records; [df.to_dict('records') if
    not df.empty else []]. *)
Definition records (df : list value) : list value :=
  match df with
  | [] => []
  | _ => df
  end.

Definition create_full_backup (user_id : Z) : M db value :=
  with_connection
    (df_expenses <- call (get_expenses user_id) ;;
     let expenses := records df_expenses in
     df_income <- call (get_income user_id) ;;
     let income := records df_income in
     cursor <- query (select_budget_plans user_id) ;;
     let budgets := map dict_of_budget_plan (fst (fetchall cursor)) in
     cursor <- query (select_preferences user_id) ;;
     (* dict(cursor.fetchone()) if cursor.fetchone() else {} *)
     let '(condition, cursor) := fetchone cursor in
     preferences <-
       (if fetched_truthy condition
        then lift (dict_of_fetched_preferences (fst (fetchone cursor)))
        else ret (VDict [])) ;;
     close ;;;
     ret (VDict [("backup_date", VStr now_isoformat);
                 ("version", VStr "1.0");
                 ("user_id", VInt user_id);
                 ("expenses", VList expenses);
                 ("income", VList income);
                 ("budgets", VList budgets);
                 ("preferences", preferences)])).

Definition export_backup_json (user_id : Z) : M db str :=
  backup_data <- create_full_backup user_id ;;
  ret (json_dumps backup_data).

Definition restore_expense (user_id : Z) (restored : counters) (exp : value)
  : M db counters :=
  category <- lift (getitem exp "category") ;;
  subcategory <- lift (getitem exp "subcategory") ;;
  amount <- lift (and_then (getitem exp "amount") (py_float parse_float)) ;;
  expense_date <- lift (and_then (getitem exp "expense_date")
                                 (isoformat_date fromisoformat)) ;;
  description <- lift (get_method exp "description" (VStr "")) ;;
  tags <- lift (get_method exp "tags" (VStr "")) ;;
  result <- add_expense user_id category subcategory amount expense_date
                        description tags ;;
  success <- lift (getitem result "success") ;;
  if truthy success
  then ret (Counters (S (n_expenses restored)) (n_income restored)
                     (n_budgets restored))
  else ret restored.

Definition restore_income (user_id : Z) (restored : counters) (inc : value)
  : M db counters :=
  source <- lift (getitem inc "source") ;;
  amount <- lift (and_then (getitem inc "amount") (py_float parse_float)) ;;
  income_date <- lift (and_then (getitem inc "income_date")
                                (isoformat_date fromisoformat)) ;;
  description <- lift (get_method inc "description" (VStr "")) ;;
  result <- add_income user_id source amount income_date description ;;
  success <- lift (getitem result "success") ;;
  if truthy success
  then ret (Counters (n_expenses restored) (S (n_income restored))
                     (n_budgets restored))
  else ret restored.

Definition restore_budget (user_id : Z) (restored : counters) (budget : value)
  : M db counters :=
  category <- lift (getitem budget "category") ;;
  subcategory <- lift (getitem budget "subcategory") ;;
  planned_amount <- lift (and_then (getitem budget "planned_amount")
                                   (py_float parse_float)) ;;
  month <- lift (and_then (getitem budget "month") (py_int parse_int)) ;;
  year <- lift (and_then (getitem budget "year") (py_int parse_int)) ;;
  result <- set_budget user_id category subcategory planned_amount month year ;;
  success <- lift (getitem result "success") ;;
  if truthy success
  then ret (Counters (n_expenses restored) (n_income restored)
                     (S (n_budgets restored)))
  else ret restored.

(** The body of the [try] block. *)
Definition restore_body (user_id : Z) (backup_json : str) : M db value :=
  backup_data <- lift (json_loads backup_json) ;;
  let restored := Counters 0 0 0 in
  items <- lift (and_then (get_method backup_data "expenses" (VList [])) iterate) ;;
  restored <- for_each items restored (restore_expense user_id) ;;
  items <- lift (and_then (get_method backup_data "income" (VList [])) iterate) ;;
  restored <- for_each items restored (restore_income user_id) ;;
  items <- lift (and_then (get_method backup_data "budgets" (VList [])) iterate) ;;
  restored <- for_each items restored (restore_budget user_id) ;;
  ret (VDict
         [("success", VBool true);
          ("message",
            VStr ("Restored " ++ decimal (n_expenses restored) ++ " expenses, "
                  ++ decimal (n_income restored) ++ " income entries, "
                  ++ decimal (n_budgets restored) ++ " budgets"));
          ("details",
            VDict [("expenses", VInt (Z.of_nat (n_expenses restored)));
                   ("income", VInt (Z.of_nat (n_income restored)));
                   ("budgets", VInt (Z.of_nat (n_budgets restored)))])]).

Definition restore_from_backup (user_id : Z) (backup_json : str) : M db value :=
  try_except
    (restore_body user_id backup_json)
    (fun e =>
       ret (VDict [("success", VBool false);
                   ("message", VStr ("Error restoring backup: " ++ exn_msg e))])).

End Imports.

End DataExport.

(* ================================================================== *)
(** * app.py: the form handlers of the login page and the entry point

    What Streamlit draws is a log of widgets; [st.session_state] and the
    database are the state. *)

Module App.
Import PyStr Py Database.
Local Open Scope string_scope.
Local Open Scope py_scope.

Inductive widget :=
| StError (message : value)
| StSuccess (message : value)
| StBalloons
| StRerun.

Record state := State {
  session_user_id : value;
  session_username : value;
  database : db;
  screen : list widget }.

Definition show (w : widget) : M state unit :=
  fun s => (Return tt,
            State (session_user_id s) (session_username s) (database s)
                  (screen s ++ [w])%list).

Definition set_session_user_id (v : value) : M state unit :=
  fun s => (Return tt, State v (session_username s) (database s) (screen s)).

Definition set_session_username (v : value) : M state unit :=
  fun s => (Return tt, State (session_user_id s) v (database s) (screen s)).

(** A call into the modules that work on the database. *)
Definition on_database {A} (f : M db A) : M state A :=
  fun s => let (o, d') := f (database s) in
           (o, State (session_user_id s) (session_username s) d' (screen s)).


(** The body of [if submit:] of the registration form. *)
Definition register_submitted (random_bytes : list N) (now : timestamp)
    (new_username new_email new_password confirm_password : str)
  : M state unit :=
  if String.eqb new_username "" || String.eqb new_password "" then
    show (StError (VStr "Username and password are required"))
  else if negb (String.eqb new_password confirm_password) then
    show (StError (VStr "Passwords do not match"))
  else
    result <- on_database (Auth.register_user random_bytes now new_username
                             new_password (Some new_email)) ;;
    success <- lift (getitem result "success") ;;
    if truthy success then
      message <- lift (getitem result "message") ;;
      show (StSuccess message) ;;;
      show StBalloons
    else
      message <- lift (getitem result "message") ;;
      show (StError message).

(** The logout button of the sidebar. *)
Definition logout_clicked : M state unit :=
  set_session_user_id VNone ;;;
  set_session_username VNone ;;;
  show StRerun.

Inductive page := LoginPage | DashboardPage.

(** [main()]: the login page as long as the session holds no user. *)
Definition main (s : state) : page :=
  match session_user_id s with
  | VNone => LoginPage
  | _ => DashboardPage
  end.

End App.

(* ================================================================== *)
(** * Histories of calls

    The three functions of the sources that write to [users] and
    [user_preferences], called one after the other on the file. *)

Module Calls.
Import PyStr Py Database.

Inductive call :=
| Init
| Register (random_bytes : list N) (now : timestamp)
           (username password : str) (email : option str)
| Login (now : timestamp) (username password : str).

Definition perform (d : db) (c : call) : db :=
  match c with
  | Init => init_database d
  | Register rb now u p email => snd (Auth.register_user rb now u p email d)
  | Login now u p => snd (Auth.login_user now u p d)
  end.

Definition perform_all (d : db) (history : list call) : db :=
  fold_left perform history d.

(** All six tables exist. *)
Definition initialised (d : db) : Prop :=
  users d <> None /\ budget_plans d <> None /\ expenses d <> None /\
  income d <> None /\ user_preferences d <> None /\ ai_predictions d <> None.

(** Users and their preferences go together: names and keys are not
    repeated, every user has a preference row and every preference row
    a user. *)
Definition users_consistent (d : db) : Prop :=
  NoDup (map u_username (table_rows (users d))) /\
  NoDup (map u_id (table_rows (users d))) /\
  NoDup (map p_user_id (table_rows (user_preferences d))) /\
  (forall u, In u (table_rows (users d)) ->
     In (u_id u) (map p_user_id (table_rows (user_preferences d)))) /\
  (forall p, In p (table_rows (user_preferences d)) ->
     In (p_user_id p) (map u_id (table_rows (users d)))).

(** What holds after every history: the file is as it was created, or
    all tables exist and users and preferences go together. *)
Definition well_formed (d : db) : Prop :=
  d = empty_db \/ (initialised d /\ users_consistent d).

End Calls.

(* ================================================================== *)
(* ================================================================== *)
(** * Properties *)

Local Open Scope string_scope.

(** ** Dictionaries and the taxonomy *)

Section DictFacts.
Import PyDict.
Context {V : Type}.

Lemma get_not_key (d : dict V) (k : string) :
  ~ In k (keys d) -> get d k = None.
Proof.
  induction d as [|[k' v] d IH]; simpl; intros Hk; [reflexivity|].
  destruct (String.eqb_spec k k') as [->|Hne].
  - exfalso. apply Hk. now left.
  - apply IH. intros Hin. apply Hk. now right.
Qed.

Lemma get_some_key (d : dict V) (k : string) (v : V) :
  get d k = Some v -> In k (keys d).
Proof.
  induction d as [|[k' v'] d IH]; simpl; [discriminate|].
  destruct (String.eqb_spec k k') as [->|Hne]; intros H.
  - now left.
  - right. now apply IH.
Qed.
End DictFacts.

Section TaxonomyFacts.
Import PyDict Categories.

Lemma distinct_NoDup (l : list string) : distinct l = true -> NoDup l.
Proof.
  induction l as [|x l IH]; simpl; intros H; constructor.
  - apply andb_prop in H as [H _]. intros Hin.
    apply negb_true_iff in H.
    assert (existsb (String.eqb x) l = true) as E
      by (apply existsb_exists; exists x; split; [exact Hin | apply String.eqb_refl]).
    congruence.
  - apply IH. now apply andb_prop in H as [_ H].
Qed.

Lemma all_categories_configured :
  forallb category_configured get_all_categories = true.
Proof. vm_compute. reflexivity. Qed.

Lemma has_key_get {V} (d : dict V) k :
  has_key d k = true -> exists v, get d k = Some v.
Proof. unfold has_key. destruct (get d k) as [v|]; [eauto | discriminate]. Qed.
End TaxonomyFacts.

(** C7. The taxonomy is a total, consistent configuration:
    [get_all_categories()] is exactly the key list of [BUDGET_CATEGORIES]
    (twelve distinct names); every such category has a non-empty
    subcategory list, which is what [get_subcategories] returns, and an
    entry in [CATEGORY_COLORS] and in [CATEGORY_ICONS]; any other string
    gets the empty list from [get_subcategories]; and [INCOME_CATEGORIES]
    is a non-empty flat list of labels of its own, none of which is a
    category name. *)
Theorem taxonomy_total_and_consistent :
  Categories.get_all_categories = PyDict.keys Categories.BUDGET_CATEGORIES /\
  NoDup Categories.get_all_categories /\
  (forall c, In c (PyDict.keys Categories.BUDGET_CATEGORIES) ->
     (exists subs, PyDict.get Categories.BUDGET_CATEGORIES c = Some subs /\
                   Categories.get_subcategories c = subs /\ subs <> []) /\
     (exists colour, PyDict.get Categories.CATEGORY_COLORS c = Some colour) /\
     (exists icon, PyDict.get Categories.CATEGORY_ICONS c = Some icon)) /\
  (forall s, ~ In s (PyDict.keys Categories.BUDGET_CATEGORIES) ->
     Categories.get_subcategories s = []) /\
  Categories.get_income_categories = Categories.INCOME_CATEGORIES /\
  Categories.INCOME_CATEGORIES <> [] /\
  (forall l, In l Categories.INCOME_CATEGORIES ->
     ~ In l (PyDict.keys Categories.BUDGET_CATEGORIES)).
Proof.
  split; [reflexivity|].
  split; [apply distinct_NoDup; vm_compute; reflexivity|].
  split.
  { intros c Hc.
    pose proof all_categories_configured as Hall.
    rewrite forallb_forall in Hall. specialize (Hall c Hc).
    unfold Categories.category_configured in Hall.
    unfold Categories.get_subcategories, PyDict.get_default.
    destruct (PyDict.get Categories.BUDGET_CATEGORIES c) as [[|s subs]|];
      try discriminate.
    apply andb_prop in Hall as [Hall _]. apply andb_prop in Hall as [Hcol Hic].
    split; [|split].
    - exists (s :: subs). repeat split; congruence.
    - now apply has_key_get.
    - now apply has_key_get. }
  split.
  { intros s Hs. unfold Categories.get_subcategories, PyDict.get_default.
    now rewrite (get_not_key _ _ Hs). }
  split; [reflexivity|].
  split; [discriminate|].
  intros l Hl Hk.
  assert (forallb (fun l => negb (existsb (String.eqb l)
                    (PyDict.keys Categories.BUDGET_CATEGORIES)))
                  Categories.INCOME_CATEGORIES = true) as Hdisj
    by (vm_compute; reflexivity).
  rewrite forallb_forall in Hdisj. specialize (Hdisj l Hl).
  apply negb_true_iff in Hdisj.
  assert (existsb (String.eqb l) (PyDict.keys Categories.BUDGET_CATEGORIES) = true) as E
    by (apply existsb_exists; exists l; split; [exact Hk | apply String.eqb_refl]).
  congruence.
Qed.

(* ------------------------------------------------------------------ *)
(** ** Text: splitting at a separator *)

Section SplitFacts.
Import PyStr.
Variable sep : ascii.

Lemma split_not_nil (s : str) : split sep s <> [].
Proof.
  destruct s as [|c s]; simpl; [discriminate|].
  destruct (Ascii.eqb c sep); [discriminate|].
  destruct (split sep s); discriminate.
Qed.

Lemma split_length (s : str) : List.length (split sep s) = S (count sep s).
Proof.
  induction s as [|c s IH]; simpl; [reflexivity|].
  destruct (Ascii.eqb c sep); simpl; [now rewrite IH|].
  destruct (split sep s) as [|p ps] eqn:E; simpl in *; [discriminate | exact IH].
Qed.

Lemma count_has_char (s : str) : has_char sep s = false <-> count sep s = 0.
Proof.
  induction s as [|c s IH]; simpl; [tauto|].
  destruct (Ascii.eqb c sep); simpl; [split; discriminate | exact IH].
Qed.

Lemma split_without_separator (s : str) :
  has_char sep s = false -> split sep s = [s].
Proof.
  induction s as [|c s IH]; simpl; [reflexivity|].
  destruct (Ascii.eqb c sep); simpl; [discriminate|].
  intros H. now rewrite (IH H).
Qed.

Lemma split_at_first_separator (s t : str) :
  has_char sep s = false ->
  split sep (s ++ String sep t) = s :: split sep t.
Proof.
  induction s as [|c s IH]; simpl.
  - intros _. now rewrite Ascii.eqb_refl.
  - destruct (Ascii.eqb c sep); simpl; [discriminate|].
    intros H. now rewrite (IH H).
Qed.

Lemma has_char_of_list (l : list ascii) :
  has_char sep (string_of_list_ascii l) = existsb (fun d => Ascii.eqb d sep) l.
Proof. induction l as [|d l IH]; simpl; [reflexivity | now rewrite IH]. Qed.
End SplitFacts.

(* ------------------------------------------------------------------ *)
(** ** Hexadecimal text never holds a colon *)

Section HexFacts.
Import PyStr.

Lemma land_nibble (x : N) : (N.land x 0xf < 16)%N.
Proof.
  change 0xf%N with (N.ones 4). rewrite N.land_ones.
  apply N.mod_lt. discriminate.
Qed.

Lemma hex_digit_not_colon (n : N) :
  (n < 16)%N -> Ascii.eqb (Sha256.hex_digit n) colon = false.
Proof.
  intros H.
  assert (In n (map N.of_nat (seq 0 16))) as Hin.
  { replace n with (N.of_nat (N.to_nat n)) by apply N2Nat.id.
    apply in_map, in_seq. lia. }
  clear H. revert n Hin.
  apply (proj1 (Forall_forall
    (fun n => Ascii.eqb (Sha256.hex_digit n) colon = false) _)).
  repeat constructor.
Qed.

Lemma hex_word_no_colon (x : N) :
  existsb (fun d => Ascii.eqb d colon) (Sha256.hex_word x) = false.
Proof.
  unfold Sha256.hex_word. cbn [map existsb].
  rewrite !hex_digit_not_colon by apply land_nibble. reflexivity.
Qed.

Lemma hex_byte_no_colon (b : N) :
  existsb (fun d => Ascii.eqb d colon) (Sha256.hex_byte b) = false.
Proof.
  unfold Sha256.hex_byte. cbn [existsb].
  rewrite !hex_digit_not_colon by apply land_nibble. reflexivity.
Qed.

Lemma no_colon_in_hex_of (render : N -> list ascii) (ws : list N) :
  (forall w, existsb (fun d => Ascii.eqb d colon) (render w) = false) ->
  existsb (fun d => Ascii.eqb d colon) (flat_map render ws) = false.
Proof.
  intros H. induction ws as [|w ws IH]; simpl; [reflexivity|].
  now rewrite existsb_app, H, IH.
Qed.

Lemma hexdigest_no_colon (data : string) :
  has_char colon (Sha256.hexdigest data) = false.
Proof.
  unfold Sha256.hexdigest. rewrite has_char_of_list.
  apply no_colon_in_hex_of, hex_word_no_colon.
Qed.

Lemma token_hex_no_colon (random_bytes : list N) :
  has_char colon (Auth.token_hex random_bytes) = false.
Proof.
  unfold Auth.token_hex. rewrite has_char_of_list.
  apply no_colon_in_hex_of, hex_byte_no_colon.
Qed.
End HexFacts.

(* ------------------------------------------------------------------ *)
(** ** Texts that encode *)

Section Utf8Facts.
Import PyStr Py Utf8.

Lemma first_surrogate_encodable (s : str) :
  first_surrogate s = None <-> encodable s = true.
Proof.
  induction s as [|c s IH]; [simpl; tauto|].
  cbn [first_surrogate encodable].
  destruct (starts_with_surrogate (String c s)); cbn [negb andb].
  - split; discriminate.
  - destruct (first_surrogate s) as [[n from]|].
    + split; [discriminate|]. intros H. apply IH in H. discriminate.
    + split; [intros _; now apply IH | reflexivity].
Qed.

Lemma encode_encodable (s : str) : encodable s = true -> encode s = Return s.
Proof.
  intros H. unfold encode.
  now rewrite (proj2 (first_surrogate_encodable s) H).
Qed.

Lemma encode_returns (s data : str) :
  encode s = Return data -> encodable s = true /\ data = s.
Proof.
  unfold encode. destruct (first_surrogate s) as [[n from]|] eqn:F;
    [discriminate|].
  intros H. injection H as <-. split; [|reflexivity].
  now apply first_surrogate_encodable.
Qed.

Lemma encode_refuses (s : str) :
  encodable s = false ->
  exists message, encode s = Raise (Exn UnicodeEncodeError message).
Proof.
  intros H. unfold encode.
  destruct (first_surrogate s) as [[n from]|] eqn:F.
  - unfold surrogates_not_allowed. eauto.
  - apply first_surrogate_encodable in F. congruence.
Qed.

Lemma isascii_not_surrogate (s : str) :
  isascii s = true -> starts_with_surrogate s = false.
Proof.
  destruct s as [|a [|b s]]; try reflexivity.
  cbn [isascii starts_with_surrogate]. unfold surrogate_lead.
  intros H. apply andb_prop in H as [Ha _]. apply N.ltb_lt in Ha.
  destruct (N.eqb_spec (N_of_ascii a) 0xED) as [E|E]; [|reflexivity].
  rewrite E in Ha. discriminate.
Qed.

Lemma isascii_encodable (s : str) : isascii s = true -> encodable s = true.
Proof.
  induction s as [|c s IH]; [reflexivity|]. intros H.
  cbn [encodable]. rewrite (isascii_not_surrogate _ H).
  cbn [isascii] in H. apply andb_prop in H as [_ H]. now apply IH.
Qed.

Lemma isascii_app (a b : str) : isascii (a ++ b) = isascii a && isascii b.
Proof.
  induction a as [|c a IH]; [reflexivity|].
  cbn [append isascii]. now rewrite IH, andb_assoc.
Qed.

Lemma isascii_of_list (l : list ascii) :
  isascii (string_of_list_ascii l)
  = forallb (fun c => (N_of_ascii c <? 0x80)%N) l.
Proof. induction l as [|c l IH]; [reflexivity|]. simpl. now rewrite IH. Qed.

(** A text that encodes still does with ASCII text after it. *)
Lemma encodable_app_ascii (a b : str) :
  encodable a = true -> isascii b = true -> encodable (a ++ b) = true.
Proof.
  intros Ha Hb. induction a as [|c a IH]; [now apply isascii_encodable|].
  cbn [encodable] in Ha. apply andb_prop in Ha as [Hc Ha].
  cbn [append encodable]. rewrite (IH Ha), andb_true_r.
  destruct a as [|x a]; [|exact Hc].
  cbn [append]. destruct b as [|y b]; [reflexivity|].
  cbn [starts_with_surrogate]. unfold surrogate_lead.
  cbn [isascii] in Hb. apply andb_prop in Hb as [Hy _]. apply N.ltb_lt in Hy.
  destruct (N.leb_spec 0xA0 (N_of_ascii y)) as [L|L]; [lia|].
  now rewrite andb_false_r.
Qed.

(** A surrogate stays one whatever follows the text. *)
Lemma not_encodable_app (a b : str) :
  encodable a = false -> encodable (a ++ b) = false.
Proof.
  induction a as [|c a IH]; [discriminate|].
  cbn [append encodable]. intros H.
  apply andb_false_iff in H as [H|H].
  - destruct a as [|x a]; [discriminate|]. cbn [append].
    apply andb_false_iff. left. exact H.
  - apply andb_false_iff. right. now apply IH.
Qed.

Lemma hex_digit_ascii (n : N) :
  (n < 16)%N -> (N_of_ascii (Sha256.hex_digit n) <? 0x80)%N = true.
Proof.
  intros H.
  assert (In n (map N.of_nat (seq 0 16))) as Hin.
  { replace n with (N.of_nat (N.to_nat n)) by apply N2Nat.id.
    apply in_map, in_seq. lia. }
  clear H. revert n Hin.
  apply (proj1 (Forall_forall
    (fun n => (N_of_ascii (Sha256.hex_digit n) <? 0x80)%N = true) _)).
  repeat constructor.
Qed.

Lemma forallb_flat_map {A B} (f : B -> bool) (g : A -> list B) (l : list A) :
  (forall a, forallb f (g a) = true) -> forallb f (flat_map g l) = true.
Proof.
  intros H. induction l as [|a l IH]; [reflexivity|].
  simpl. now rewrite forallb_app, H, IH.
Qed.

Lemma token_hex_isascii (random_bytes : list N) :
  isascii (Auth.token_hex random_bytes) = true.
Proof.
  unfold Auth.token_hex. rewrite isascii_of_list.
  apply forallb_flat_map. intros b. unfold Sha256.hex_byte. cbn [forallb].
  now rewrite !hex_digit_ascii by apply land_nibble.
Qed.

Lemma hexdigest_isascii (data : string) : isascii (Sha256.hexdigest data) = true.
Proof.
  unfold Sha256.hexdigest. rewrite isascii_of_list.
  apply forallb_flat_map. intros w. unfold Sha256.hex_word. cbn [map forallb].
  now rewrite !hex_digit_ascii by apply land_nibble.
Qed.

(** What [register_user] stores as the hash is ASCII text. *)
Lemma stored_hash_isascii (random_bytes : list N) (data : string) :
  isascii (Auth.token_hex random_bytes ++ ":" ++ Sha256.hexdigest data) = true.
Proof.
  rewrite !isascii_app, token_hex_isascii, hexdigest_isascii. reflexivity.
Qed.

Lemma bind_text_encodable (s : str) :
  encodable s = true -> Database.bind_text s = Return tt.
Proof. intros H. unfold Database.bind_text. now rewrite encode_encodable. Qed.

Lemma bind_text_refuses (s : str) :
  encodable s = false ->
  exists message,
    Database.bind_text s = Raise (Exn UnicodeEncodeError message).
Proof.
  intros H. unfold Database.bind_text.
  destruct (encode_refuses s H) as [m ->]. eauto.
Qed.

(** [hash_password] with the salt it draws returns exactly for the
    passwords that encode. *)
Lemma hash_password_encodable (p : str) (rb : list N) :
  encodable p = true ->
  Auth.hash_password p None rb
  = Return (Sha256.hexdigest (p ++ Auth.token_hex rb), Auth.token_hex rb).
Proof.
  intros H. unfold Auth.hash_password.
  now rewrite encode_encodable
    by (apply encodable_app_ascii; [exact H | apply token_hex_isascii]).
Qed.

Lemma hash_password_refuses (p : str) (salt : option str) (rb : list N) :
  encodable p = false ->
  exists message,
    Auth.hash_password p salt rb = Raise (Exn UnicodeEncodeError message).
Proof.
  intros H. unfold Auth.hash_password.
  destruct (encode_refuses _ (not_encodable_app p
              match salt with None => Auth.token_hex rb | Some s => s end H))
    as [m ->]. eauto.
Qed.
End Utf8Facts.

(* ------------------------------------------------------------------ *)
(** ** Passwords *)

Section PasswordFacts.
Import PyStr Py Auth.

Lemma split_salt_hash (salt h : str) :
  has_char colon salt = false -> has_char colon h = false ->
  split colon (salt ++ ":" ++ h) = [salt; h].
Proof.
  intros Hs Hh. change (":" ++ h) with (String colon h).
  now rewrite split_at_first_separator, split_without_separator.
Qed.

Lemma verify_password_of_parts (p salt h : str) :
  split colon (salt ++ ":" ++ h) = [salt; h] ->
  verify_password p (salt ++ ":" ++ h) =
    match Utf8.encode (p ++ salt) with
    | Return data => String.eqb (Sha256.hexdigest data) h
    | Raise _ => false
    end.
Proof.
  intros E. unfold verify_password, hash_password. rewrite E. cbn [unpack2].
  destruct (Utf8.encode (p ++ salt)); reflexivity.
Qed.

(** What [hash_password] returns, it returns as the digest of the text
    it was given and the salt it used. *)
Lemma hash_password_returns (p : str) (salt : option str) (rb : list N)
    (h s : str) :
  hash_password p salt rb = Return (h, s) ->
  s = match salt with None => token_hex rb | Some s0 => s0 end /\
  Utf8.encode (p ++ s) = Return (p ++ s) /\
  h = Sha256.hexdigest (p ++ s).
Proof.
  unfold hash_password, Utf8.encode.
  destruct salt as [s0|];
    (destruct (Utf8.first_surrogate _) as [[n from]|] eqn:F; [discriminate|]);
    intros H; injection H as <- <-; rewrite ?F; repeat split.
Qed.

Lemma unpack2_raises (l : list str) :
  List.length l <> 2%nat -> exists e, unpack2 l = Raise e.
Proof.
  destruct l as [|a [|b [|c l]]]; simpl; intros H; eauto.
  now contradiction H.
Qed.
End PasswordFacts.

(** C8, first half as the claim states it, refuted: with the salt [a:b]
    the stored text holds two colons, the unpacking of [split(':')] fails
    and [verify_password] answers False for the very password that was
    hashed. *)
Lemma verify_password_rejects_salt_with_colon :
  Auth.hash_password "secret1" (Some "a:b") []
    = Py.Return (Sha256.hexdigest "secret1a:b", "a:b") /\
  Auth.verify_password "secret1"
    ("a:b" ++ ":" ++ Sha256.hexdigest "secret1a:b") = false.
Proof. split; vm_compute; reflexivity. Qed.

(** C8, amended.  For every password [p]: with any salt free of [:] the
    text [salt:hash] built from [hash_password p salt] verifies; the salt
    [register_user] draws, a hexadecimal token, is such a salt, so what it
    stores verifies; and a stored text that does not hold exactly one [:]
    (it does not split into a salt and a hash) is answered with False,
    no exception leaving [verify_password]. *)
Theorem verify_password_round_trip (p : PyStr.str) :
  (forall (salt : PyStr.str) (random_bytes : list N) (pwd_hash used : PyStr.str),
      PyStr.has_char PyStr.colon salt = false ->
      Auth.hash_password p (Some salt) random_bytes = Py.Return (pwd_hash, used) ->
      Auth.verify_password p (salt ++ ":" ++ pwd_hash) = true) /\
  (forall (random_bytes : list N) (pwd_hash salt : PyStr.str),
      Auth.hash_password p None random_bytes = Py.Return (pwd_hash, salt) ->
      Auth.verify_password p (salt ++ ":" ++ pwd_hash) = true) /\
  (forall stored : PyStr.str,
      PyStr.count PyStr.colon stored <> 1%nat ->
      Auth.verify_password p stored = false) /\
  (Utf8.encodable p = true ->
   forall random_bytes : list N,
     exists pwd_hash salt : PyStr.str,
       Auth.hash_password p None random_bytes = Py.Return (pwd_hash, salt)).
Proof.
  split; [|split; [|split]].
  - intros salt rb h used Hsalt Hh.
    apply hash_password_returns in Hh as (-> & He & ->).
    rewrite verify_password_of_parts, He.
    + apply String.eqb_refl.
    + apply split_salt_hash; [exact Hsalt | apply hexdigest_no_colon].
  - intros rb h salt Hh.
    apply hash_password_returns in Hh as (-> & He & ->).
    rewrite verify_password_of_parts, He.
    + apply String.eqb_refl.
    + apply split_salt_hash; [apply token_hex_no_colon | apply hexdigest_no_colon].
  - intros stored Hcount. unfold Auth.verify_password.
    destruct (unpack2_raises (PyStr.split PyStr.colon stored)) as [e ->];
      [|reflexivity].
    rewrite split_length. lia.
  - intros Hp rb. eexists _, _. now apply hash_password_encodable.
Qed.

Lemma verify_password_round_trip_witness :
  Auth.verify_password "secret1"
    ("00ff" ++ ":" ++ Sha256.hexdigest "secret100ff") = true /\
  Auth.verify_password "secret1" "no separator" = false.
Proof.
  split.
  - apply (proj1 (verify_password_round_trip "secret1") "00ff" []
             (Sha256.hexdigest "secret100ff") "00ff").
    + reflexivity.
    + vm_compute. reflexivity.
  - apply (proj1 (proj2 (proj2 (verify_password_round_trip "secret1")))
             "no separator").
    simpl. discriminate.
Defined.

(* ------------------------------------------------------------------ *)
(** ** The unique key of [budget_plans] *)

Section BudgetKeyFacts.
Import PyStr Py Database.

Lemma budget_key_eqb_eq (k1 k2 : Z * str * str * Z * Z) :
  budget_key_eqb k1 k2 = true <-> k1 = k2.
Proof.
  destruct k1 as [[[[u1 c1] s1] m1] y1], k2 as [[[[u2 c2] s2] m2] y2].
  unfold budget_key_eqb.
  rewrite !andb_true_iff, !Z.eqb_eq, !String.eqb_eq.
  split.
  - intros [[[[-> ->] ->] ->] ->]. reflexivity.
  - intros E. injection E as -> -> -> -> ->. repeat split.
Qed.

Lemma key_absent (key : Z * str * str * Z * Z) (l : list budget_plan_row) :
  existsb (fun r => budget_key_eqb (budget_key r) key) l = false ->
  ~ In key (map budget_key l).
Proof.
  intros H Hin. apply in_map_iff in Hin as [r [E Hr]].
  assert (existsb (fun r => budget_key_eqb (budget_key r) key) l = true) as T.
  { apply existsb_exists. exists r. split; [exact Hr|].
    apply budget_key_eqb_eq. exact E. }
  congruence.
Qed.

Lemma NoDup_snoc {A} (l : list A) (x : A) :
  NoDup l -> ~ In x l -> NoDup (l ++ [x])%list.
Proof.
  intros Hl Hx. apply NoDup_app; [exact Hl | repeat constructor; intros [] |].
  intros a Ha [<-|[]]. contradiction.
Qed.

Lemma other_keys_unique (key : Z * str * str * Z * Z) (l : list budget_plan_row) :
  NoDup (map budget_key l) ->
  NoDup (map budget_key
           (filter (fun r => negb (budget_key_eqb (budget_key r) key)) l)).
Proof.
  induction l as [|r l IH]; simpl; intros H; [constructor|].
  inversion H as [|? ? Hfresh Hrest]; subst.
  destruct (negb _); simpl; [constructor|]; auto.
  intros Hin. apply Hfresh.
  apply in_map_iff in Hin as [r' [E Hr']]. apply filter_In in Hr' as [Hr' _].
  apply in_map_iff. eauto.
Qed.

Lemma insert_budget_plan_unique uid c s a m y now d id d' :
  budget_plans_unique d ->
  insert_budget_plan uid c s a m y now d = Return (id, d') ->
  budget_plans_unique d'.
Proof.
  unfold budget_plans_unique, insert_budget_plan.
  destruct (budget_plans d) as [t|]; [|discriminate].
  destruct (existsb _ (rows t)) eqn:E; [discriminate|].
  intros Hd H. injection H as _ <-. simpl.
  rewrite map_app. simpl. apply NoDup_snoc; [exact Hd|].
  apply key_absent in E. exact E.
Qed.

Lemma upsert_budget_plan_unique uid c s a m y now d id d' :
  budget_plans_unique d ->
  Models.upsert_budget_plan uid c s a m y now d = Return (id, d') ->
  budget_plans_unique d'.
Proof.
  unfold budget_plans_unique, Models.upsert_budget_plan.
  destruct (budget_plans d) as [t|]; [|discriminate].
  intros Hd H. injection H as _ <-. simpl.
  rewrite map_app. simpl. apply NoDup_snoc.
  - exact (other_keys_unique (uid, c, s, m, y) (rows t) Hd).
  - intros Hin. apply in_map_iff in Hin as [r [E Hr]].
    apply filter_In in Hr as [_ Hr]. apply negb_true_iff in Hr.
    apply budget_key_eqb_eq in E.
    unfold budget_key_eqb, budget_key in E, Hr. simpl in E, Hr. congruence.
Qed.

Lemma init_database_unique d :
  budget_plans_unique d -> budget_plans_unique (init_database d).
Proof.
  unfold budget_plans_unique, init_database.
  destruct d as [|u b e i p a]; simpl; [auto|].
  destruct b; simpl; [auto | constructor].
Qed.

Lemma run_unique d s : budget_plans_unique d -> budget_plans_unique (Session.run d s).
Proof.
  intros Hd. destruct s; simpl.
  - now apply init_database_unique.
  - unfold insert_user. destruct (users d); [|exact Hd].
    destruct (bind_parameters _); [|exact Hd].
    destruct (existsb _ _); exact Hd.
  - unfold insert_preferences. destruct (user_preferences d); [|exact Hd].
    destruct (existsb _ _); exact Hd.
  - destruct (insert_budget_plan _ _ _ _ _ _ _ d) as [[id d']|e] eqn:E;
      simpl; [|exact Hd].
    eapply insert_budget_plan_unique; eauto.
  - destruct (Models.upsert_budget_plan _ _ _ _ _ _ _ d) as [[id d']|e] eqn:E;
      simpl; [|exact Hd].
    eapply upsert_budget_plan_unique; eauto.
  - unfold insert_expense. destruct (expenses d); exact Hd.
  - unfold insert_income. destruct (income d); exact Hd.
Qed.

Lemma run_all_unique log :
  forall d, budget_plans_unique d -> budget_plans_unique (Session.run_all d log).
Proof.
  unfold Session.run_all.
  induction log as [|s log IH]; simpl; intros d Hd; [exact Hd|].
  apply IH, run_unique, Hd.
Qed.
End BudgetKeyFacts.

(** C5.  Budget-plan entries are unique per (user, category, subcategory,
    month, year): in the state reached from the empty file by
    [init_database] and any log of later statements (inserts into any
    table, further runs of [init_database]), two different rows of
    [budget_plans] never agree on all five columns. *)
Theorem budget_plans_never_hold_a_key_twice
    (log : list Session.statement) (t : Database.table Database.budget_plan_row)
    (i j : nat) (r1 r2 : Database.budget_plan_row) :
  Database.budget_plans
    (Session.run_all (Database.init_database Database.empty_db) log) = Some t ->
  nth_error (Database.rows t) i = Some r1 ->
  nth_error (Database.rows t) j = Some r2 ->
  i <> j ->
  ~ (Database.b_user_id r1 = Database.b_user_id r2 /\
     Database.b_category r1 = Database.b_category r2 /\
     Database.b_subcategory r1 = Database.b_subcategory r2 /\
     Database.b_month r1 = Database.b_month r2 /\
     Database.b_year r1 = Database.b_year r2).
Proof.
  intros Ht H1 H2 Hij (Hu & Hc & Hs & Hm & Hy).
  assert (Database.budget_plans_unique
            (Session.run_all (Database.init_database Database.empty_db) log)) as U
    by (apply run_all_unique; simpl; constructor).
  unfold Database.budget_plans_unique in U. rewrite Ht in U.
  apply Hij. apply (proj1 (NoDup_nth_error _) U).
  - rewrite length_map. apply nth_error_Some. congruence.
  - rewrite !nth_error_map, H1, H2. simpl. f_equal.
    unfold Database.budget_key. congruence.
Qed.

Lemma budget_plans_never_hold_a_key_twice_witness :
  let log :=
    [ Session.InsertBudgetPlan 1 "Food" "Groceries" 400 2 2026 "2026-02-01";
      Session.InsertBudgetPlan 1 "Food" "Groceries" 450 2 2026 "2026-02-02";
      Session.InsertBudgetPlan 1 "Food" "Groceries" 400 3 2026 "2026-02-03" ] in
  let r1 := Database.BudgetPlanRow 1 1 "Food" "Groceries" 400 2 2026 (Some "2026-02-01") in
  let r2 := Database.BudgetPlanRow 2 1 "Food" "Groceries" 400 3 2026 (Some "2026-02-03") in
  ~ (Database.b_user_id r1 = Database.b_user_id r2 /\
     Database.b_category r1 = Database.b_category r2 /\
     Database.b_subcategory r1 = Database.b_subcategory r2 /\
     Database.b_month r1 = Database.b_month r2 /\
     Database.b_year r1 = Database.b_year r2).
Proof.
  intros log r1 r2.
  apply (budget_plans_never_hold_a_key_twice log
           (Database.Table [r1; r2] 2) 0 1 r1 r2).
  - reflexivity.
  - reflexivity.
  - reflexivity.
  - discriminate.
Defined.

(* ------------------------------------------------------------------ *)
(** ** Registration and login *)

Section AuthFacts.
Import PyStr Py Database Auth.

Lemma len_nonempty (s : str) : (0 < len s)%nat -> String.eqb s "" = false.
Proof. destruct s; simpl; [lia | reflexivity]. Qed.

Lemma failure_structured (m : str) : structured_result (failure m).
Proof. exists false, m. split; reflexivity. Qed.

Lemma unique_failed_recognised (columns : string) :
  contains "UNIQUE constraint failed" (exn_msg (unique_failed columns)) = true.
Proof. reflexivity. Qed.

Lemma users_opens d t : users d = Some t -> opens d = true.
Proof. destruct d; [discriminate | reflexivity]. Qed.

Lemma budget_plans_opens d t : budget_plans d = Some t -> opens d = true.
Proof. destruct d; [discriminate | reflexivity]. Qed.

Lemma user_preferences_opens d t : user_preferences d = Some t -> opens d = true.
Proof. destruct d; [discriminate | reflexivity]. Qed.

Lemma get_connection_opens d :
  opens d = true -> get_connection d = Return (Connection d d).
Proof. intros H. unfold get_connection. now rewrite H. Qed.

Lemma with_connection_unopenable {A} (body : M connection A) d :
  opens d = false -> with_connection body d = (Raise unable_to_open, d).
Proof. intros H. unfold with_connection, get_connection. now rewrite H. Qed.

Lemma with_connection_opens {A} (body : M connection A) d :
  opens d = true ->
  with_connection body d = let '(o, c) := body (Connection d d) in (o, durable c).
Proof. intros H. unfold with_connection, get_connection. now rewrite H. Qed.

(** [register_user] once the two length checks have passed: the password
    is hashed, then the connection is made, then the [try] block runs. *)
Lemma register_user_past_checks rb now u p email d :
  (3 <= len u)%nat -> (6 <= len p)%nat ->
  register_user rb now u p email d =
    match hash_password p None rb with
    | Raise e => (Raise e, d)
    | Return (pwd_hash, salt) =>
        if opens d then
          match insert_user u (salt ++ ":" ++ pwd_hash) email now d with
          | Raise e => (Return (failure (register_handler_message e)), d)
          | Return (id, d1) =>
              match insert_preferences id d1 with
              | Raise e => (Return (failure (register_handler_message e)), d)
              | Return (_, d2) =>
                  (Return (VDict [("success", VBool true);
                                  ("message", VStr "Account created successfully!");
                                  ("user_id", VInt id)]), d2)
              end
          end
        else (Raise unable_to_open, d)
    end.
Proof.
  intros Hu Hp. unfold register_user.
  rewrite (len_nonempty u), (len_nonempty p) by lia.
  replace (len u <? 3)%nat with false by (symmetry; apply Nat.ltb_ge; lia).
  replace (len p <? 6)%nat with false by (symmetry; apply Nat.ltb_ge; lia).
  cbn [orb]. unfold bind at 1, lift.
  destruct (hash_password p None rb) as [[pwd_hash salt]|e]; [|reflexivity].
  destruct (opens d) eqn:Ho;
    [|now rewrite with_connection_unopenable].
  rewrite with_connection_opens by assumption.
  unfold try_except, bind, execute, register_handler_message.
  cbn [working durable].
  destruct (insert_user _ _ _ _ d) as [[id d1]|e]; cbn.
  - destruct (insert_preferences id d1) as [[pid d2]|e]; cbn.
    + reflexivity.
    + destruct (contains _ _); reflexivity.
  - destruct (contains _ _); reflexivity.
Qed.

(** The same for a password that encodes and a file that opens, by the
    outcome of the two inserts. *)
Lemma register_user_validated rb now u p email d :
  (3 <= len u)%nat -> (6 <= len p)%nat ->
  Utf8.encodable p = true -> opens d = true ->
  register_user rb now u p email d =
    let stored := token_hex rb ++ ":" ++ Sha256.hexdigest (p ++ token_hex rb) in
    match insert_user u stored email now d with
    | Raise e => (Return (failure (register_handler_message e)), d)
    | Return (id, d1) =>
        match insert_preferences id d1 with
        | Raise e => (Return (failure (register_handler_message e)), d)
        | Return (_, d2) =>
            (Return (VDict [("success", VBool true);
                            ("message", VStr "Account created successfully!");
                            ("user_id", VInt id)]), d2)
        end
    end.
Proof.
  intros Hu Hp He Ho.
  rewrite register_user_past_checks, hash_password_encodable, Ho by assumption.
  reflexivity.
Qed.

(** A password that does not encode, past the checks: the error of
    [hash_password] leaves [register_user]. *)
Lemma register_user_unencodable rb now u p email d :
  (3 <= len u)%nat -> (6 <= len p)%nat -> Utf8.encodable p = false ->
  exists message,
    register_user rb now u p email d
    = (Raise (Exn UnicodeEncodeError message), d).
Proof.
  intros Hu Hp He. rewrite register_user_past_checks by assumption.
  destruct (hash_password_refuses p None rb He) as [m ->]. eauto.
Qed.

(** A file that does not open, past the checks and the hashing: the
    error of [get_connection] leaves [register_user]. *)
Lemma register_user_unopenable rb now u p email d :
  (3 <= len u)%nat -> (6 <= len p)%nat ->
  Utf8.encodable p = true -> opens d = false ->
  register_user rb now u p email d = (Raise unable_to_open, d).
Proof.
  intros Hu Hp He Ho.
  now rewrite register_user_past_checks, hash_password_encodable, Ho.
Qed.

(** Past the checks, [register_user] returns only when the password
    encodes and the file opens. *)
Lemma register_user_returned rb now u p email d v d' :
  (3 <= len u)%nat -> (6 <= len p)%nat ->
  register_user rb now u p email d = (Return v, d') ->
  Utf8.encodable p = true /\ opens d = true.
Proof.
  intros Hu Hp H.
  destruct (Utf8.encodable p) eqn:He.
  - destruct (opens d) eqn:Ho; [now split|].
    rewrite register_user_unopenable in H by assumption. discriminate.
  - destruct (register_user_unencodable rb now u p email d Hu Hp He) as [m E].
    rewrite E in H. discriminate.
Qed.

Lemma register_user_short_username rb now u p email d :
  (len u < 3)%nat ->
  register_user rb now u p email d =
    (Return (failure "Username must be at least 3 characters long"), d).
Proof.
  intros Hu. unfold register_user.
  replace (len u <? 3)%nat with true by (symmetry; now apply Nat.ltb_lt).
  now rewrite orb_true_r.
Qed.

Lemma register_user_short_password rb now u p email d :
  (3 <= len u)%nat -> (len p < 6)%nat ->
  register_user rb now u p email d =
    (Return (failure "Password must be at least 6 characters long"), d).
Proof.
  intros Hu Hp. unfold register_user.
  rewrite (len_nonempty u) by lia.
  replace (len u <? 3)%nat with false by (symmetry; now apply Nat.ltb_ge).
  replace (len p <? 6)%nat with true by (symmetry; now apply Nat.ltb_lt).
  now rewrite orb_true_r.
Qed.

(** The parameters of the insert into [users] are bound when the name
    and the e-mail address encode; the stored hash is ASCII text. *)
Lemma insert_user_bound u h email :
  Utf8.encodable u = true -> Utf8.isascii h = true ->
  (forall e, email = Some e -> Utf8.encodable e = true) ->
  bind_parameters [bind_text u; bind_text h; bind_optional_text email]
  = Return tt.
Proof.
  intros Hu Hh He. cbn [bind_parameters].
  rewrite (bind_text_encodable u Hu).
  rewrite (bind_text_encodable h (isascii_encodable h Hh)).
  destruct email as [e|]; [|reflexivity].
  cbn [bind_optional_text]. now rewrite (bind_text_encodable e (He e eq_refl)).
Qed.


End AuthFacts.

Section LoginFacts.
Import PyStr Py Database Auth.

Lemma filter_none {A} (p : A -> bool) (l : list A) :
  (forall a, In a l -> p a = false) -> filter p l = [].
Proof.
  induction l as [|a l IH]; simpl; intros H; [reflexivity|].
  rewrite (H a) by now left. apply IH. intros b Hb. apply H. now right.
Qed.

(** [login_user] on an initialised [users] table, by the row [fetchone]
    hands out. *)
Lemma login_user_cases now u p d t :
  users d = Some t -> Utf8.encodable u = true ->
  login_user now u p d =
    match filter (fun r => String.eqb (u_username r) u) (rows t) with
    | [] => (Return (failure "Invalid username or password"), d)
    | user :: _ =>
        if verify_password p (u_password_hash user)
        then (Return (VDict [("success", VBool true);
                             ("message", VStr "Login successful!");
                             ("user_id", VInt (u_id user));
                             ("username", VStr (u_username user))]),
              Session.after (update_last_login now (u_id user) d) d)
        else (Return (failure "Invalid username or password"), d)
    end.
Proof.
  intros Ht Hu. unfold login_user.
  rewrite with_connection_opens by exact (users_opens _ _ Ht).
  unfold try_except, bind, query, select_user_by_username.
  cbn [working durable]. rewrite Ht, (bind_text_encodable u Hu).
  destruct (filter _ (rows t)) as [|user rest]; cbn; [reflexivity|].
  destruct (verify_password p (u_password_hash user)); cbn; [|reflexivity].
  unfold execute, update_last_login. cbn. rewrite Ht. reflexivity.
Qed.

(** A user name that cannot be bound to the [SELECT]: the handler of the
    [try] block answers. *)
Lemma login_user_unbindable now u p d t :
  users d = Some t -> Utf8.encodable u = false ->
  exists message,
    login_user now u p d = (Return (failure ("Login error: " ++ message)), d).
Proof.
  intros Ht Hu. unfold login_user.
  rewrite with_connection_opens by exact (users_opens _ _ Ht).
  unfold try_except, bind, query, select_user_by_username.
  cbn [working durable]. rewrite Ht.
  destruct (bind_text_refuses u Hu) as [m ->]. exists m. reflexivity.
Qed.

Lemma login_user_no_table now u p d :
  opens d = true -> users d = None ->
  login_user now u p d = (Return (failure "Login error: no such table: users"), d).
Proof.
  intros Ho Ht. unfold login_user.
  rewrite with_connection_opens by assumption.
  unfold try_except, bind, query, select_user_by_username.
  cbn [working durable]. rewrite Ht. reflexivity.
Qed.

Lemma login_user_unopenable now u p d :
  opens d = false -> login_user now u p d = (Raise unable_to_open, d).
Proof. intros Ho. unfold login_user. now apply with_connection_unopenable. Qed.
End LoginFacts.





(* ------------------------------------------------------------------ *)
(** ** Reasoning about the monad *)

Section MonadFacts.
Import Py.
Context {S : Type}.

Lemma bind_returns {A B} (m : M S A) (k : A -> M S B) s b s' :
  bind m k s = (Return b, s') ->
  exists a s1, m s = (Return a, s1) /\ k a s1 = (Return b, s').
Proof.
  unfold bind. destruct (m s) as [[a|e] s1]; intros H; [eauto | discriminate].
Qed.

Variable R : S -> S -> Prop.
Hypothesis R_refl : forall s, R s s.
Hypothesis R_trans : forall s1 s2 s3, R s1 s2 -> R s2 s3 -> R s1 s3.

Lemma lift_moves {A} (o : outcome A) : moves_along R (lift o).
Proof. intros s o' s' H. injection H as _ <-. apply R_refl. Qed.

Lemma ret_moves {A} (a : A) : moves_along R (ret a).
Proof. intros s o' s' H. injection H as _ <-. apply R_refl. Qed.

Lemma bind_moves {A B} (m : M S A) (k : A -> M S B) :
  moves_along R m -> (forall a, moves_along R (k a)) -> moves_along R (bind m k).
Proof.
  intros Hm Hk s o s'. unfold bind.
  destruct (m s) as [[a|e] s1] eqn:E; intros H.
  - eapply R_trans; [eapply Hm, E | eapply Hk, H].
  - injection H as _ <-. eapply Hm, E.
Qed.

Lemma try_except_moves {A} (body : M S A) (handler : exn -> M S A) :
  moves_along R body -> (forall e, moves_along R (handler e)) ->
  moves_along R (try_except body handler).
Proof.
  intros Hb Hh s o s'. unfold try_except.
  destruct (body s) as [[a|e] s1] eqn:E; intros H.
  - injection H as _ <-. eapply Hb, E.
  - eapply R_trans; [eapply Hb, E | eapply Hh, H].
Qed.

Lemma for_each_moves {A B} (items : list A) (body : B -> A -> M S B) :
  (forall acc x, In x items -> moves_along R (body acc x)) ->
  forall acc, moves_along R (for_each items acc body).
Proof.
  induction items as [|x items IH]; intros Hbody acc; simpl.
  - apply ret_moves.
  - apply bind_moves; [apply Hbody; now left|].
    intros acc'. apply IH. intros acc'' y Hy. apply Hbody. now right.
Qed.
End MonadFacts.

(* ------------------------------------------------------------------ *)
(** ** Structured results *)

Section StructuredFacts.
Import PyStr Py Database Auth.

Lemma register_user_structured rb now u p email d :
  (len u < 3)%nat \/ (len p < 6)%nat \/
  (Utf8.encodable p = true /\ opens d = true) ->
  exists v d', register_user rb now u p email d = (Return v, d') /\
               structured_result v.
Proof.
  intros Hcan.
  destruct (Nat.ltb_spec (len u) 3) as [Hu|Hu];
    [|destruct (Nat.ltb_spec (len p) 6) as [Hp|Hp]].
  - rewrite register_user_short_username by assumption.
    eexists _, _. split; [reflexivity | apply failure_structured].
  - rewrite register_user_short_password by assumption.
    eexists _, _. split; [reflexivity | apply failure_structured].
  - destruct Hcan as [H|[H|[He Ho]]]; [lia | lia |].
    rewrite register_user_validated by assumption. cbv zeta.
    destruct (insert_user _ _ _ _ d) as [[id d1]|e].
    + destruct (insert_preferences id d1) as [[pid d2]|e].
      * eexists _, _. split; [reflexivity|].
        exists true, "Account created successfully!". split; reflexivity.
      * eexists _, _. split; [reflexivity | apply failure_structured].
    + eexists _, _. split; [reflexivity | apply failure_structured].
Qed.

Lemma login_user_structured now u p d :
  opens d = true ->
  exists v d', login_user now u p d = (Return v, d') /\ structured_result v.
Proof.
  intros Ho. destruct (users d) as [t|] eqn:Ht.
  - destruct (Utf8.encodable u) eqn:Hu.
    + rewrite (login_user_cases _ _ _ _ _ Ht Hu).
      destruct (filter _ (rows t)) as [|user rest].
      * eexists _, _. split; [reflexivity | apply failure_structured].
      * destruct (verify_password p (u_password_hash user)).
        -- eexists _, _. split; [reflexivity|].
           exists true, "Login successful!". split; reflexivity.
        -- eexists _, _. split; [reflexivity | apply failure_structured].
    + destruct (login_user_unbindable now u p d t Ht Hu) as [m ->].
      eexists _, _. split; [reflexivity | apply failure_structured].
  - rewrite (login_user_no_table _ _ _ _ Ho Ht).
    eexists _, _. split; [reflexivity | apply failure_structured].
Qed.

(** What [register_user] returns is a structured result. *)
Lemma register_user_returned_structured rb now u p email d v d' :
  register_user rb now u p email d = (Return v, d') -> structured_result v.
Proof.
  intros Hrun.
  assert ((len u < 3)%nat \/ (len p < 6)%nat \/
          (Utf8.encodable p = true /\ opens d = true)) as Hcan.
  { destruct (Nat.ltb_spec (len u) 3) as [Hu|Hu]; [now left|].
    destruct (Nat.ltb_spec (len p) 6) as [Hp|Hp]; [now right; left|].
    right; right. exact (register_user_returned _ _ _ _ _ _ _ _ Hu Hp Hrun). }
  destruct (register_user_structured rb now u p email d Hcan)
    as (v1 & d1 & E & S1).
  rewrite E in Hrun. now injection Hrun as <- _.
Qed.

(** An exception leaves [register_user] only for a password that does
    not encode or a file that does not open. *)
Lemma register_user_raised_cause rb now u p email d e d' :
  register_user rb now u p email d = (Raise e, d') ->
  Utf8.encodable p = false \/ opens d = false.
Proof.
  intros Hrun.
  destruct (Utf8.encodable p) eqn:He; [|now left].
  destruct (opens d) eqn:Ho; [|now right].
  destruct (register_user_structured rb now u p email d
              (or_intror (or_intror (conj He Ho)))) as (v & d1 & E & _).
  rewrite E in Hrun. discriminate.
Qed.
End StructuredFacts.

Section RestoreStructured.
Import PyStr Py Database DataExport.
Variable json_loads : str -> outcome value.
Variable parse_float : str -> option Q.
Variable parse_int : str -> option Z.
Variable fromisoformat : str -> option date.
Variable add_expense :
  Z -> value -> value -> Q -> date -> value -> value -> M db value.
Variable add_income : Z -> value -> Q -> date -> value -> M db value.
Variable set_budget : Z -> value -> value -> Q -> Z -> Z -> M db value.


End RestoreStructured.




(* ------------------------------------------------------------------ *)
(** ** Backups *)

Section BackupFacts.
Import PyStr Py Database DataExport.
Variable get_expenses : Z -> M db (list value).
Variable get_income : Z -> M db (list value).
Variable now_isoformat : str.
Variable json_dumps : value -> str.

(** Under [UNIQUE(user_id)] the query on [user_preferences] yields the
    user's row and nothing else. *)
Lemma select_only_row (l : list preference_row) (row : preference_row) :
  NoDup (map p_user_id l) -> In row l ->
  filter (fun r => (p_user_id r =? p_user_id row)%Z) l = [row].
Proof.
  induction l as [|r l IH]; simpl; intros Hnd Hin; [contradiction|].
  inversion Hnd as [|? ? Hfresh Hrest]; subst.
  destruct Hin as [->|Hin].
  - rewrite Z.eqb_refl. f_equal. apply filter_none.
    intros a Ha. apply Z.eqb_neq. intros E. apply Hfresh.
    rewrite <- E. now apply in_map.
  - replace (p_user_id r =? p_user_id row)%Z with false; [now apply IH|].
    symmetry. apply Z.eqb_neq. intros E. apply Hfresh.
    rewrite E. now apply in_map.
Qed.

(** [create_full_backup] by what the query on [user_preferences] yields,
    when the two ledger reads return. *)
Lemma create_full_backup_cases user_id d e i tb tp :
  get_expenses user_id d = (Return e, d) ->
  get_income user_id d = (Return i, d) ->
  budget_plans d = Some tb ->
  user_preferences d = Some tp ->
  create_full_backup get_expenses get_income now_isoformat user_id d =
    match filter (fun r => (p_user_id r =? user_id)%Z) (rows tp) with
    | [] =>
        (Return (VDict [("backup_date", VStr now_isoformat);
                        ("version", VStr "1.0");
                        ("user_id", VInt user_id);
                        ("expenses", VList (records e));
                        ("income", VList (records i));
                        ("budgets",
                          VList (map dict_of_budget_plan
                                   (index_order
                                      (filter (fun r => (b_user_id r =? user_id)%Z)
                                              (rows tb)))));
                        ("preferences", VDict [])]), d)
    | [_] => (Raise (Exn TypeError "'NoneType' object is not iterable"), d)
    | _ :: second :: _ =>
        match dict_of_fetched_preferences (Some second) with
        | Return prefs =>
            (Return (VDict [("backup_date", VStr now_isoformat);
                            ("version", VStr "1.0");
                            ("user_id", VInt user_id);
                            ("expenses", VList (records e));
                            ("income", VList (records i));
                            ("budgets",
                              VList (map dict_of_budget_plan
                                       (index_order
                                          (filter (fun r => (b_user_id r =? user_id)%Z)
                                                  (rows tb)))));
                            ("preferences", prefs)]), d)
        | Raise x => (Raise x, d)
        end
    end.
Proof.
  intros He Hi Hb Hp.
  unfold create_full_backup.
  rewrite with_connection_opens by exact (budget_plans_opens _ _ Hb).
  unfold bind, call, query, select_budget_plans, select_preferences.
  cbn [durable working]. rewrite He. cbn [durable working]. rewrite Hi.
  cbn [durable working]. rewrite Hb, Hp.
  destruct (filter _ (rows tp)) as [|first [|second rest]]; reflexivity.
Qed.
End BackupFacts.

(** C2, as the code runs.  Take any user that has its row in
    [user_preferences], the table honouring [UNIQUE(user_id)], on a
    database where the ledger reads return.  The condition of
    [dict(cursor.fetchone()) if cursor.fetchone() else {}] consumes that
    row, the second [fetchone] yields [None], [dict(None)] raises
    [TypeError]; nothing catches it, so [create_full_backup] and
    [export_backup_json] raise where the claim promises a backup. *)
Theorem backup_raises_for_user_with_preferences
    (get_expenses get_income : Z -> Py.M Database.db (list Py.value))
    (now_isoformat : PyStr.str) (json_dumps : Py.value -> PyStr.str)
    (d : Database.db) (e i : list Py.value)
    (tb : Database.table Database.budget_plan_row)
    (tp : Database.table Database.preference_row)
    (row : Database.preference_row) :
  get_expenses (Database.p_user_id row) d = (Py.Return e, d) ->
  get_income (Database.p_user_id row) d = (Py.Return i, d) ->
  Database.budget_plans d = Some tb ->
  Database.user_preferences d = Some tp ->
  NoDup (map Database.p_user_id (Database.rows tp)) ->
  In row (Database.rows tp) ->
  DataExport.create_full_backup get_expenses get_income now_isoformat
    (Database.p_user_id row) d
    = (Py.Raise (Py.Exn Py.TypeError "'NoneType' object is not iterable"), d) /\
  DataExport.export_backup_json get_expenses get_income now_isoformat json_dumps
    (Database.p_user_id row) d
    = (Py.Raise (Py.Exn Py.TypeError "'NoneType' object is not iterable"), d).
Proof.
  intros He Hi Hb Hp Hnd Hin.
  assert (DataExport.create_full_backup get_expenses get_income now_isoformat
            (Database.p_user_id row) d
          = (Py.Raise (Py.Exn Py.TypeError "'NoneType' object is not iterable"), d))
    as E.
  { rewrite (create_full_backup_cases _ _ _ _ _ e i tb tp He Hi Hb Hp).
    now rewrite (select_only_row _ _ Hnd Hin). }
  split; [exact E|].
  unfold DataExport.export_backup_json, Py.bind. now rewrite E.
Qed.

Lemma backup_raises_for_user_with_preferences_witness :
  let d := snd (Auth.register_user [1; 2; 3; 255]%N "2026-02-01" "alice" "secret1" None
                  (Database.init_database Database.empty_db)) in
  DataExport.export_backup_json (fun _ => Py.ret []) (fun _ => Py.ret [])
    "2026-02-02T10:00:00" (fun _ => "{}") 1 d
  = (Py.Raise (Py.Exn Py.TypeError "'NoneType' object is not iterable"), d).
Proof.
  intros d.
  refine (proj2 (backup_raises_for_user_with_preferences
    (fun _ => Py.ret []) (fun _ => Py.ret []) "2026-02-02T10:00:00" (fun _ => "{}")
    d [] [] (Database.Table [] 0)
    (Database.Table [Database.PreferenceRow 1 1 "USD" "en" "light" 1] 1)
    (Database.PreferenceRow 1 1 "USD" "en" "light" 1) _ _ _ _ _ _)).
  - reflexivity.
  - reflexivity.
  - vm_compute. reflexivity.
  - vm_compute. reflexivity.
  - repeat constructor. intros [].
  - left. reflexivity.
Defined.

(* ------------------------------------------------------------------ *)
(** ** Restoring a backup through the ledger functions of the spec *)

Section RestoreFacts.
Import PyStr Py Database DataExport.
Variable json_loads : str -> outcome value.
Variable parse_float : str -> option Q.
Variable parse_int : str -> option Z.
Variable fromisoformat : str -> option date.
Variable now : timestamp.

Lemma only_taxonomy_rows_added_refl d : Models.only_taxonomy_rows_added d d.
Proof. split; intros r Hr; now left. Qed.

Lemma only_taxonomy_rows_added_trans d1 d2 d3 :
  Models.only_taxonomy_rows_added d1 d2 ->
  Models.only_taxonomy_rows_added d2 d3 ->
  Models.only_taxonomy_rows_added d1 d3.
Proof.
  intros [E12 B12] [E23 B23]. split; intros r Hr.
  - destruct (E23 r Hr) as [H|H]; [now apply E12 | now right].
  - destruct (B23 r Hr) as [H|H]; [now apply B12 | now right].
Qed.

(** What [add_expense] of the spec does, by its answer. *)
Lemma add_expense_cases uid cat sub amount dt desc tags d o d' :
  Models.add_expense now uid cat sub amount dt desc tags d = (o, d') ->
  exists b msg,
    o = Return (Models.result b msg) /\
    (b = true ->
       exists c s t id,
         cat = VStr c /\ sub = VStr s /\ Categories.in_taxonomy c s = true /\
         expenses d = Some t /\
         d' = set_expenses d
                (append_row t id
                   (ExpenseRow id uid c s amount (Models.optional_text desc) dt
                      (Models.optional_text tags) (Some now) (Some now)))) /\
    (b = false -> d' = d).
Proof.
  unfold Models.add_expense, ret.
  destruct cat as [| | | |c| |]; try (intros H; injection H as <- <-;
    eexists false, _; repeat split; [discriminate]).
  destruct sub as [| | | |s| |]; try (intros H; injection H as <- <-;
    eexists false, _; repeat split; [discriminate]).
  destruct (Categories.in_taxonomy c s) eqn:Hvalid;
    [|intros H; injection H as <- <-; eexists false, _; repeat split; discriminate].
  unfold insert_expense. destruct (expenses d) as [t|] eqn:Ht.
  - intros H; injection H as <- <-. eexists true, _.
    split; [reflexivity|]. split; [|discriminate].
    intros _. eexists c, s, t, _. repeat split; auto.
  - intros H; injection H as <- <-. eexists false, _. repeat split; discriminate.
Qed.

Lemma add_expense_moves uid cat sub amount dt desc tags :
  moves_along Models.only_taxonomy_rows_added
    (Models.add_expense now uid cat sub amount dt desc tags).
Proof.
  intros d o d' H. apply add_expense_cases in H as (b & msg & _ & Htrue & Hfalse).
  destruct b.
  - destruct (Htrue eq_refl) as (c & s & t & id & _ & _ & Hvalid & Ht & ->).
    split; intros r Hr; [|now left].
    simpl in Hr. rewrite Ht. simpl.
    apply in_app_or in Hr as [Hr|[<-|[]]]; [now left | now right].
  - rewrite (Hfalse eq_refl). apply only_taxonomy_rows_added_refl.
Qed.

Lemma add_income_moves uid src amount dt desc :
  moves_along Models.only_taxonomy_rows_added
    (Models.add_income now uid src amount dt desc).
Proof.
  intros d o d'. unfold Models.add_income, ret, insert_income.
  destruct src; try (intros H; injection H as _ <-;
                     apply only_taxonomy_rows_added_refl).
  destruct (income d) as [t|]; intros H; injection H as _ <-;
    [|apply only_taxonomy_rows_added_refl].
  split; intros r Hr; now left.
Qed.

(** What [set_budget] of the spec does, by its answer. *)
Lemma set_budget_cases uid cat sub amount month year d o d' :
  Models.set_budget now uid cat sub amount month year d = (o, d') ->
  exists b msg,
    o = Return (Models.result b msg) /\
    (b = true ->
       exists c s t id,
         cat = VStr c /\ sub = VStr s /\ Categories.in_taxonomy c s = true /\
         budget_plans d = Some t /\
         Models.upsert_budget_plan uid c s amount month year now d
           = Return (id, d')) /\
    (b = false -> d' = d).
Proof.
  unfold Models.set_budget, ret.
  destruct cat as [| | | |c| |]; try (intros H; injection H as <- <-;
    eexists false, _; repeat split; [discriminate]).
  destruct sub as [| | | |s| |]; try (intros H; injection H as <- <-;
    eexists false, _; repeat split; [discriminate]).
  destruct (Categories.in_taxonomy c s) eqn:Hvalid;
    [|intros H; injection H as <- <-; eexists false, _; repeat split; discriminate].
  destruct (Models.upsert_budget_plan uid c s amount month year now d)
    as [[id d1]|e] eqn:Hup.
  - intros H; injection H as <- <-. eexists true, _.
    split; [reflexivity|]. split; [|discriminate].
    intros _. unfold Models.upsert_budget_plan in Hup.
    destruct (budget_plans d) as [t|] eqn:Ht; [|discriminate].
    eexists c, s, t, id. repeat split; auto.
    unfold Models.upsert_budget_plan. now rewrite Ht.
  - intros H; injection H as <- <-. eexists false, _. repeat split; discriminate.
Qed.

Lemma set_budget_moves uid cat sub amount month year :
  moves_along Models.only_taxonomy_rows_added
    (Models.set_budget now uid cat sub amount month year).
Proof.
  intros d o d' H. apply set_budget_cases in H as (b & msg & _ & Htrue & Hfalse).
  destruct b.
  - destruct (Htrue eq_refl) as (c & s & t & id & _ & _ & Hvalid & Ht & Hup).
    unfold Models.upsert_budget_plan in Hup. rewrite Ht in Hup.
    injection Hup as _ <-.
    split; intros r Hr; [now left|].
    simpl in Hr. rewrite Ht. simpl.
    apply in_app_or in Hr as [Hr|[<-|[]]]; [|now right].
    left. now apply filter_In in Hr as [Hr _].
  - rewrite (Hfalse eq_refl). apply only_taxonomy_rows_added_refl.
Qed.
End RestoreFacts.

Section RestoreRecords.
Import PyStr Py Database DataExport.
Variable parse_float : str -> option Q.
Variable parse_int : str -> option Z.
Variable fromisoformat : str -> option date.
Variable now : timestamp.

Lemma bind_lift {S A B} (o : outcome A) (k : A -> M S B) (s : S) :
  bind (lift o) k s = match o with
                      | Return a => k a s
                      | Raise e => (Raise e, s)
                      end.
Proof. destruct o; reflexivity. Qed.

Ltac next_argument H :=
  rewrite bind_lift in H;
  match type of H with
  | match ?o with Return _ => _ | Raise _ => _ end = _ =>
      let E := fresh "E" in
      destruct o eqn:E;
      [| right; injection H as <- <-; split;
         [reflexivity | intros ? ?; discriminate]]
  end.

(** One expense record of the backup: it is counted, and then its pair is
    in the taxonomy, or the counters and the database stay as they were. *)
Lemma restore_expense_record uid restored exp d o d' :
  restore_expense parse_float fromisoformat (Models.add_expense now)
    uid restored exp d = (o, d') ->
  (o = Return (Counters (S (n_expenses restored)) (n_income restored)
                        (n_budgets restored)) /\
   Models.record_in_taxonomy exp) \/
  (d' = d /\ forall restored', o = Return restored' -> restored' = restored).
Proof.
  unfold restore_expense. intros H.
  do 6 next_argument H.
  unfold bind at 1 in H.
  destruct (Models.add_expense _ _ _ _ _ _ _ _ d) as [res d1] eqn:Eadd.
  apply add_expense_cases in Eadd as (b & msg & -> & Htrue & Hfalse).
  rewrite bind_lift in H. cbn in H. destruct b.
  - left. injection H as <- <-. split; [reflexivity|].
    destruct (Htrue eq_refl) as (c & s & t & id & -> & -> & Hvalid & _).
    exists c, s. split; [|exact Hvalid].
    unfold Models.pair_of_record. now rewrite E, E0.
  - right. injection H as <- <-. split; [now apply Hfalse|].
    intros r' Hr'. now injection Hr'.
Qed.

(** One budget record of the backup, likewise. *)
Lemma restore_budget_record uid restored budget d o d' :
  restore_budget parse_float parse_int (Models.set_budget now)
    uid restored budget d = (o, d') ->
  (o = Return (Counters (n_expenses restored) (n_income restored)
                        (S (n_budgets restored))) /\
   Models.record_in_taxonomy budget) \/
  (d' = d /\ forall restored', o = Return restored' -> restored' = restored).
Proof.
  unfold restore_budget. intros H.
  do 5 next_argument H.
  unfold bind at 1 in H.
  destruct (Models.set_budget _ _ _ _ _ _ _ d) as [res d1] eqn:Eset.
  apply set_budget_cases in Eset as (b & msg & -> & Htrue & Hfalse).
  rewrite bind_lift in H. cbn in H. destruct b.
  - left. injection H as <- <-. split; [reflexivity|].
    destruct (Htrue eq_refl) as (c & s & t & id & -> & -> & Hvalid & _).
    exists c, s. split; [|exact Hvalid].
    unfold Models.pair_of_record. now rewrite E, E0.
  - right. injection H as <- <-. split; [now apply Hfalse|].
    intros r' Hr'. now injection Hr'.
Qed.

Lemma restore_expense_moves uid restored exp :
  moves_along Models.only_taxonomy_rows_added
    (restore_expense parse_float fromisoformat (Models.add_expense now)
       uid restored exp).
Proof.
  pose proof only_taxonomy_rows_added_refl as Rr.
  pose proof only_taxonomy_rows_added_trans as Rt.
  unfold restore_expense.
  repeat (apply (bind_moves _ Rt); [| intros ?]);
    try (apply lift_moves; exact Rr).
  - apply add_expense_moves.
  - destruct (truthy _); apply ret_moves; exact Rr.
Qed.

Lemma restore_income_moves uid restored inc :
  moves_along Models.only_taxonomy_rows_added
    (restore_income parse_float fromisoformat (Models.add_income now)
       uid restored inc).
Proof.
  pose proof only_taxonomy_rows_added_refl as Rr.
  pose proof only_taxonomy_rows_added_trans as Rt.
  unfold restore_income.
  repeat (apply (bind_moves _ Rt); [| intros ?]);
    try (apply lift_moves; exact Rr).
  - apply add_income_moves.
  - destruct (truthy _); apply ret_moves; exact Rr.
Qed.

Lemma restore_budget_moves uid restored budget :
  moves_along Models.only_taxonomy_rows_added
    (restore_budget parse_float parse_int (Models.set_budget now)
       uid restored budget).
Proof.
  pose proof only_taxonomy_rows_added_refl as Rr.
  pose proof only_taxonomy_rows_added_trans as Rt.
  unfold restore_budget.
  repeat (apply (bind_moves _ Rt); [| intros ?]);
    try (apply lift_moves; exact Rr).
  - apply set_budget_moves.
  - destruct (truthy _); apply ret_moves; exact Rr.
Qed.

Lemma restore_from_backup_moves json_loads uid backup_json :
  moves_along Models.only_taxonomy_rows_added
    (restore_from_backup json_loads parse_float parse_int fromisoformat
       (Models.add_expense now) (Models.add_income now) (Models.set_budget now)
       uid backup_json).
Proof.
  pose proof only_taxonomy_rows_added_refl as Rr.
  pose proof only_taxonomy_rows_added_trans as Rt.
  unfold restore_from_backup, restore_body.
  apply (try_except_moves _ Rt); [| intros e; now apply ret_moves].
  repeat (apply (bind_moves _ Rt); [| intros ?]);
    try (apply lift_moves; exact Rr);
    try (apply ret_moves; exact Rr);
    apply (for_each_moves _ Rr Rt); intros.
  - apply restore_expense_moves.
  - apply restore_income_moves.
  - apply restore_budget_moves.
Qed.
End RestoreRecords.

(** C3.  With the ledger functions behaving as the specification words
    ingestion, [restore_from_backup] accepts only pairs of the taxonomy.
    For every expense record and every budget record it processes: the
    record is counted as restored only when its (category, subcategory)
    pair is in [BUDGET_CATEGORIES]; otherwise the counters and the
    database are left as they were (the record is rejected, or the loop
    is left by an exception).  And over a whole run, ended normally or
    by an exception, every expense row and every budget-plan row that was
    not there before has its pair in the taxonomy. *)
Theorem restore_counts_only_taxonomy_pairs
    (json_loads : PyStr.str -> Py.outcome Py.value)
    (parse_float : PyStr.str -> option Q) (parse_int : PyStr.str -> option Z)
    (fromisoformat : PyStr.str -> option Database.date)
    (now : Database.timestamp) (user_id : Z) :
  (forall restored exp d o d',
     DataExport.restore_expense parse_float fromisoformat
       (Models.add_expense now) user_id restored exp d = (o, d') ->
     (o = Py.Return (DataExport.Counters
                       (S (DataExport.n_expenses restored))
                       (DataExport.n_income restored)
                       (DataExport.n_budgets restored)) /\
      Models.record_in_taxonomy exp) \/
     (d' = d /\ forall restored', o = Py.Return restored' -> restored' = restored)) /\
  (forall restored budget d o d',
     DataExport.restore_budget parse_float parse_int
       (Models.set_budget now) user_id restored budget d = (o, d') ->
     (o = Py.Return (DataExport.Counters
                       (DataExport.n_expenses restored)
                       (DataExport.n_income restored)
                       (S (DataExport.n_budgets restored))) /\
      Models.record_in_taxonomy budget) \/
     (d' = d /\ forall restored', o = Py.Return restored' -> restored' = restored)) /\
  (forall backup_json d o d',
     DataExport.restore_from_backup json_loads parse_float parse_int fromisoformat
       (Models.add_expense now) (Models.add_income now) (Models.set_budget now)
       user_id backup_json d = (o, d') ->
     Models.only_taxonomy_rows_added d d').
Proof.
  split; [|split].
  - intros restored exp d o d'. apply restore_expense_record.
  - intros restored budget d o d'. apply restore_budget_record.
  - intros backup_json d o d'. apply restore_from_backup_moves.
Qed.

Lemma restore_counts_only_taxonomy_pairs_witness :
  let backup :=
    Py.VDict
      [("expenses",
         Py.VList
           [Py.VDict [("category", Py.VStr "Food");
                      ("subcategory", Py.VStr "Groceries");
                      ("amount", Py.VInt 100);
                      ("expense_date", Py.VStr "2026-02-01")];
            Py.VDict [("category", Py.VStr "Food");
                      ("subcategory", Py.VStr "Yachts");
                      ("amount", Py.VInt 9000);
                      ("expense_date", Py.VStr "2026-02-01")]])] in
  let run :=
    DataExport.restore_from_backup (fun _ => Py.Return backup)
      (fun _ => None) (fun _ => None) (fun _ => Some (Database.Date 2026 2 1))
      (Models.add_expense "2026-03-01") (Models.add_income "2026-03-01")
      (Models.set_budget "2026-03-01") 1 "backup.json"
      (Database.init_database Database.empty_db) in
  Models.only_taxonomy_rows_added
    (Database.init_database Database.empty_db) (snd run).
Proof.
  intros backup run.
  apply (proj2 (proj2 (restore_counts_only_taxonomy_pairs
           (fun _ => Py.Return backup) (fun _ => None) (fun _ => None)
           (fun _ => Some (Database.Date 2026 2 1)) "2026-03-01" 1))
           "backup.json" (Database.init_database Database.empty_db)
           (fst run) (snd run)).
  vm_compute. reflexivity.
Defined.

(* ------------------------------------------------------------------ *)
(** ** Reconciliation and the monthly balance *)

Section AnalyticsFacts.
Import PyStr Database Analytics.
Local Open Scope Q_scope.

Lemma Qltb_lt (a b : Q) : Qltb a b = true <-> a < b.
Proof.
  unfold Qltb. rewrite negb_true_iff. split.
  - intros H. apply Qnot_le_lt. intros Hle.
    apply Qle_bool_iff in Hle. congruence.
  - intros H. destruct (Qle_bool b a) eqn:E; [|reflexivity].
    apply Qle_bool_iff in E. exfalso. now apply (Qlt_not_le a b).
Qed.

Lemma Qltb_ge (a b : Q) : Qltb a b = false <-> b <= a.
Proof.
  unfold Qltb. rewrite negb_false_iff. apply Qle_bool_iff.
Qed.

Lemma status_under (p : Q) : status_of_percentage p = UnderBudget <-> p < 90.
Proof.
  unfold status_of_percentage.
  destruct (Qltb p 90) eqn:E.
  - apply Qltb_lt in E. tauto.
  - apply Qltb_ge in E. split.
    + destruct (Qle_bool p 110); discriminate.
    + intros H. exfalso. now apply (Qlt_not_le p 90).
Qed.

Lemma status_on_track (p : Q) :
  status_of_percentage p = OnTrack <-> 90 <= p /\ p <= 110.
Proof.
  unfold status_of_percentage.
  destruct (Qltb p 90) eqn:E.
  - apply Qltb_lt in E. split; [discriminate|].
    intros [H _]. exfalso. now apply (Qlt_not_le p 90).
  - apply Qltb_ge in E. destruct (Qle_bool p 110) eqn:F.
    + apply Qle_bool_iff in F. tauto.
    + split; [discriminate|]. intros [_ H].
      apply Qle_bool_iff in H. congruence.
Qed.

Lemma status_over (p : Q) : status_of_percentage p = OverBudget <-> 110 < p.
Proof.
  unfold status_of_percentage.
  destruct (Qltb p 90) eqn:E.
  - apply Qltb_lt in E. split; [discriminate|].
    intros H. exfalso. apply (Qlt_not_le _ _ H).
    apply Qlt_le_weak. eapply Qlt_trans; [exact E | reflexivity].
  - destruct (Qle_bool p 110) eqn:F.
    + apply Qle_bool_iff in F. split; [discriminate|].
      intros H. exfalso. now apply (Qlt_not_le _ _ H).
    + split; [intros _ | reflexivity].
      apply Qnot_le_lt. intros H. apply Qle_bool_iff in H. congruence.
Qed.

Lemma status_text_under (s : status) :
  status_text s = "Under Budget" <-> s = UnderBudget.
Proof. destruct s; split; (reflexivity || discriminate). Qed.

Lemma status_text_on_track (s : status) :
  status_text s = "On Track" <-> s = OnTrack.
Proof. destruct s; split; (reflexivity || discriminate). Qed.

Lemma status_text_over (s : status) :
  status_text s = "Over Budget" <-> s = OverBudget.
Proof. destruct s; split; (reflexivity || discriminate). Qed.

Lemma in_somes {A} (a : A) (l : list (option A)) :
  In a (somes l) <-> In (Some a) l.
Proof.
  induction l as [|[b|] l IH]; simpl; [tauto | | ].
  - rewrite IH. split; intros [H|H]; auto; left; congruence.
  - rewrite IH. split; [auto | intros [H|H]; [discriminate | exact H]].
Qed.

(** Every row of the table is the comparison of some pair. *)
Lemma reconcile_row plans actuals month year row :
  In row (reconcile plans actuals month year) ->
  exists k, comparison k (planned_for plans month year k)
                         (actual_for actuals month year k) = Some row.
Proof.
  unfold reconcile. rewrite in_somes, in_map_iff.
  intros [k [E _]]. eauto.
Qed.

Lemma comparison_with_plan k planned actual row :
  comparison k planned actual = Some row ->
  0 < c_planned_amount row ->
  c_planned_amount row = planned /\ c_actual_amount row = actual /\
  c_percentage row = Some (round1 (actual / planned * 100)) /\
  c_status row = status_of_percentage (round1 (actual / planned * 100)).
Proof.
  unfold comparison. destruct (Qltb 0 planned) eqn:Hp.
  - intros H _. injection H as <-. repeat split.
  - apply Qltb_ge in Hp.
    destruct (Qltb 0 actual); [|discriminate].
    intros H. injection H as <-. simpl. intros Hpos.
    exfalso. now apply (Qlt_not_le 0 planned).
Qed.
End AnalyticsFacts.

(** C1.  Every reconciliation row with [planned_amount > 0] has
    [percentage = round(actual / planned * 100, 1)], and its status is
    fixed by the bands on that percentage: [Under Budget] exactly below
    90, [On Track] exactly from 90 to 110, [Over Budget] exactly above
    110; so 89.9 is Under Budget, 90.0 and 110.0 are On Track, 110.1 is
    Over Budget. *)
Theorem reconcile_percentage_and_status
    (plans : list Database.budget_plan_row)
    (actuals : list Database.expense_row) (month year : Z)
    (row : Analytics.comparison_row) :
  In row (Analytics.reconcile plans actuals month year) ->
  (0 < Analytics.c_planned_amount row)%Q ->
  exists percentage : Q,
    Analytics.c_percentage row = Some percentage /\
    percentage =
      Analytics.round1 (Analytics.c_actual_amount row /
                        Analytics.c_planned_amount row * 100)%Q /\
    (Analytics.status_text (Analytics.c_status row) = "Under Budget"
       <-> (percentage < 90)%Q) /\
    (Analytics.status_text (Analytics.c_status row) = "On Track"
       <-> (90 <= percentage)%Q /\ (percentage <= 110)%Q) /\
    (Analytics.status_text (Analytics.c_status row) = "Over Budget"
       <-> (110 < percentage)%Q) /\
    ((percentage == 89.9)%Q ->
       Analytics.status_text (Analytics.c_status row) = "Under Budget") /\
    ((percentage == 90.0)%Q ->
       Analytics.status_text (Analytics.c_status row) = "On Track") /\
    ((percentage == 110.0)%Q ->
       Analytics.status_text (Analytics.c_status row) = "On Track") /\
    ((percentage == 110.1)%Q ->
       Analytics.status_text (Analytics.c_status row) = "Over Budget").
Proof.
  intros Hin Hpos.
  apply reconcile_row in Hin as [k Hk].
  destruct (comparison_with_plan _ _ _ _ Hk Hpos) as (Hp & Ha & Hpct & Hst).
  exists (Analytics.round1
            (Analytics.actual_for actuals month year k /
             Analytics.planned_for plans month year k * 100)%Q).
  rewrite Hp, Ha, Hst, status_text_under, status_text_on_track,
    status_text_over.
  split; [exact Hpct|]. split; [reflexivity|].
  split; [apply status_under|]. split; [apply status_on_track|].
  split; [apply status_over|].
  repeat split; intros E.
  - apply status_under. rewrite E. reflexivity.
  - apply status_on_track. rewrite E. split; discriminate.
  - apply status_on_track. rewrite E. split; discriminate.
  - apply status_over. rewrite E. reflexivity.
Qed.

Lemma reconcile_percentage_and_status_witness :
  let plans :=
    [Database.BudgetPlanRow 1 1 "Housing" "Electricity" 300 2 2026 None] in
  let actuals :=
    [Database.ExpenseRow 1 1 "Housing" "Electricity" 330 None
       (Database.Date 2026 2 3) None None None] in
  let row := Analytics.ComparisonRow "Housing" "Electricity" 300 330 (330 - 300)
               (Some 110.0%Q) Analytics.OnTrack in
  Analytics.status_text (Analytics.c_status row) = "On Track" <->
  (90 <= 110.0)%Q /\ (110.0 <= 110)%Q.
Proof.
  intros plans actuals row.
  destruct (reconcile_percentage_and_status plans actuals 2 2026 row)
    as (p & Hp & _ & _ & Hon & _).
  - vm_compute. left. reflexivity.
  - reflexivity.
  - injection Hp as <-. exact Hon.
Defined.

(** C6.  For every period with income above zero, the savings rate of the
    monthly balance is [(income - expenses) / income * 100]. *)
Theorem savings_rate_of_monthly_balance
    (d : Database.db) (user_id month year : Z) :
  let b := Analytics.fetch_monthly_balance d user_id month year in
  (0 < Analytics.income_total b)%Q ->
  (Analytics.savings_rate b ==
     (Analytics.income_total b - Analytics.expenses_total b)
       / Analytics.income_total b * 100)%Q /\
  (Analytics.balance b ==
     Analytics.income_total b - Analytics.expenses_total b)%Q.
Proof.
  intros b Hpos. unfold b, Analytics.fetch_monthly_balance in *.
  cbn [Analytics.income_total Analytics.expenses_total Analytics.savings_rate
       Analytics.balance] in *.
  apply Qltb_lt in Hpos. rewrite Hpos. split; reflexivity.
Qed.

Lemma savings_rate_of_monthly_balance_witness :
  let d :=
    Session.run_all (Database.init_database Database.empty_db)
      [ Session.InsertIncome 1 "Salary" 2000 (Database.Date 2026 2 1) None "t0";
        Session.InsertExpense 1 "Food" "Groceries" 1900 None
          (Database.Date 2026 2 5) None "t1" ] in
  (Analytics.savings_rate (Analytics.fetch_monthly_balance d 1 2 2026) == 5)%Q.
Proof.
  intros d.
  destruct (savings_rate_of_monthly_balance d 1 2 2026) as [H _].
  - reflexivity.
  - rewrite H. reflexivity.
Defined.

(* ------------------------------------------------------------------ *)
(** ** Checks on concrete inputs *)

Example sha256_of_empty_text :
  Sha256.hexdigest ""
  = "e3b0c44298fc1c149afbf4c8996fb92427ae41e4649b934ca495991b7852b855".
Proof. vm_compute. reflexivity. Qed.

Example sha256_of_abc :
  Sha256.hexdigest "abc"
  = "ba7816bf8f01cfea414140de5dae2223b00361a396177a9cb410ff61f20015ad".
Proof. vm_compute. reflexivity. Qed.

Example len_counts_code_points : PyStr.len "pässwörd€" = 9%nat.
Proof. reflexivity. Qed.

(** A lone surrogate is one character; the encoder names the run of
    surrogates it stopped at. *)
Example surrogates_are_counted_and_refused :
  PyStr.len (Utf8.chr 0xD800 ++ "secret") = 7%nat /\
  Utf8.encode ("ab" ++ Utf8.chr 0xD83D ++ Utf8.chr 0xDE00 ++ "c")
  = Py.Raise
      (Py.Exn Py.UnicodeEncodeError
         "'utf-8' codec can't encode characters in position 2-3: surrogates not allowed") /\
  Utf8.encode ("pässwörd€" ++ Utf8.chr 0x1F600) = Py.Return "pässwörd€😀".
Proof. repeat split; vm_compute; reflexivity. Qed.

(** A user name that cannot be bound is answered by the handlers of the
    two [try] blocks; a password that cannot be encoded fails
    verification. *)
Example unbindable_names_are_answered :
  let d := snd (Auth.register_user [9; 8; 7]%N "2026-02-01" "alice" "secret1"
                  None (Database.init_database Database.empty_db)) in
  Auth.login_user "2026-02-02" (Utf8.chr 0xDC00 ++ "bob") "secret1" d
  = (Py.Return
       (Auth.failure
          "Login error: 'utf-8' codec can't encode character '\udc00' in position 0: surrogates not allowed"),
     d) /\
  Auth.register_user [1]%N "2026-02-02" ("bob" ++ Utf8.chr 0xDFFF) "secret1" None d
  = (Py.Return
       (Auth.failure
          "Error creating account: 'utf-8' codec can't encode character '\udfff' in position 3: surrogates not allowed"),
     d) /\
  Auth.login_user "2026-02-02" "alice" ("secret1" ++ Utf8.chr 0xD800) d
  = (Py.Return (Auth.failure "Invalid username or password"), d).
Proof. vm_compute. repeat split; reflexivity. Qed.

Example split_keeps_empty_pieces :
  PyStr.split PyStr.colon "a::b:" = ["a"; ""; "b"; ""].
Proof. reflexivity. Qed.

(** Register, then log in with the same password. *)
Example register_then_login :
  let d := snd (Auth.register_user [1; 2; 3; 255]%N "2026-02-01" "alice" "secret1"
                  None (Database.init_database Database.empty_db)) in
  fst (Auth.login_user "2026-02-02" "alice" "secret1" d)
  = Py.Return (Py.VDict [("success", Py.VBool true);
                         ("message", Py.VStr "Login successful!");
                         ("user_id", Py.VInt 1);
                         ("username", Py.VStr "alice")]).
Proof. vm_compute. reflexivity. Qed.

(** A user without a row in [user_preferences] gets a backup, with empty
    preferences. *)
Example backup_without_preferences :
  fst (DataExport.create_full_backup (fun _ => Py.ret []) (fun _ => Py.ret [])
         "2026-02-02T10:00:00" 7 (Database.init_database Database.empty_db))
  = Py.Return (Py.VDict [("backup_date", Py.VStr "2026-02-02T10:00:00");
                         ("version", Py.VStr "1.0");
                         ("user_id", Py.VInt 7);
                         ("expenses", Py.VList []);
                         ("income", Py.VList []);
                         ("budgets", Py.VList []);
                         ("preferences", Py.VDict [])]).
Proof. vm_compute. reflexivity. Qed.

(** [restore_from_backup] hands the pair of a record to the ledger as it
    is and counts on the ledger's answer alone: in front of a ledger that
    accepts everything, a record outside the taxonomy is counted. *)
Example restore_counts_what_the_ledger_accepts :
  let accept_all := fun (_ : Z) (_ _ : Py.value) (_ : Q) (_ : Database.date)
                        (_ _ : Py.value) =>
                      @Py.ret Database.db _ (Models.result true "ok") in
  let record := Py.VDict [("category", Py.VStr "Food");
                          ("subcategory", Py.VStr "Yachts");
                          ("amount", Py.VInt 9000);
                          ("expense_date", Py.VStr "2026-02-01")] in
  Categories.in_taxonomy "Food" "Yachts" = false /\
  fst (DataExport.restore_expense (fun _ => None)
         (fun _ => Some (Database.Date 2026 2 1)) accept_all 1
         (DataExport.Counters 0 0 0) record Database.empty_db)
  = Py.Return (DataExport.Counters 1 0 0).
Proof. vm_compute. split; reflexivity. Qed.

(** The scenario of the specification: planned 300, actual 330. *)
Example housing_electricity_on_track :
  Analytics.reconcile
    [Database.BudgetPlanRow 1 1 "Housing" "Electricity" 300 2 2026 None]
    [Database.ExpenseRow 1 1 "Housing" "Electricity" 330 None
       (Database.Date 2026 2 3) None None None] 2 2026
  = [Analytics.ComparisonRow "Housing" "Electricity" 300 330 (330 - 300)
       (Some 110.0%Q) Analytics.OnTrack].
Proof. vm_compute. reflexivity. Qed.

(** Spend without a plan. *)
Example groceries_without_budget :
  map Analytics.c_status
    (Analytics.reconcile []
       [Database.ExpenseRow 1 1 "Food" "Groceries" 600 None
          (Database.Date 2026 2 3) None None None] 2 2026)
  = [Analytics.NoBudgetSet].
Proof. vm_compute. reflexivity. Qed.

(* ================================================================== *)
(** * Further properties of the sources *)

(* ------------------------------------------------------------------ *)
(** ** Registration: what a success writes, what a failure leaves *)

Section RegisterFacts.
Import PyStr Py Database Auth.

Lemma register_user_succeeded rb now u p email d v d' :
  register_user rb now u p email d = (Return v, d') ->
  getitem v "success" = Return (VBool true) ->
  exists tu tp,
    (3 <= len u)%nat /\ (6 <= len p)%nat /\
    users d = Some tu /\ user_preferences d = Some tp /\
    existsb (fun r => String.eqb (u_username r) u) (rows tu) = false /\
    existsb (fun r => (p_user_id r =? next_rowid u_id tu)%Z) (rows tp) = false /\
    v = VDict [("success", VBool true);
               ("message", VStr "Account created successfully!");
               ("user_id", VInt (next_rowid u_id tu))] /\
    d' = set_user_preferences
           (set_users d (append_row tu (next_rowid u_id tu)
                           (registered_user rb now u p email (next_rowid u_id tu))))
           (append_row tp (next_rowid p_id tp)
              (PreferenceRow (next_rowid p_id tp) (next_rowid u_id tu)
                 "USD" "en" "light" 1)).
Proof.
  intros Hrun Hok.
  destruct (Nat.ltb_spec (len u) 3) as [Hu|Hu].
  { rewrite register_user_short_username in Hrun by assumption.
    injection Hrun as <- _. discriminate. }
  destruct (Nat.ltb_spec (len p) 6) as [Hp|Hp].
  { rewrite register_user_short_password in Hrun by assumption.
    injection Hrun as <- _. discriminate. }
  destruct (register_user_returned _ _ _ _ _ _ _ _ Hu Hp Hrun) as [He Ho].
  rewrite register_user_validated in Hrun by assumption. cbv zeta in Hrun.
  unfold insert_user in Hrun.
  destruct (users d) as [tu|] eqn:Htu;
    [|injection Hrun as <- _; discriminate].
  destruct (bind_parameters _) as [[]|e];
    [|injection Hrun as <- _; discriminate].
  destruct (existsb _ (rows tu)) eqn:Hfree;
    [injection Hrun as <- _; discriminate|].
  unfold insert_preferences in Hrun. cbn [user_preferences set_users] in Hrun.
  destruct (user_preferences d) as [tp|] eqn:Htp;
    [|injection Hrun as <- _; discriminate].
  destruct (existsb _ (rows tp)) eqn:Hnone;
    [injection Hrun as <- _; discriminate|].
  injection Hrun as <- <-.
  exists tu, tp. repeat split; assumption.
Qed.

Lemma register_user_failed rb now u p email d v d' :
  register_user rb now u p email d = (Return v, d') ->
  getitem v "success" = Return (VBool false) ->
  d' = d.
Proof.
  intros Hrun Hno.
  destruct (Nat.ltb_spec (len u) 3) as [Hu|Hu].
  { rewrite register_user_short_username in Hrun by assumption.
    now injection Hrun. }
  destruct (Nat.ltb_spec (len p) 6) as [Hp|Hp].
  { rewrite register_user_short_password in Hrun by assumption.
    now injection Hrun. }
  destruct (register_user_returned _ _ _ _ _ _ _ _ Hu Hp Hrun) as [He Ho].
  rewrite register_user_validated in Hrun by assumption. cbv zeta in Hrun.
  destruct (insert_user _ _ _ _ d) as [[id d1]|e]; [|now injection Hrun].
  destruct (insert_preferences id d1) as [[pid d2]|e]; [|now injection Hrun].
  injection Hrun as <- _. discriminate.
Qed.

(** What a successful [register_user] was given: a password that
    encodes, and a name and an e-mail address the insert could bind. *)
Lemma register_user_succeeded_texts rb now u p email d v d' :
  register_user rb now u p email d = (Return v, d') ->
  getitem v "success" = Return (VBool true) ->
  Utf8.encodable p = true /\ Utf8.encodable u = true /\
  (forall e, email = Some e -> Utf8.encodable e = true).
Proof.
  intros Hrun Hok.
  destruct (Nat.ltb_spec (len u) 3) as [Hu|Hu].
  { rewrite register_user_short_username in Hrun by assumption.
    injection Hrun as <- _. discriminate. }
  destruct (Nat.ltb_spec (len p) 6) as [Hp|Hp].
  { rewrite register_user_short_password in Hrun by assumption.
    injection Hrun as <- _. discriminate. }
  destruct (register_user_returned _ _ _ _ _ _ _ _ Hu Hp Hrun) as [He Ho].
  split; [exact He|].
  rewrite register_user_validated in Hrun by assumption. cbv zeta in Hrun.
  unfold insert_user in Hrun.
  destruct (users d) as [tu|]; [|injection Hrun as <- _; discriminate].
  cbn [bind_parameters] in Hrun.
  destruct (Utf8.encodable u) eqn:Eu.
  2:{ destruct (bind_text_refuses u Eu) as [m Hm]. rewrite Hm in Hrun.
      injection Hrun as <- _. discriminate. }
  split; [reflexivity|]. intros e ->.
  rewrite (bind_text_encodable u Eu) in Hrun.
  destruct (bind_text _) as [[]|x] in Hrun;
    [|injection Hrun as <- _; discriminate].
  cbn [bind_optional_text] in Hrun.
  destruct (Utf8.encodable e) eqn:Ee; [reflexivity|].
  destruct (bind_text_refuses e Ee) as [m Hm]. rewrite Hm in Hrun.
  injection Hrun as <- _. discriminate.
Qed.

(** An exception that leaves [register_user] leaves the database as it
    was: it is raised before the first statement. *)
Lemma register_user_raised rb now u p email d e d' :
  register_user rb now u p email d = (Raise e, d') -> d' = d.
Proof.
  intros Hrun.
  destruct (Nat.ltb_spec (len u) 3) as [Hu|Hu].
  { rewrite register_user_short_username in Hrun by assumption. discriminate. }
  destruct (Nat.ltb_spec (len p) 6) as [Hp|Hp].
  { rewrite register_user_short_password in Hrun by assumption. discriminate. }
  rewrite register_user_past_checks in Hrun by assumption.
  destruct (hash_password p None rb) as [[pwd_hash salt]|x];
    [|now injection Hrun].
  destruct (opens d); [|now injection Hrun].
  destruct (insert_user _ _ _ _ d) as [[id d1]|x]; [|discriminate].
  destruct (insert_preferences id d1) as [[pid d2]|x]; discriminate.
Qed.

Lemma verify_registered_hash (p : str) (rb : list N) :
  Utf8.encodable p = true ->
  verify_password p
    (token_hex rb ++ ":" ++ Sha256.hexdigest (p ++ token_hex rb)) = true.
Proof.
  intros Hp. rewrite verify_password_of_parts.
  - rewrite encode_encodable
      by (apply encodable_app_ascii; [exact Hp | apply token_hex_isascii]).
    apply String.eqb_refl.
  - apply split_salt_hash; [apply token_hex_no_colon | apply hexdigest_no_colon].
Qed.

Lemma registered_user_verifies rb now u p email id :
  Utf8.encodable p = true ->
  verify_password p (u_password_hash (registered_user rb now u p email id)) = true.
Proof. apply verify_registered_hash. Qed.

Lemma filter_registered_user rb now u p email id (l : list user_row) :
  existsb (fun r => String.eqb (u_username r) u) l = false ->
  filter (fun r => String.eqb (u_username r) u)
         (l ++ [registered_user rb now u p email id])
  = [registered_user rb now u p email id].
Proof.
  intros Hfree. rewrite filter_app, filter_none.
  - simpl. now rewrite String.eqb_refl.
  - intros a Ha. destruct (String.eqb (u_username a) u) eqn:E; [|reflexivity].
    assert (existsb (fun r => String.eqb (u_username r) u) l = true) as T
      by (apply existsb_exists; eauto).
    congruence.
Qed.

Lemma fold_max_bound (l : list Z) (z0 x : Z) :
  In x l -> (x <= fold_right Z.max z0 l)%Z.
Proof.
  induction l as [|y l IH]; simpl; [contradiction|].
  intros [->|H]; [lia|]. specialize (IH H). lia.
Qed.

Lemma next_rowid_fresh {R} (id_of : R -> Z) (t : table R) (r : R) :
  In r (rows t) -> (id_of r < next_rowid id_of t)%Z.
Proof.
  intros H. unfold next_rowid.
  pose proof (fold_max_bound (map id_of (rows t)) (seq t) (id_of r)
                (in_map id_of _ _ H)). lia.
Qed.
End RegisterFacts.

(** X1.  Register, then log in: after a successful [register_user] of
    [username] and [password], [login_user] with the same two texts
    succeeds on the resulting database, for the key registration
    returned and the registered name. *)
Theorem login_succeeds_after_register
    (random_bytes : list N) (now later : Database.timestamp)
    (username password : PyStr.str) (email : option PyStr.str)
    (d d' : Database.db) (v : Py.value) :
  Auth.register_user random_bytes now username password email d
    = (Py.Return v, d') ->
  Py.getitem v "success" = Py.Return (Py.VBool true) ->
  exists id : Z,
    Py.getitem v "user_id" = Py.Return (Py.VInt id) /\
    fst (Auth.login_user later username password d')
      = Py.Return (Py.VDict [("success", Py.VBool true);
                             ("message", Py.VStr "Login successful!");
                             ("user_id", Py.VInt id);
                             ("username", Py.VStr username)]).
Proof.
  intros Hrun Hok.
  destruct (register_user_succeeded_texts _ _ _ _ _ _ _ _ Hrun Hok)
    as (Hp & Hu & _).
  destruct (register_user_succeeded _ _ _ _ _ _ _ _ Hrun Hok)
    as (tu & tp & _ & _ & Htu & Htp & Hfree & _ & -> & ->).
  exists (Database.next_rowid Database.u_id tu). split; [reflexivity|].
  erewrite login_user_cases by (reflexivity || exact Hu).
  cbn [Database.rows Database.append_row].
  rewrite filter_registered_user by assumption.
  now rewrite registered_user_verifies.
Qed.

Lemma login_succeeds_after_register_witness :
  exists id : Z,
    fst (Auth.login_user "2026-02-02" "alice" "secret1"
           (snd (Auth.register_user [9; 8; 7]%N "2026-02-01" "alice" "secret1"
                   None (Database.init_database Database.empty_db))))
    = Py.Return (Py.VDict [("success", Py.VBool true);
                           ("message", Py.VStr "Login successful!");
                           ("user_id", Py.VInt id);
                           ("username", Py.VStr "alice")]).
Proof.
  destruct (login_succeeds_after_register [9; 8; 7]%N "2026-02-01" "2026-02-02"
              "alice" "secret1" None
              (Database.init_database Database.empty_db)
              (snd (Auth.register_user [9; 8; 7]%N "2026-02-01" "alice" "secret1"
                      None (Database.init_database Database.empty_db)))
              (Py.VDict [("success", Py.VBool true);
                         ("message", Py.VStr "Account created successfully!");
                         ("user_id", Py.VInt 1)]))
    as [id [_ H]].
  - vm_compute. reflexivity.
  - reflexivity.
  - exists id. exact H.
Defined.

(** X2.  A registration that fails changes nothing: whenever
    [register_user] answers [success = False], for whatever reason, the
    database is the one it was given; a user row already inserted when
    the insert into [user_preferences] fails is not kept. *)
Theorem register_user_failure_changes_nothing
    (random_bytes : list N) (now : Database.timestamp)
    (username password : PyStr.str) (email : option PyStr.str)
    (d d' : Database.db) (v : Py.value) :
  Auth.register_user random_bytes now username password email d
    = (Py.Return v, d') ->
  Py.getitem v "success" = Py.Return (Py.VBool false) ->
  d' = d.
Proof. apply register_user_failed. Qed.

Lemma register_user_failure_changes_nothing_witness :
  let d := Database.Db (Some Database.empty_table) None None None
             (Some (Database.Table
                      [Database.PreferenceRow 1 1 "USD" "en" "light" 1] 1))
             None in
  snd (Auth.register_user [7]%N "2026-02-02" "alice" "secret1" None d) = d.
Proof.
  intros d.
  apply (register_user_failure_changes_nothing [7]%N "2026-02-02" "alice"
           "secret1" None d _
           (Auth.failure "Username already exists")).
  - vm_compute. reflexivity.
  - reflexivity.
Defined.

(** X3.  A registration that succeeds adds exactly one row to [users]
    (the new name, the salted hash, the time of the call, no login yet)
    under a key larger than every key in the table, and exactly one row
    to [user_preferences] for that key with the defaults USD, en, light,
    1; the other four tables are not touched. *)
Theorem register_user_adds_one_user_with_defaults
    (random_bytes : list N) (now : Database.timestamp)
    (username password : PyStr.str) (email : option PyStr.str)
    (d d' : Database.db) (v : Py.value) :
  Auth.register_user random_bytes now username password email d
    = (Py.Return v, d') ->
  Py.getitem v "success" = Py.Return (Py.VBool true) ->
  exists id pid : Z,
    Py.getitem v "user_id" = Py.Return (Py.VInt id) /\
    Database.table_rows (Database.users d')
      = (Database.table_rows (Database.users d)
         ++ [Auth.registered_user random_bytes now username password email id])%list /\
    (forall r, In r (Database.table_rows (Database.users d)) ->
       (Database.u_id r < id)%Z /\ Database.u_username r <> username) /\
    Database.table_rows (Database.user_preferences d')
      = (Database.table_rows (Database.user_preferences d)
         ++ [Database.PreferenceRow pid id "USD" "en" "light" 1])%list /\
    Database.budget_plans d' = Database.budget_plans d /\
    Database.expenses d' = Database.expenses d /\
    Database.income d' = Database.income d /\
    Database.ai_predictions d' = Database.ai_predictions d.
Proof.
  intros Hrun Hok.
  destruct (register_user_succeeded _ _ _ _ _ _ _ _ Hrun Hok)
    as (tu & tp & _ & _ & Htu & Htp & Hfree & _ & -> & ->).
  exists (Database.next_rowid Database.u_id tu),
         (Database.next_rowid Database.p_id tp).
  rewrite Htu, Htp. cbn.
  repeat split; try reflexivity.
  - now apply next_rowid_fresh.
  - intros E.
    assert (existsb (fun r => String.eqb (Database.u_username r) username)
              (Database.rows tu) = true) as T.
    { apply existsb_exists. exists r. split; [assumption|].
      rewrite E. apply String.eqb_refl. }
    congruence.
Qed.

Lemma register_user_adds_one_user_with_defaults_witness :
  exists id pid : Z,
    Database.table_rows (Database.user_preferences
      (snd (Auth.register_user [9; 8; 7]%N "2026-02-01" "alice" "secret1" None
              (Database.init_database Database.empty_db))))
    = [Database.PreferenceRow pid id "USD" "en" "light" 1].
Proof.
  destruct (register_user_adds_one_user_with_defaults [9; 8; 7]%N
              "2026-02-01" "alice" "secret1" None
              (Database.init_database Database.empty_db)
              (snd (Auth.register_user [9; 8; 7]%N "2026-02-01" "alice" "secret1"
                      None (Database.init_database Database.empty_db)))
              (Py.VDict [("success", Py.VBool true);
                         ("message", Py.VStr "Account created successfully!");
                         ("user_id", Py.VInt 1)]))
    as (id & pid & _ & _ & _ & H & _).
  - vm_compute. reflexivity.
  - reflexivity.
  - exists id, pid. exact H.
Defined.

(* ------------------------------------------------------------------ *)
(** ** Login: what it writes *)

Section LoginFrame.
Import PyStr Py Database Auth.

Lemma update_last_login_keeps_identity now id (l : list user_row) :
  map (fun r => (u_id r, u_username r, u_password_hash r, u_email r,
                 u_created_at r))
      (map (fun r => if (u_id r =? id)%Z
                     then UserRow (u_id r) (u_username r) (u_password_hash r)
                            (u_email r) (u_created_at r) (Some now)
                     else r) l)
  = map (fun r => (u_id r, u_username r, u_password_hash r, u_email r,
                   u_created_at r)) l.
Proof.
  rewrite map_map. apply map_ext. intros r.
  destruct (u_id r =? id)%Z; reflexivity.
Qed.

Lemma login_user_outcome now u p d v d' :
  login_user now u p d = (Return v, d') ->
  (getitem v "success" = Return (VBool false) /\ d' = d) \/
  (exists t user,
     users d = Some t /\ In user (rows t) /\ u_username user = u /\
     verify_password p (u_password_hash user) = true /\
     v = VDict [("success", VBool true);
                ("message", VStr "Login successful!");
                ("user_id", VInt (u_id user));
                ("username", VStr (u_username user))] /\
     d' = set_users d
            (Table (map (fun r => if (u_id r =? u_id user)%Z
                                  then UserRow (u_id r) (u_username r)
                                         (u_password_hash r) (u_email r)
                                         (u_created_at r) (Some now)
                                  else r) (rows t))
                   (seq t))).
Proof.
  destruct (opens d) eqn:Ho.
  2:{ rewrite login_user_unopenable by assumption. discriminate. }
  destruct (users d) as [t|] eqn:Ht.
  - destruct (Utf8.encodable u) eqn:Hu.
    2:{ destruct (login_user_unbindable now u p d t Ht Hu) as [m ->].
        intros H. injection H as <- <-. now left. }
    rewrite (login_user_cases _ _ _ _ _ Ht Hu).
    destruct (filter _ (rows t)) as [|user rest] eqn:F.
    + intros H. injection H as <- <-. now left.
    + assert (In user (filter (fun r => String.eqb (u_username r) u) (rows t)))
        as Hin by (rewrite F; now left).
      apply filter_In in Hin as [Hin Hname]. apply String.eqb_eq in Hname.
      destruct (verify_password p (u_password_hash user)) eqn:V.
      * intros H. injection H as <- <-. right. exists t, user.
        repeat split; try assumption.
        unfold update_last_login. rewrite Ht. reflexivity.
      * intros H. injection H as <- <-. now left.
  - rewrite (login_user_no_table _ _ _ _ Ho Ht).
    intros H. injection H as <- <-. now left.
Qed.

(** An exception leaves [login_user] only when the file does not open. *)
Lemma login_user_raised now u p d e d' :
  login_user now u p d = (Raise e, d') -> opens d = false /\ d' = d.
Proof.
  intros Hrun. destruct (opens d) eqn:Ho.
  - destruct (login_user_structured now u p d Ho) as (v & d1 & E & _).
    rewrite E in Hrun. discriminate.
  - rewrite login_user_unopenable in Hrun by assumption.
    injection Hrun as _ <-. now split.
Qed.
End LoginFrame.

(** X4.  [login_user] writes nothing but [last_login]: whatever it
    answers, the five other tables are as before and every row of
    [users] keeps its key, name, hash, email and creation time, in the
    same order; when it answers [success = False] the whole database is
    unchanged. *)
Theorem login_user_writes_only_last_login
    (now : Database.timestamp) (username password : PyStr.str)
    (d d' : Database.db) (v : Py.value) :
  Auth.login_user now username password d = (Py.Return v, d') ->
  Database.budget_plans d' = Database.budget_plans d /\
  Database.expenses d' = Database.expenses d /\
  Database.income d' = Database.income d /\
  Database.user_preferences d' = Database.user_preferences d /\
  Database.ai_predictions d' = Database.ai_predictions d /\
  map (fun r => (Database.u_id r, Database.u_username r,
                 Database.u_password_hash r, Database.u_email r,
                 Database.u_created_at r))
      (Database.table_rows (Database.users d'))
  = map (fun r => (Database.u_id r, Database.u_username r,
                   Database.u_password_hash r, Database.u_email r,
                   Database.u_created_at r))
        (Database.table_rows (Database.users d)) /\
  (Py.getitem v "success" = Py.Return (Py.VBool false) -> d' = d).
Proof.
  intros Hrun.
  destruct (login_user_outcome _ _ _ _ _ _ Hrun)
    as [[Hno ->]|(t & user & Ht & _ & _ & _ & -> & ->)].
  - repeat split.
  - rewrite Ht. cbn.
    rewrite update_last_login_keeps_identity.
    repeat split. discriminate.
Qed.

Lemma login_user_writes_only_last_login_witness :
  let d := snd (Auth.register_user [9; 8; 7]%N "2026-02-01" "alice" "secret1"
                  None (Database.init_database Database.empty_db)) in
  Database.user_preferences
    (snd (Auth.login_user "2026-02-02" "alice" "secret1" d))
  = Database.user_preferences d.
Proof.
  intros d.
  refine (proj1 (proj2 (proj2 (proj2
    (login_user_writes_only_last_login "2026-02-02" "alice" "secret1" d
       (snd (Auth.login_user "2026-02-02" "alice" "secret1" d))
       (Py.VDict [("success", Py.VBool true);
                  ("message", Py.VStr "Login successful!");
                  ("user_id", Py.VInt 1);
                  ("username", Py.VStr "alice")]) _))))).
  vm_compute. reflexivity.
Defined.

(** X5.  A session is opened only on a verified password: whenever
    [login_user] answers [success = True], the [users] table holds a row
    with the name that was typed, the stored hash of that row verifies
    the password that was typed, and the answer carries that row's key
    and name. *)
Theorem login_user_success_means_verified
    (now : Database.timestamp) (username password : PyStr.str)
    (d d' : Database.db) (v : Py.value) :
  Auth.login_user now username password d = (Py.Return v, d') ->
  Py.getitem v "success" = Py.Return (Py.VBool true) ->
  exists user : Database.user_row,
    In user (Database.table_rows (Database.users d)) /\
    Database.u_username user = username /\
    Auth.verify_password password (Database.u_password_hash user) = true /\
    Py.getitem v "user_id" = Py.Return (Py.VInt (Database.u_id user)) /\
    Py.getitem v "username" = Py.Return (Py.VStr username).
Proof.
  intros Hrun Hok.
  destruct (login_user_outcome _ _ _ _ _ _ Hrun)
    as [[Hno _]|(t & user & Ht & Hin & Hname & Hv & -> & _)].
  - congruence.
  - exists user. rewrite Ht. cbn. rewrite Hname. repeat split; assumption.
Qed.

Lemma login_user_success_means_verified_witness :
  let d := snd (Auth.register_user [9; 8; 7]%N "2026-02-01" "alice" "secret1"
                  None (Database.init_database Database.empty_db)) in
  exists user : Database.user_row,
    In user (Database.table_rows (Database.users d)) /\
    Auth.verify_password "secret1" (Database.u_password_hash user) = true.
Proof.
  intros d.
  destruct (login_user_success_means_verified "2026-02-02" "alice" "secret1" d
              (snd (Auth.login_user "2026-02-02" "alice" "secret1" d))
              (Py.VDict [("success", Py.VBool true);
                         ("message", Py.VStr "Login successful!");
                         ("user_id", Py.VInt 1);
                         ("username", Py.VStr "alice")]))
    as (user & Hin & _ & Hv & _).
  - vm_compute. reflexivity.
  - reflexivity.
  - exists user. split; assumption.
Defined.

(* ------------------------------------------------------------------ *)
(** ** [get_user_info] *)

Section UserInfoFacts.
Import PyStr Py Database Auth.

Lemma get_user_info_cases uid d tu tp :
  users d = Some tu -> user_preferences d = Some tp ->
  get_user_info uid d =
    (Return
       match filter (fun u => (u_id u =? uid)%Z) (rows tu) with
       | [] => VNone
       | u :: _ =>
           dict_of_user_info
             (u, hd_error (filter (fun p => (p_user_id p =? u_id u)%Z) (rows tp)))
       end, d).
Proof.
  intros Htu Htp.
  unfold get_user_info.
  rewrite with_connection_opens by exact (users_opens _ _ Htu).
  unfold bind, query, select_user_info, close, ret.
  cbn [working durable]. rewrite Htu, Htp.
  destruct (filter _ (rows tu)) as [|u us]; [reflexivity|].
  cbn [flat_map].
  destruct (filter _ (rows tp)) as [|q qs]; reflexivity.
Qed.

Lemma filter_fresh_key {R} (id_of : R -> Z) (l : list R) (id : Z) :
  (forall r, In r l -> id_of r <> id) ->
  filter (fun r => (id_of r =? id)%Z) l = [].
Proof.
  intros H. apply filter_none. intros a Ha. apply Z.eqb_neq. now apply H.
Qed.

Lemma existsb_false_all {R} (f : R -> bool) (l : list R) :
  existsb f l = false -> forall r, In r l -> f r = false.
Proof.
  intros H r Hr. destruct (f r) eqn:E; [|reflexivity].
  assert (existsb f l = true) by (apply existsb_exists; eauto). congruence.
Qed.
End UserInfoFacts.

(** X6.  Register, then read: after a successful [register_user],
    [get_user_info] for the returned key gives the registered name and
    email, the time of registration, no login yet, and the default
    preferences USD, en, light, 1; it leaves the database as it is. *)
Theorem get_user_info_after_register
    (random_bytes : list N) (now : Database.timestamp)
    (username password : PyStr.str) (email : option PyStr.str)
    (d d' : Database.db) (v : Py.value) :
  Auth.register_user random_bytes now username password email d
    = (Py.Return v, d') ->
  Py.getitem v "success" = Py.Return (Py.VBool true) ->
  exists id : Z,
    Py.getitem v "user_id" = Py.Return (Py.VInt id) /\
    Auth.get_user_info id d'
      = (Py.Return
           (Py.VDict [("id", Py.VInt id);
                      ("username", Py.VStr username);
                      ("email", Auth.text_or_none email);
                      ("created_at", Py.VStr now);
                      ("last_login", Py.VNone);
                      ("currency", Py.VStr "USD");
                      ("language", Py.VStr "en");
                      ("theme", Py.VStr "light");
                      ("notifications", Py.VInt 1)]), d').
Proof.
  intros Hrun Hok.
  destruct (register_user_succeeded _ _ _ _ _ _ _ _ Hrun Hok)
    as (tu & tp & _ & _ & Htu & Htp & _ & Hnone & -> & ->).
  exists (Database.next_rowid Database.u_id tu). split; [reflexivity|].
  erewrite get_user_info_cases by reflexivity.
  cbn [Database.rows Database.append_row].
  rewrite !filter_app.
  rewrite (filter_fresh_key Database.u_id (Database.rows tu)).
  - unfold Auth.registered_user. cbn [filter app Database.u_id].
    rewrite Z.eqb_refl.
    cbn [Database.u_id]. rewrite filter_app.
    rewrite (filter_none _ _ (existsb_false_all _ _ Hnone)).
    cbn. rewrite Z.eqb_refl. reflexivity.
  - intros r Hr E.
    pose proof (next_rowid_fresh Database.u_id tu r Hr). lia.
Qed.

Lemma get_user_info_after_register_witness :
  exists id : Z,
    fst (Auth.get_user_info id
           (snd (Auth.register_user [9; 8; 7]%N "2026-02-01" "alice" "secret1"
                   (Some "alice@example.org")
                   (Database.init_database Database.empty_db))))
    = Py.Return
        (Py.VDict [("id", Py.VInt id);
                   ("username", Py.VStr "alice");
                   ("email", Py.VStr "alice@example.org");
                   ("created_at", Py.VStr "2026-02-01");
                   ("last_login", Py.VNone);
                   ("currency", Py.VStr "USD");
                   ("language", Py.VStr "en");
                   ("theme", Py.VStr "light");
                   ("notifications", Py.VInt 1)]).
Proof.
  destruct (get_user_info_after_register [9; 8; 7]%N "2026-02-01" "alice"
              "secret1" (Some "alice@example.org")
              (Database.init_database Database.empty_db)
              (snd (Auth.register_user [9; 8; 7]%N "2026-02-01" "alice" "secret1"
                      (Some "alice@example.org")
                      (Database.init_database Database.empty_db)))
              (Py.VDict [("success", Py.VBool true);
                         ("message", Py.VStr "Account created successfully!");
                         ("user_id", Py.VInt 1)]))
    as [id [_ H]].
  - vm_compute. reflexivity.
  - reflexivity.
  - exists id. now rewrite H.
Defined.

(** X7.  [get_user_info] only reads, and never hands out the password
    hash.  The database is left as it is.  When it returns, the answer
    is [None] exactly when no user has the key; otherwise it is a dict
    of a user with that key whose keys are id, username, email,
    created_at, last_login, currency, language, theme and notifications,
    and nothing else. *)
Theorem get_user_info_reads_without_the_hash
    (user_id : Z) (d d' : Database.db) (v : Py.value) :
  Auth.get_user_info user_id d = (Py.Return v, d') ->
  d' = d /\
  ((v = Py.VNone /\
    forall r, In r (Database.table_rows (Database.users d)) ->
              Database.u_id r <> user_id) \/
   (exists (fields : list (string * Py.value)) (r : Database.user_row),
      v = Py.VDict fields /\
      In r (Database.table_rows (Database.users d)) /\
      Database.u_id r = user_id /\
      PyDict.get fields "username" = Some (Py.VStr (Database.u_username r)) /\
      PyDict.keys fields
        = ["id"; "username"; "email"; "created_at"; "last_login";
           "currency"; "language"; "theme"; "notifications"] /\
      PyDict.get fields "password_hash" = None)).
Proof.
  destruct (Database.opens d) eqn:Ho.
  2:{ unfold Auth.get_user_info.
      rewrite with_connection_unopenable by assumption. discriminate. }
  destruct (Database.users d) as [tu|] eqn:Htu.
  2:{ unfold Auth.get_user_info.
      rewrite with_connection_opens by assumption.
      unfold Py.bind, Database.query, Database.select_user_info.
      cbn. rewrite Htu. discriminate. }
  destruct (Database.user_preferences d) as [tp|] eqn:Htp.
  2:{ unfold Auth.get_user_info.
      rewrite with_connection_opens by assumption.
      unfold Py.bind, Database.query, Database.select_user_info.
      cbn. rewrite Htu, Htp. discriminate. }
  rewrite (get_user_info_cases _ _ _ _ Htu Htp).
  intros H. injection H as <- <-. split; [reflexivity|].
  destruct (filter _ (Database.rows tu)) as [|u us] eqn:F.
  - left. split; [reflexivity|]. cbn. intros r Hr E.
    assert (In r (filter (fun u => (Database.u_id u =? user_id)%Z)
                         (Database.rows tu))) as Hin
      by (apply filter_In; split; [assumption | now apply Z.eqb_eq]).
    rewrite F in Hin. contradiction.
  - right.
    assert (In u (filter (fun u => (Database.u_id u =? user_id)%Z)
                         (Database.rows tu))) as Hin by (rewrite F; now left).
    apply filter_In in Hin as [Hin Hid]. apply Z.eqb_eq in Hid.
    eexists _, u. cbn. repeat split; try assumption; reflexivity.
Qed.

Lemma get_user_info_reads_without_the_hash_witness :
  let d := snd (Auth.register_user [9; 8; 7]%N "2026-02-01" "alice" "secret1"
                  None (Database.init_database Database.empty_db)) in
  snd (Auth.get_user_info 5 d) = d.
Proof.
  intros d.
  apply (proj1 (get_user_info_reads_without_the_hash 5 d
                  (snd (Auth.get_user_info 5 d)) Py.VNone
                  ltac:(vm_compute; reflexivity))).
Defined.

(* ------------------------------------------------------------------ *)
(** ** The statement [update_user_preferences] builds *)

Section UpdateQueryFacts.
Import PyStr Py Auth.

Lemma count_append (c : ascii) (s t : str) :
  count c (s ++ t) = (count c s + count c t)%nat.
Proof.
  induction s as [|a s IH]; simpl; [reflexivity|].
  destruct (Ascii.eqb a c); simpl; now rewrite IH.
Qed.

Lemma allowed_key (k : string) :
  existsb (String.eqb k) preference_fields = true <-> In k preference_fields.
Proof.
  rewrite existsb_exists. split.
  - intros [x [Hx E]]. apply String.eqb_eq in E. now subst.
  - intros H. exists k. split; [exact H | apply String.eqb_refl].
Qed.

Lemma allowed_field_one_placeholder (k : string) :
  In k preference_fields -> count question_mark (k ++ " = ?") = 1%nat.
Proof.
  intros [<-|[<-|[<-|[<-|[]]]]]; reflexivity.
Qed.

Lemma collect_updates_spec (kwargs : list (string * value)) :
  collect_updates kwargs
  = (map (fun kv => fst kv ++ " = ?")
         (filter (fun kv => existsb (String.eqb (fst kv)) preference_fields)
                 kwargs),
     map snd
         (filter (fun kv => existsb (String.eqb (fst kv)) preference_fields)
                 kwargs)).
Proof.
  induction kwargs as [|[k v] kwargs IH]; [reflexivity|].
  cbn [collect_updates filter fst]. rewrite IH.
  destruct (existsb (String.eqb k) preference_fields); reflexivity.
Qed.

Lemma count_join (fields : list string) :
  Forall (fun f => count question_mark f = 1%nat) fields ->
  count question_mark (join ", " fields) = List.length fields.
Proof.
  induction fields as [|f [|g fields] IH]; intros H; [reflexivity | |].
  - inversion H; subst. simpl. assumption.
  - inversion H as [|? ? Hf Hrest]; subst.
    change (join ", " (f :: g :: fields))
      with (f ++ ", " ++ join ", " (g :: fields)).
    rewrite !count_append, Hf, (IH Hrest). reflexivity.
Qed.
Lemma count_update_query (fields : list string) :
  Forall (fun f => count question_mark f = 1%nat) fields ->
  count question_mark
    ("UPDATE user_preferences SET " ++ join ", " fields ++ " WHERE user_id = ?")
  = S (List.length fields).
Proof.
  intros H. rewrite !count_append, (count_join _ H). cbn. lia.
Qed.
End UpdateQueryFacts.

(** X8.  [update_user_preferences] lets only its four column names into
    the statement it builds.  It runs no statement exactly when no key of
    [kwargs] is one of currency, language, theme, notifications.
    Otherwise the statement sets, in the order of [kwargs], one
    [name = ?] per allowed key and nothing for any other key, its
    parameters are the values of the allowed keys followed by the user
    id, and it has as many [?] as parameters. *)
Theorem preferences_update_is_whitelisted
    (user_id : Z) (kwargs : list (string * Py.value)) :
  let allowed :=
    filter (fun kv => existsb (String.eqb (fst kv)) Auth.preference_fields)
           kwargs in
  (Auth.preferences_update user_id kwargs = None <->
     forall k v, In (k, v) kwargs -> ~ In k Auth.preference_fields) /\
  (forall (query : PyStr.str) (parameters : list Py.value),
     Auth.preferences_update user_id kwargs = Some (query, parameters) ->
     query = "UPDATE user_preferences SET "
             ++ Auth.join ", " (map (fun kv => fst kv ++ " = ?") allowed)
             ++ " WHERE user_id = ?" /\
     parameters = (map snd allowed ++ [Py.VInt user_id])%list /\
     (forall kv, In kv allowed ->
        In kv kwargs /\ In (fst kv) Auth.preference_fields) /\
     PyStr.count Auth.question_mark query = List.length parameters).
Proof.
  intros allowed. unfold Auth.preferences_update.
  rewrite collect_updates_spec. fold allowed.
  assert (forall kv, In kv allowed ->
            In kv kwargs /\ In (fst kv) Auth.preference_fields) as Hallowed.
  { intros kv Hkv. apply filter_In in Hkv as [Hin Hk].
    split; [exact Hin | now apply allowed_key]. }
  split.
  - split.
    + intros Hnone k v Hin Hk.
      assert (In (k, v) allowed) as Hkv
        by (apply filter_In; split; [exact Hin | now apply allowed_key]).
      destruct allowed; [contradiction | discriminate].
    + intros Hno. destruct allowed as [|[k v] rest] eqn:E; [reflexivity|].
      exfalso. destruct (Hallowed (k, v)) as [Hin Hk]; [now left|].
      exact (Hno k v Hin Hk).
  - intros query parameters H.
    destruct allowed as [|kv rest] eqn:E; [discriminate|].
    cbn [map] in H. injection H as <- <-.
    split; [reflexivity|]. split; [reflexivity|]. split; [exact Hallowed|].
    assert (Forall (fun f => PyStr.count Auth.question_mark f = 1%nat)
              (map (fun kv => fst kv ++ " = ?") (kv :: rest))) as HF.
    { apply Forall_forall. intros f Hf.
      apply in_map_iff in Hf as [kv' [<- Hkv']].
      apply allowed_field_one_placeholder, Hallowed, Hkv'. }
    refine (eq_trans (count_update_query _ HF) _).
    cbn [map List.length app].
    rewrite ?length_app, ?length_map. cbn [List.length]. lia.
Qed.

Lemma preferences_update_is_whitelisted_witness :
  Auth.preferences_update 3
    [("theme", Py.VStr "dark"); ("password_hash = 'x' --", Py.VStr "y");
     ("currency", Py.VStr "EUR")]
  = Some ("UPDATE user_preferences SET theme = ?, currency = ? WHERE user_id = ?",
          [Py.VStr "dark"; Py.VStr "EUR"; Py.VInt 3]) /\
  PyStr.count Auth.question_mark
    "UPDATE user_preferences SET theme = ?, currency = ? WHERE user_id = ?"
  = 3%nat.
Proof.
  split; [reflexivity|].
  apply (proj2 (preferences_update_is_whitelisted 3
           [("theme", Py.VStr "dark"); ("password_hash = 'x' --", Py.VStr "y");
            ("currency", Py.VStr "EUR")])
           "UPDATE user_preferences SET theme = ?, currency = ? WHERE user_id = ?"
           [Py.VStr "dark"; Py.VStr "EUR"; Py.VInt 3]).
  reflexivity.
Defined.

(* ------------------------------------------------------------------ *)
(** ** Histories of [init_database], [register_user] and [login_user] *)

Section HistoryFacts.
Import PyStr Py Database Auth Calls.

Lemma init_database_initialised d :
  opens d = true -> initialised (init_database d).
Proof.
  destruct d as [|u b e i p a]; [discriminate|]. intros _.
  unfold initialised, init_database. cbn.
  repeat split;
    match goal with
    | |- create_table_if_not_exists ?t <> None => destruct t; discriminate
    end.
Qed.

Lemma init_database_of_initialised d : initialised d -> init_database d = d.
Proof.
  destruct d as [|[?|] [?|] [?|] [?|] [?|] [?|]];
    unfold initialised; cbn; intros (? & ? & ? & ? & ? & ?);
    try reflexivity; congruence.
Qed.

Lemma init_database_unopenable d : opens d = false -> init_database d = d.
Proof. intros H. unfold init_database. now rewrite H. Qed.

Lemma init_database_opens d : opens (init_database d) = opens d.
Proof. destruct d; reflexivity. Qed.

Lemma init_database_keeps_rows d :
  table_rows (users (init_database d)) = table_rows (users d) /\
  table_rows (user_preferences (init_database d))
    = table_rows (user_preferences d).
Proof.
  destruct d as [|u b e i p a]; [split; reflexivity|].
  unfold init_database. cbn.
  destruct u, p; split; reflexivity.
Qed.

Lemma well_formed_opens d : well_formed d -> opens d = true.
Proof.
  intros [->|[(Hu & _) _]]; [reflexivity|].
  destruct d; [now contradiction Hu | reflexivity].
Qed.

Lemma init_well_formed d : well_formed d -> well_formed (init_database d).
Proof.
  intros Hd. right.
  split; [apply init_database_initialised, well_formed_opens, Hd|].
  destruct Hd as [->|[_ Hc]].
  - repeat split; cbn; try constructor; intros ? [].
  - unfold users_consistent in *.
    destruct (init_database_keeps_rows d) as [-> ->]. exact Hc.
Qed.

Lemma not_in_map_of_existsb {R} (f : R -> Z) (l : list R) (z : Z) :
  existsb (fun r => (f r =? z)%Z) l = false -> ~ In z (map f l).
Proof.
  intros H Hin. apply in_map_iff in Hin as [r [E Hr]].
  pose proof (existsb_false_all _ _ H r Hr) as F. cbn in F.
  apply Z.eqb_neq in F. contradiction.
Qed.

Lemma register_well_formed rb now u p email d :
  well_formed d -> well_formed (snd (register_user rb now u p email d)).
Proof.
  intros Hd.
  destruct (register_user rb now u p email d) as [[v|x] d'] eqn:Hrun.
  2:{ cbn. now rewrite (register_user_raised _ _ _ _ _ _ _ _ Hrun). }
  destruct (register_user_returned_structured _ _ _ _ _ _ _ _ Hrun)
    as [[|] [m [Hs _]]].
  2:{ cbn. now rewrite (register_user_failed _ _ _ _ _ _ _ _ Hrun Hs). }
  cbn [snd].
  destruct (register_user_succeeded _ _ _ _ _ _ _ _ Hrun Hs)
    as (tu & tp & _ & _ & Htu & Htp & Hfree & Hnone & _ & ->).
  destruct Hd as [->|[Hi Hc]]; [discriminate|].
  right. split.
  - unfold initialised in *. cbn. destruct Hi as (_ & ? & ? & ? & _ & ?).
    repeat split; (assumption || discriminate).
  - unfold users_consistent in *. rewrite Htu, Htp in Hc.
    cbn in Hc |- *. destruct Hc as (Hn & Hk & Hp & Hup & Hpu).
    rewrite !map_app. cbn.
    repeat split.
    + apply NoDup_snoc; [exact Hn|].
      intros Hin. apply in_map_iff in Hin as [r [E Hr]].
      pose proof (existsb_false_all _ _ Hfree r Hr) as F. cbn in F.
      apply String.eqb_neq in F. contradiction.
    + apply NoDup_snoc; [exact Hk|].
      intros Hin. apply in_map_iff in Hin as [r [E Hr]].
      pose proof (next_rowid_fresh u_id tu r Hr). lia.
    + apply NoDup_snoc; [exact Hp|]. now apply not_in_map_of_existsb.
    + intros r Hr. apply in_or_app.
      apply in_app_or in Hr as [Hr|[<-|[]]]; [left; now apply Hup | right; now left].
    + intros r Hr. apply in_or_app.
      apply in_app_or in Hr as [Hr|[<-|[]]]; [left; now apply Hpu | right; now left].
Qed.

Lemma login_well_formed now u p d :
  well_formed d -> well_formed (snd (login_user now u p d)).
Proof.
  intros Hd.
  destruct (login_user_structured now u p d (well_formed_opens d Hd))
    as (v & d' & Hrun & _).
  rewrite Hrun. cbn [snd].
  destruct (login_user_outcome _ _ _ _ _ _ Hrun)
    as [[_ ->]|(t & user & Ht & _ & _ & _ & _ & ->)]; [exact Hd|].
  destruct Hd as [->|[Hi Hc]]; [discriminate|].
  right. split.
  - unfold initialised in *. cbn. destruct Hi as (_ & ? & ? & ? & ? & ?).
    repeat split; (assumption || discriminate).
  - unfold users_consistent in *. rewrite Ht in Hc. cbn in Hc |- *.
    set (upd := fun r : user_row => if (u_id r =? u_id user)%Z
                  then UserRow (u_id r) (u_username r) (u_password_hash r)
                         (u_email r) (u_created_at r) (Some now)
                  else r) in *.
    assert (forall r, u_username (upd r) = u_username r /\ u_id (upd r) = u_id r)
      as Hupd by (intros r; unfold upd; destruct (u_id r =? u_id user)%Z; split; reflexivity).
    assert (map u_username (map upd (rows t)) = map u_username (rows t)) as En
      by (rewrite map_map; apply map_ext; intros r; apply Hupd).
    assert (map u_id (map upd (rows t)) = map u_id (rows t)) as Ek
      by (rewrite map_map; apply map_ext; intros r; apply Hupd).
    rewrite En, Ek. destruct Hc as (Hn & Hk & Hp & Hup & Hpu).
    repeat split; try assumption.
    intros r Hr. apply in_map_iff in Hr as [r0 [<- Hr0]].
    rewrite (proj2 (Hupd r0)). now apply Hup.
Qed.

Lemma perform_well_formed d c : well_formed d -> well_formed (perform d c).
Proof.
  destruct c; cbn.
  - apply init_well_formed.
  - apply register_well_formed.
  - apply login_well_formed.
Qed.

Lemma perform_all_well_formed history :
  forall d, well_formed d -> well_formed (perform_all d history).
Proof.
  unfold perform_all.
  induction history as [|c history IH]; cbn; intros d Hd; [exact Hd|].
  apply IH, perform_well_formed, Hd.
Qed.

Lemma history_well_formed history : well_formed (perform_all empty_db history).
Proof. apply perform_all_well_formed. now left. Qed.

Lemma well_formed_with_users d :
  well_formed d -> users d <> None -> initialised d /\ users_consistent d.
Proof. intros [->|H] Hu; [now contradiction Hu | exact H]. Qed.
End HistoryFacts.

(** X9.  After every history of [init_database], [register_user] and
    [login_user] calls on the empty file, user names are not repeated,
    user ids are not repeated, and every user has exactly one row of
    [user_preferences]. *)
Theorem users_keep_unique_names_and_their_preferences
    (history : list Calls.call) (u : Database.user_row) :
  let d := Calls.perform_all Database.empty_db history in
  NoDup (map Database.u_username (Database.table_rows (Database.users d))) /\
  NoDup (map Database.u_id (Database.table_rows (Database.users d))) /\
  (In u (Database.table_rows (Database.users d)) ->
   exists p : Database.preference_row,
     filter (fun p => (Database.p_user_id p =? Database.u_id u)%Z)
            (Database.table_rows (Database.user_preferences d)) = [p]).
Proof.
  intros d.
  pose proof (history_well_formed history) as W. fold d in W.
  destruct W as [E|[_ Hc]].
  - rewrite E. cbn. repeat split; try constructor. intros [].
  - destruct Hc as (Hn & Hk & Hp & Hup & _).
    repeat split; try assumption.
    intros Hu. specialize (Hup u Hu).
    apply in_map_iff in Hup as [p [E Hin]].
    exists p. rewrite <- E. now apply select_only_row.
Qed.

Lemma users_keep_unique_names_and_their_preferences_witness :
  let history :=
    [Calls.Init;
     Calls.Register [1; 2]%N "2026-02-01" "alice" "secret1" None;
     Calls.Register [3; 4]%N "2026-02-02" "alice" "another1" None;
     Calls.Register [5; 6]%N "2026-02-03" "bob" "hunter22" None;
     Calls.Login "2026-02-04" "bob" "hunter22"] in
  exists p : Database.preference_row,
    filter (fun p => (Database.p_user_id p =? 2)%Z)
           (Database.table_rows
              (Database.user_preferences
                 (Calls.perform_all Database.empty_db history))) = [p].
Proof.
  intros history.
  destruct (users_keep_unique_names_and_their_preferences history
              (Database.UserRow 2 "bob"
                 (Auth.token_hex [5; 6]%N ++ ":"
                    ++ Sha256.hexdigest ("hunter22" ++ Auth.token_hex [5; 6]%N))
                 None (Some "2026-02-03") (Some "2026-02-04")))
    as (_ & _ & H).
  apply H. vm_compute. right. left. reflexivity.
Defined.

(** X10.  On a database reached by such a history, every user that
    exists makes [create_full_backup] and [export_backup_json] raise
    [TypeError]: each user has its row in [user_preferences], the
    condition of the conditional expression takes it, and [dict(None)]
    follows.  No registered user gets a backup. *)
Theorem no_registered_user_gets_a_backup
    (history : list Calls.call)
    (get_expenses get_income : Z -> Py.M Database.db (list Py.value))
    (now_isoformat : PyStr.str) (json_dumps : Py.value -> PyStr.str)
    (u : Database.user_row) (e i : list Py.value) :
  let d := Calls.perform_all Database.empty_db history in
  In u (Database.table_rows (Database.users d)) ->
  get_expenses (Database.u_id u) d = (Py.Return e, d) ->
  get_income (Database.u_id u) d = (Py.Return i, d) ->
  DataExport.create_full_backup get_expenses get_income now_isoformat
    (Database.u_id u) d
    = (Py.Raise (Py.Exn Py.TypeError "'NoneType' object is not iterable"), d) /\
  DataExport.export_backup_json get_expenses get_income now_isoformat json_dumps
    (Database.u_id u) d
    = (Py.Raise (Py.Exn Py.TypeError "'NoneType' object is not iterable"), d).
Proof.
  intros d Hu He Hi.
  assert (Database.users d <> None) as Hsome
    by (destruct (Database.users d); [discriminate | contradiction]).
  destruct (well_formed_with_users d (history_well_formed history) Hsome)
    as [Hinit (_ & _ & Hp & Hup & _)].
  destruct Hinit as (_ & Hb & _ & _ & Hpt & _).
  destruct (Database.budget_plans d) as [tb|] eqn:Etb; [|now contradiction Hb].
  destruct (Database.user_preferences d) as [tp|] eqn:Etp; [|now contradiction Hpt].
  cbn in Hp, Hup.
  specialize (Hup u Hu). apply in_map_iff in Hup as [p [E Hin]].
  assert (DataExport.create_full_backup get_expenses get_income now_isoformat
            (Database.u_id u) d
          = (Py.Raise (Py.Exn Py.TypeError "'NoneType' object is not iterable"), d))
    as R.
  { rewrite (create_full_backup_cases _ _ _ _ _ e i tb tp He Hi Etb Etp).
    rewrite <- E. now rewrite (select_only_row _ _ Hp Hin). }
  split; [exact R|].
  unfold DataExport.export_backup_json, Py.bind. now rewrite R.
Qed.

Lemma no_registered_user_gets_a_backup_witness :
  let history :=
    [Calls.Init;
     Calls.Register [1; 2]%N "2026-02-01" "alice" "secret1" None;
     Calls.Login "2026-02-04" "alice" "secret1"] in
  let d := Calls.perform_all Database.empty_db history in
  fst (DataExport.create_full_backup (fun _ => Py.ret []) (fun _ => Py.ret [])
         "2026-02-05T08:00:00" 1 d)
  = Py.Raise (Py.Exn Py.TypeError "'NoneType' object is not iterable").
Proof.
  intros history d.
  destruct (no_registered_user_gets_a_backup history
              (fun _ => Py.ret []) (fun _ => Py.ret [])
              "2026-02-05T08:00:00" (fun _ => "{}")
              (Database.UserRow 1 "alice"
                 (Auth.token_hex [1; 2]%N ++ ":"
                    ++ Sha256.hexdigest ("secret1" ++ Auth.token_hex [1; 2]%N))
                 None (Some "2026-02-01") (Some "2026-02-04")) [] [])
    as [H _].
  - vm_compute. left. reflexivity.
  - reflexivity.
  - reflexivity.
  - cbn [Database.u_id] in H. fold history d in H. now rewrite H.
Defined.

(** X11.  On an initialised database reached by such a history,
    [register_user] succeeds whenever the user name has at least 3
    characters, the password at least 6, no user has the name, and the
    texts encode as UTF-8 (the password for hashing, the name and the
    e-mail address as parameters of the insert): for such texts the only
    refusals are the two length checks and a name already taken. *)
Theorem register_user_succeeds_when_the_name_is_free
    (history : list Calls.call) (random_bytes : list N)
    (now : Database.timestamp) (username password : PyStr.str)
    (email : option PyStr.str) :
  let d := Calls.perform_all Database.empty_db history in
  Database.users d <> None ->
  (3 <= PyStr.len username)%nat ->
  (6 <= PyStr.len password)%nat ->
  (forall r, In r (Database.table_rows (Database.users d)) ->
             Database.u_username r <> username) ->
  Utf8.encodable username = true ->
  Utf8.encodable password = true ->
  (forall e, email = Some e -> Utf8.encodable e = true) ->
  exists id : Z,
    fst (Auth.register_user random_bytes now username password email d)
    = Py.Return (Py.VDict [("success", Py.VBool true);
                           ("message", Py.VStr "Account created successfully!");
                           ("user_id", Py.VInt id)]).
Proof.
  intros d Hsome Hu Hp Hfree Hname Hpass Hemail.
  destruct (well_formed_with_users d (history_well_formed history) Hsome)
    as [Hinit (_ & _ & _ & _ & Hpu)].
  destruct Hinit as (_ & _ & _ & _ & Hpt & _).
  destruct (Database.users d) as [tu|] eqn:Etu; [|now contradiction Hsome].
  destruct (Database.user_preferences d) as [tp|] eqn:Etp; [|now contradiction Hpt].
  cbn in Hfree, Hpu.
  exists (Database.next_rowid Database.u_id tu).
  rewrite register_user_validated
    by (try assumption; exact (users_opens _ _ Etu)).
  cbv zeta.
  unfold Database.insert_user.
  rewrite Etu, (insert_user_bound _ _ _ Hname (stored_hash_isascii _ _) Hemail).
  replace (existsb _ (Database.rows tu)) with false.
  2:{ symmetry. apply not_true_is_false. intros T.
      apply existsb_exists in T as [r [Hr E]]. apply String.eqb_eq in E.
      exact (Hfree r Hr E). }
  unfold Database.insert_preferences.
  cbn [Database.user_preferences Database.set_users]. rewrite Etp.
  replace (existsb _ (Database.rows tp)) with false; [reflexivity|].
  symmetry. apply not_true_is_false. intros T.
  apply existsb_exists in T as [r [Hr E]]. apply Z.eqb_eq in E.
  specialize (Hpu r Hr). apply in_map_iff in Hpu as [x [Ex Hx]].
  pose proof (next_rowid_fresh Database.u_id tu x Hx). lia.
Qed.

Lemma register_user_succeeds_when_the_name_is_free_witness :
  let history :=
    [Calls.Init;
     Calls.Register [1; 2]%N "2026-02-01" "alice" "secret1" None] in
  exists id : Z,
    fst (Auth.register_user [3; 4]%N "2026-02-02" "bob" "hunter22" None
           (Calls.perform_all Database.empty_db history))
    = Py.Return (Py.VDict [("success", Py.VBool true);
                           ("message", Py.VStr "Account created successfully!");
                           ("user_id", Py.VInt id)]).
Proof.
  intros history.
  apply (register_user_succeeds_when_the_name_is_free history).
  - vm_compute. discriminate.
  - vm_compute. lia.
  - vm_compute. lia.
  - vm_compute. intros r [<-|[]]. discriminate.
  - reflexivity.
  - reflexivity.
  - discriminate.
Defined.

(* ------------------------------------------------------------------ *)
(** ** [init_database] on every start *)

(** X12.  [init_database] can run on every start of the application:
    on a file that opens, all six tables exist afterwards; a table that
    existed is left with its rows and its key counter; a database that
    already has the six tables is not changed at all; running it twice
    is the same as running it once; and on a file that does not open
    nothing is created. *)
Theorem init_database_creates_and_keeps (d : Database.db) :
  (Database.opens d = true -> Calls.initialised (Database.init_database d)) /\
  (forall t, Database.users d = Some t ->
             Database.users (Database.init_database d) = Some t) /\
  (forall t, Database.budget_plans d = Some t ->
             Database.budget_plans (Database.init_database d) = Some t) /\
  (forall t, Database.expenses d = Some t ->
             Database.expenses (Database.init_database d) = Some t) /\
  (forall t, Database.income d = Some t ->
             Database.income (Database.init_database d) = Some t) /\
  (forall t, Database.user_preferences d = Some t ->
             Database.user_preferences (Database.init_database d) = Some t) /\
  (forall t, Database.ai_predictions d = Some t ->
             Database.ai_predictions (Database.init_database d) = Some t) /\
  (Calls.initialised d -> Database.init_database d = d) /\
  Database.init_database (Database.init_database d) = Database.init_database d /\
  (Database.opens d = false -> Database.init_database d = d).
Proof.
  split; [apply init_database_initialised|].
  repeat split;
    try (intros t Ht; destruct d; [discriminate|];
         unfold Database.init_database; cbn in *; now rewrite Ht).
  - apply init_database_of_initialised.
  - destruct (Database.opens d) eqn:Ho.
    + apply init_database_of_initialised, init_database_initialised, Ho.
    + rewrite (init_database_unopenable d Ho).
      apply (init_database_unopenable d Ho).
  - apply init_database_unopenable.
Qed.

Lemma init_database_creates_and_keeps_witness :
  let d := snd (Auth.register_user [1; 2]%N "2026-02-01" "alice" "secret1" None
                  (Database.init_database Database.empty_db)) in
  Database.init_database d = d.
Proof.
  intros d.
  apply (proj1 (proj2 (proj2 (proj2 (proj2 (proj2 (proj2 (proj2
           (init_database_creates_and_keeps d))))))))).
  vm_compute. repeat split; discriminate.
Defined.

(* ------------------------------------------------------------------ *)
(** ** The backups that are returned *)

Section ReturnedBackups.
Import PyStr Py Database DataExport.

Lemma at_most_one_row_per_key {R} (f : R -> Z) (l : list R) (k : Z) :
  NoDup (map f l) ->
  (List.length (filter (fun r => (f r =? k)%Z) l) <= 1)%nat.
Proof.
  induction l as [|a l IH]; cbn; intros H; [lia|].
  inversion H as [|? ? Hfresh Hrest]; subst.
  destruct (Z.eqb_spec (f a) k) as [E|E]; [|now apply IH].
  rewrite filter_fresh_key; [cbn; lia|].
  intros r Hr Er. apply Hfresh. rewrite E, <- Er. now apply in_map.
Qed.

(** The order of the index is total. *)
Lemma and_then_by_opp (c1 c2 : comparison) :
  CompOpp (and_then_by c1 c2) = and_then_by (CompOpp c1) (CompOpp c2).
Proof. destruct c1; reflexivity. Qed.

Lemma index_compare_antisym (r1 r2 : budget_plan_row) :
  index_compare r2 r1 = CompOpp (index_compare r1 r2).
Proof.
  unfold index_compare. rewrite !and_then_by_opp.
  now rewrite <- !String.compare_antisym, <- !Z.compare_antisym.
Qed.

Lemma index_leb_total (r1 r2 : budget_plan_row) :
  index_leb r1 r2 = false -> index_leb r2 r1 = true.
Proof.
  unfold index_leb. rewrite (index_compare_antisym r1 r2).
  destruct (index_compare r1 r2); (discriminate || reflexivity).
Qed.

Lemma index_insert_permutation (r : budget_plan_row) (l : list budget_plan_row) :
  Permutation (index_insert r l) (r :: l).
Proof.
  induction l as [|x l IH]; cbn; [reflexivity|].
  destruct (index_leb r x); [reflexivity|].
  rewrite IH. apply perm_swap.
Qed.

Lemma index_order_permutation (l : list budget_plan_row) :
  Permutation (index_order l) l.
Proof.
  induction l as [|r l IH]; cbn; [reflexivity|].
  rewrite index_insert_permutation. now constructor.
Qed.

Lemma index_insert_sorted (r : budget_plan_row) (l : list budget_plan_row) :
  Sorted (fun a b => index_leb a b = true) l ->
  Sorted (fun a b => index_leb a b = true) (index_insert r l).
Proof.
  induction l as [|x l IH]; cbn; intros H; [repeat constructor|].
  destruct (index_leb r x) eqn:E.
  { constructor; [exact H | constructor; exact E]. }
  inversion H as [|? ? Hl Hx]; subst.
  constructor; [now apply IH|].
  destruct l as [|y l]; cbn.
  - constructor. now apply index_leb_total.
  - destruct (index_leb r y); constructor;
      [now apply index_leb_total | now inversion Hx].
Qed.

Lemma index_order_sorted (l : list budget_plan_row) :
  Sorted (fun a b => index_leb a b = true) (index_order l).
Proof.
  induction l as [|r l IH]; cbn; [constructor | now apply index_insert_sorted].
Qed.
End ReturnedBackups.

(** X13.  What a backup holds when one is returned.  With the ledger
    reads returning and [user_preferences] honouring [UNIQUE(user_id)],
    [create_full_backup] never changes the database; and if it returns,
    the user has no row in [user_preferences], the dict carries the
    user id, the records of the two reads, and empty [preferences]; its
    [budgets] are the rows of [budget_plans] of that user and of no
    other user, each once, in the order of the index of the [UNIQUE]
    constraint (by category, subcategory, month, year), which is not
    the order in which they were inserted. *)
Theorem returned_backup_holds_own_budgets_and_no_preferences
    (get_expenses get_income : Z -> Py.M Database.db (list Py.value))
    (now_isoformat : PyStr.str) (user_id : Z) (d d' : Database.db)
    (e i : list Py.value)
    (tb : Database.table Database.budget_plan_row)
    (tp : Database.table Database.preference_row)
    (o : Py.outcome Py.value) :
  get_expenses user_id d = (Py.Return e, d) ->
  get_income user_id d = (Py.Return i, d) ->
  Database.budget_plans d = Some tb ->
  Database.user_preferences d = Some tp ->
  NoDup (map Database.p_user_id (Database.rows tp)) ->
  DataExport.create_full_backup get_expenses get_income now_isoformat user_id d
    = (o, d') ->
  d' = d /\
  forall v, o = Py.Return v ->
    (forall p, In p (Database.rows tp) -> Database.p_user_id p <> user_id) /\
    v = Py.VDict
          [("backup_date", Py.VStr now_isoformat);
           ("version", Py.VStr "1.0");
           ("user_id", Py.VInt user_id);
           ("expenses", Py.VList (DataExport.records e));
           ("income", Py.VList (DataExport.records i));
           ("budgets",
             Py.VList
               (map DataExport.dict_of_budget_plan
                  (Database.index_order
                     (filter (fun r => (Database.b_user_id r =? user_id)%Z)
                             (Database.rows tb)))));
           ("preferences", Py.VDict [])] /\
    Permutation
      (Database.index_order
         (filter (fun r => (Database.b_user_id r =? user_id)%Z)
                 (Database.rows tb)))
      (filter (fun r => (Database.b_user_id r =? user_id)%Z)
              (Database.rows tb)) /\
    Sorted (fun r1 r2 => Database.index_leb r1 r2 = true)
      (Database.index_order
         (filter (fun r => (Database.b_user_id r =? user_id)%Z)
                 (Database.rows tb))).
Proof.
  intros He Hi Hb Hp Hnd.
  rewrite (create_full_backup_cases _ _ _ _ _ e i tb tp He Hi Hb Hp).
  pose proof (at_most_one_row_per_key Database.p_user_id (Database.rows tp)
                user_id Hnd) as Hle.
  destruct (filter _ (Database.rows tp)) as [|p [|q rest]] eqn:F.
  - intros H. injection H as <- <-. split; [reflexivity|].
    intros v Hv. injection Hv as <-.
    split; [|split; [reflexivity|split;
               [apply index_order_permutation | apply index_order_sorted]]].
    intros p Hin E.
    assert (In p (filter (fun r => (Database.p_user_id r =? user_id)%Z)
                         (Database.rows tp))) as Hf
      by (apply filter_In; split; [assumption | now apply Z.eqb_eq]).
    rewrite F in Hf. contradiction.
  - intros H. injection H as <- <-. split; [reflexivity|]. discriminate.
  - cbn in Hle. lia.
Qed.

Lemma returned_backup_holds_own_budgets_and_no_preferences_witness :
  let d :=
    Session.run_all (Database.init_database Database.empty_db)
      [Session.InsertBudgetPlan 7 "Pets" "Pet Food" 50 2 2026 "t0";
       Session.InsertBudgetPlan 8 "Pets" "Pet Food" 50 2 2026 "t1";
       Session.InsertBudgetPlan 7 "Food" "Groceries" 400 2 2026 "t2"] in
  let pets := Database.BudgetPlanRow 1 7 "Pets" "Pet Food" 50 2 2026 (Some "t0") in
  let other := Database.BudgetPlanRow 2 8 "Pets" "Pet Food" 50 2 2026 (Some "t1") in
  let food := Database.BudgetPlanRow 3 7 "Food" "Groceries" 400 2 2026 (Some "t2") in
  snd (DataExport.create_full_backup (fun _ => Py.ret []) (fun _ => Py.ret [])
         "2026-02-05T08:00:00" 7 d) = d /\
  Permutation [food; pets] [pets; food].
Proof.
  intros d pets other food.
  destruct (returned_backup_holds_own_budgets_and_no_preferences
              (fun _ => Py.ret []) (fun _ => Py.ret []) "2026-02-05T08:00:00" 7 d
              (snd (DataExport.create_full_backup (fun _ => Py.ret [])
                      (fun _ => Py.ret []) "2026-02-05T08:00:00" 7 d))
              [] []
              (Database.Table [pets; other; food] 3)
              Database.empty_table
              (fst (DataExport.create_full_backup (fun _ => Py.ret [])
                      (fun _ => Py.ret []) "2026-02-05T08:00:00" 7 d))
              eq_refl eq_refl
              ltac:(vm_compute; reflexivity) ltac:(vm_compute; reflexivity)
              ltac:(constructor) ltac:(vm_compute; reflexivity))
    as [Hd Hv].
  split; [exact Hd|].
  destruct (Hv _ ltac:(vm_compute; reflexivity)) as (_ & _ & Hperm & _).
  exact Hperm.
Defined.

(* ------------------------------------------------------------------ *)
(** ** Restoring: formats, edge inputs, partial runs *)

Section RestoreRuns.
Import PyStr Py Database DataExport.
Variable json_loads : str -> outcome value.
Variable parse_float : str -> option Q.
Variable parse_int : str -> option Z.
Variable fromisoformat : str -> option date.
Variable add_expense :
  Z -> value -> value -> Q -> date -> value -> value -> M db value.
Variable add_income : Z -> value -> Q -> date -> value -> M db value.
Variable set_budget : Z -> value -> value -> Q -> Z -> Z -> M db value.

Lemma for_each_app {S A B} (l1 l2 : list A) (acc : B) (body : B -> A -> M S B)
    (s : S) :
  for_each (l1 ++ l2)%list acc body s
  = bind (for_each l1 acc body) (fun acc' => for_each l2 acc' body) s.
Proof.
  revert acc s. induction l1 as [|x l1 IH]; intros acc s; [reflexivity|].
  cbn [for_each app]. unfold bind. cbv beta.
  destruct (body acc x s) as [[acc'|e] s1]; [|reflexivity].
  rewrite IH. reflexivity.
Qed.

Lemma restore_expense_without_category uid restored (bad : list (string * value)) d :
  PyDict.get bad "category" = None ->
  restore_expense parse_float fromisoformat add_expense uid restored (VDict bad) d
  = (Raise (Exn KeyError "'category'"), d).
Proof.
  intros H. unfold restore_expense. rewrite bind_lift.
  cbn [getitem]. now rewrite H.
Qed.

(** What one record does to the counters. *)
Lemma restore_expense_counts uid restored exp d restored' d' :
  restore_expense parse_float fromisoformat add_expense uid restored exp d
    = (Return restored', d') ->
  n_income restored' = n_income restored /\
  n_budgets restored' = n_budgets restored /\
  (n_expenses restored <= n_expenses restored' <= S (n_expenses restored))%nat.
Proof.
  unfold restore_expense. intros H.
  repeat (apply bind_returns in H as (? & ? & _ & H)).
  destruct (truthy _); injection H as <- _; cbn; lia.
Qed.

Lemma restore_income_counts uid restored inc d restored' d' :
  restore_income parse_float fromisoformat add_income uid restored inc d
    = (Return restored', d') ->
  n_expenses restored' = n_expenses restored /\
  n_budgets restored' = n_budgets restored /\
  (n_income restored <= n_income restored' <= S (n_income restored))%nat.
Proof.
  unfold restore_income. intros H.
  repeat (apply bind_returns in H as (? & ? & _ & H)).
  destruct (truthy _); injection H as <- _; cbn; lia.
Qed.

Lemma restore_budget_counts uid restored budget d restored' d' :
  restore_budget parse_float parse_int set_budget uid restored budget d
    = (Return restored', d') ->
  n_expenses restored' = n_expenses restored /\
  n_income restored' = n_income restored /\
  (n_budgets restored <= n_budgets restored' <= S (n_budgets restored))%nat.
Proof.
  unfold restore_budget. intros H.
  repeat (apply bind_returns in H as (? & ? & _ & H)).
  destruct (truthy _); injection H as <- _; cbn; lia.
Qed.

(** A loop whose body adds at most one to a measure adds at most the
    number of items. *)
Lemma for_each_bounded {St A B} (measure : B -> nat) (body : B -> A -> M St B) :
  (forall acc x s acc' s', body acc x s = (Return acc', s') ->
     (measure acc <= measure acc' <= S (measure acc))%nat) ->
  forall items acc s acc' s',
    for_each items acc body s = (Return acc', s') ->
    (measure acc <= measure acc' <= measure acc + List.length items)%nat.
Proof.
  intros Hbody. induction items as [|x items IH]; cbn; intros acc s acc' s' H.
  - injection H as <- _. lia.
  - apply bind_returns in H as (a1 & s1 & H1 & H2).
    specialize (Hbody _ _ _ _ _ H1). specialize (IH _ _ _ _ H2). lia.
Qed.

(** A loop whose body keeps a measure keeps it. *)
Lemma for_each_keeps {St A B} (measure : B -> nat) (body : B -> A -> M St B) :
  (forall acc x s acc' s', body acc x s = (Return acc', s') ->
     measure acc' = measure acc) ->
  forall items acc s acc' s',
    for_each items acc body s = (Return acc', s') ->
    measure acc' = measure acc.
Proof.
  intros Hbody. induction items as [|x items IH]; cbn; intros acc s acc' s' H.
  - now injection H as <- _.
  - apply bind_returns in H as (a1 & s1 & H1 & H2).
    rewrite (IH _ _ _ _ H2). eapply Hbody, H1.
Qed.
End RestoreRuns.

Section RestoreTheorems.
Import PyStr Py Database DataExport.

Lemma bind_of_return {S A B} (m : M S A) (k : A -> M S B) s a s1 :
  m s = (Return a, s1) -> bind m k s = k a s1.
Proof. intros H. unfold bind. now rewrite H. Qed.

Lemma bind_of_raise {S A B} (m : M S A) (k : A -> M S B) s e s1 :
  m s = (Raise e, s1) -> bind m k s = (Raise e, s1).
Proof. intros H. unfold bind. now rewrite H. Qed.

Lemma bind_congruence {S A B} (m1 m2 : M S A) (k1 k2 : A -> M S B) s :
  m1 s = m2 s -> (forall a s', k1 a s' = k2 a s') ->
  bind m1 k1 s = bind m2 k2 s.
Proof.
  intros Hm Hk. unfold bind. rewrite Hm.
  destruct (m2 s) as [[a|e] s1]; [apply Hk | reflexivity].
Qed.

Lemma items_of_key (backup : list (string * value)) (k : string) (items : list value) :
  PyDict.get backup k = Some (VList items) ->
  and_then (get_method (VDict backup) k (VList [])) iterate = Return items.
Proof.
  intros H. cbn [get_method and_then]. unfold PyDict.get_default.
  now rewrite H.
Qed.
End RestoreTheorems.

(** X14.  The budget entries of a backup are in the format
    [restore_from_backup] reads: looping over the dicts
    [create_full_backup] builds from rows of [budget_plans] raises no
    [KeyError], [TypeError] or [ValueError] of its own and consults no
    text parser; it calls [set_budget] once per row, in order, with the
    row's category, subcategory, planned amount, month and year, and
    counts by the answers. *)
Theorem backed_up_budgets_are_read_back
    (parse_float : PyStr.str -> option Q) (parse_int : PyStr.str -> option Z)
    (set_budget : Z -> Py.value -> Py.value -> Q -> Z -> Z
                  -> Py.M Database.db Py.value)
    (user_id : Z) (rows : list Database.budget_plan_row)
    (restored : DataExport.counters) (d : Database.db) :
  Py.for_each (map DataExport.dict_of_budget_plan rows) restored
    (DataExport.restore_budget parse_float parse_int set_budget user_id) d
  = Py.for_each rows restored
      (fun acc r =>
         Py.bind
           (set_budget user_id
              (Py.VStr (Database.b_category r))
              (Py.VStr (Database.b_subcategory r))
              (Database.b_planned_amount r)
              (Database.b_month r) (Database.b_year r))
           (fun result =>
              Py.bind (Py.lift (Py.getitem result "success"))
                (fun success =>
                   if Py.truthy success
                   then Py.ret (DataExport.Counters
                                  (DataExport.n_expenses acc)
                                  (DataExport.n_income acc)
                                  (S (DataExport.n_budgets acc)))
                   else Py.ret acc))) d.
Proof.
  revert restored d. induction rows as [|r rows IH]; intros restored d;
    [reflexivity|].
  cbn [map Py.for_each].
  apply bind_congruence; [reflexivity|].
  intros acc' d1. apply IH.
Qed.

(** X15.  [restore_from_backup] is not all-or-nothing.  When the
    expense list holds a record without the key [category], the records
    before it are restored as the ledger left them, nothing after it is
    looked at (no later expense, no income, no budget), and the answer
    is [success = False] with the message
    [Error restoring backup: 'category']. *)
Theorem restore_stops_at_a_record_without_category
    (json_loads : PyStr.str -> Py.outcome Py.value)
    (parse_float : PyStr.str -> option Q) (parse_int : PyStr.str -> option Z)
    (fromisoformat : PyStr.str -> option Database.date)
    (add_expense : Z -> Py.value -> Py.value -> Q -> Database.date
                   -> Py.value -> Py.value -> Py.M Database.db Py.value)
    (add_income : Z -> Py.value -> Q -> Database.date -> Py.value
                  -> Py.M Database.db Py.value)
    (set_budget : Z -> Py.value -> Py.value -> Q -> Z -> Z
                  -> Py.M Database.db Py.value)
    (user_id : Z) (backup_json : PyStr.str)
    (backup bad : list (string * Py.value)) (good rest : list Py.value)
    (restored : DataExport.counters) (d d1 : Database.db) :
  json_loads backup_json = Py.Return (Py.VDict backup) ->
  PyDict.get backup "expenses"
    = Some (Py.VList (good ++ Py.VDict bad :: rest)%list) ->
  PyDict.get bad "category" = None ->
  Py.for_each good (DataExport.Counters 0 0 0)
    (DataExport.restore_expense parse_float fromisoformat add_expense user_id) d
    = (Py.Return restored, d1) ->
  DataExport.restore_from_backup json_loads parse_float parse_int fromisoformat
    add_expense add_income set_budget user_id backup_json d
  = (Py.Return
       (Py.VDict [("success", Py.VBool false);
                  ("message", Py.VStr "Error restoring backup: 'category'")]),
     d1).
Proof.
  intros Hjson Hget Hbad Hgood.
  assert (DataExport.restore_body json_loads parse_float parse_int fromisoformat
            add_expense add_income set_budget user_id backup_json d
          = (Py.Raise (Py.Exn Py.KeyError "'category'"), d1)) as E.
  { unfold DataExport.restore_body.
    rewrite bind_lift, Hjson. rewrite bind_lift, (items_of_key _ _ _ Hget).
    apply bind_of_raise. rewrite for_each_app.
    rewrite (bind_of_return _ _ _ _ _ Hgood).
    cbn [Py.for_each]. apply bind_of_raise.
    now apply restore_expense_without_category. }
  unfold DataExport.restore_from_backup, Py.try_except. now rewrite E.
Qed.

Lemma restore_stops_at_a_record_without_category_witness :
  let first :=
    Py.VDict [("category", Py.VStr "Food"); ("subcategory", Py.VStr "Groceries");
              ("amount", Py.VInt 100); ("expense_date", Py.VStr "2026-02-01")] in
  let backup :=
    [("expenses",
       Py.VList [first; Py.VDict [("amount", Py.VInt 5)]; first])] in
  let run :=
    DataExport.restore_from_backup (fun _ => Py.Return (Py.VDict backup))
      (fun _ => None) (fun _ => None) (fun _ => Some (Database.Date 2026 2 1))
      (Models.add_expense "2026-03-01") (Models.add_income "2026-03-01")
      (Models.set_budget "2026-03-01") 1 "backup.json"
      (Database.init_database Database.empty_db) in
  fst run
  = Py.Return
      (Py.VDict [("success", Py.VBool false);
                 ("message", Py.VStr "Error restoring backup: 'category'")]) /\
  List.length (Database.table_rows (Database.expenses (snd run))) = 1%nat.
Proof.
  intros first backup run.
  pose proof (restore_stops_at_a_record_without_category
    (fun _ => Py.Return (Py.VDict backup))
    (fun _ => None) (fun _ => None) (fun _ => Some (Database.Date 2026 2 1))
    (Models.add_expense "2026-03-01") (Models.add_income "2026-03-01")
    (Models.set_budget "2026-03-01") 1 "backup.json"
    backup [("amount", Py.VInt 5)] [first] [first]
    (DataExport.Counters 1 0 0)
    (Database.init_database Database.empty_db)
    (snd (Models.add_expense "2026-03-01" 1 (Py.VStr "Food")
            (Py.VStr "Groceries") 100 (Database.Date 2026 2 1)
            (Py.VStr "") (Py.VStr "")
            (Database.init_database Database.empty_db)))
    eq_refl eq_refl eq_refl ltac:(vm_compute; reflexivity)) as H.
  fold run in H. rewrite H. split; reflexivity.
Defined.

(** X16.  Backups that hold nothing to restore.  A text the decoder
    refuses, and a text that decodes to anything but an object, are
    answered with [success = False] and the error text, the ledger
    functions are not called and the database is unchanged.  An object
    in which each of [expenses], [income] and [budgets] is missing or an
    empty list is answered with [success = True], the message
    [Restored 0 expenses, 0 income entries, 0 budgets], and the
    database is unchanged. *)
Theorem restore_of_a_backup_without_records
    (json_loads : PyStr.str -> Py.outcome Py.value)
    (parse_float : PyStr.str -> option Q) (parse_int : PyStr.str -> option Z)
    (fromisoformat : PyStr.str -> option Database.date)
    (add_expense : Z -> Py.value -> Py.value -> Q -> Database.date
                   -> Py.value -> Py.value -> Py.M Database.db Py.value)
    (add_income : Z -> Py.value -> Q -> Database.date -> Py.value
                  -> Py.M Database.db Py.value)
    (set_budget : Z -> Py.value -> Py.value -> Q -> Z -> Z
                  -> Py.M Database.db Py.value)
    (user_id : Z) (backup_json : PyStr.str) (d : Database.db) :
  let restore :=
    DataExport.restore_from_backup json_loads parse_float parse_int
      fromisoformat add_expense add_income set_budget user_id backup_json d in
  (forall e, json_loads backup_json = Py.Raise e ->
     restore = (Py.Return
                  (Py.VDict [("success", Py.VBool false);
                             ("message",
                               Py.VStr ("Error restoring backup: " ++ Py.exn_msg e))]),
                d)) /\
  (forall v, json_loads backup_json = Py.Return v ->
     (forall fields, v <> Py.VDict fields) ->
     restore = (Py.Return
                  (Py.VDict [("success", Py.VBool false);
                             ("message",
                               Py.VStr ("Error restoring backup: '"
                                        ++ Py.type_name v
                                        ++ "' object has no attribute 'get'"))]),
                d)) /\
  (forall backup, json_loads backup_json = Py.Return (Py.VDict backup) ->
     (forall k, In k ["expenses"; "income"; "budgets"] ->
        PyDict.get_default backup k (Py.VList []) = Py.VList []) ->
     restore = (Py.Return
                  (Py.VDict
                     [("success", Py.VBool true);
                      ("message",
                        Py.VStr "Restored 0 expenses, 0 income entries, 0 budgets");
                      ("details",
                        Py.VDict [("expenses", Py.VInt 0);
                                  ("income", Py.VInt 0);
                                  ("budgets", Py.VInt 0)])]),
                d)).
Proof.
  intros restore. unfold restore, DataExport.restore_from_backup,
    Py.try_except, DataExport.restore_body.
  split; [|split].
  - intros e He. now rewrite bind_lift, He.
  - intros v Hv Hnot. rewrite bind_lift, Hv.
    destruct v; try (rewrite bind_lift; reflexivity).
    now contradiction (Hnot d0).
  - intros backup Hv Hempty. rewrite bind_lift, Hv.
    rewrite bind_lift. cbn [Py.get_method DataExport.and_then].
    rewrite (Hempty "expenses") by (cbn; tauto).
    cbn [Py.iterate Py.for_each]. unfold Py.bind at 1, Py.ret at 1.
    rewrite bind_lift. cbn [Py.get_method DataExport.and_then].
    rewrite (Hempty "income") by (cbn; tauto).
    cbn [Py.iterate Py.for_each]. unfold Py.bind at 1, Py.ret at 1.
    rewrite bind_lift. cbn [Py.get_method DataExport.and_then].
    rewrite (Hempty "budgets") by (cbn; tauto).
    reflexivity.
Qed.

Lemma restore_of_a_backup_without_records_witness :
  DataExport.restore_from_backup
    (fun _ => Py.Return (Py.VDict [("version", Py.VStr "1.0");
                                   ("budgets", Py.VList [])]))
    (fun _ => None) (fun _ => None) (fun _ => None)
    (Models.add_expense "t") (Models.add_income "t") (Models.set_budget "t")
    1 "{}" Database.empty_db
  = (Py.Return
       (Py.VDict
          [("success", Py.VBool true);
           ("message",
             Py.VStr "Restored 0 expenses, 0 income entries, 0 budgets");
           ("details",
             Py.VDict [("expenses", Py.VInt 0); ("income", Py.VInt 0);
                       ("budgets", Py.VInt 0)])]),
     Database.empty_db).
Proof.
  apply (proj2 (proj2 (restore_of_a_backup_without_records
           (fun _ => Py.Return (Py.VDict [("version", Py.VStr "1.0");
                                          ("budgets", Py.VList [])]))
           (fun _ => None) (fun _ => None) (fun _ => None)
           (Models.add_expense "t") (Models.add_income "t")
           (Models.set_budget "t") 1 "{}" Database.empty_db))
           [("version", Py.VStr "1.0"); ("budgets", Py.VList [])]).
  - reflexivity.
  - intros k [<-|[<-|[<-|[]]]]; reflexivity.
Defined.

(** X17.  The counts a successful restore reports are bounded by what
    the backup holds: the [details] of the answer give, for expenses,
    income and budgets, a count between zero and the number of entries
    of the corresponding list, whatever the ledger functions do. *)
Theorem restored_counts_are_bounded_by_the_backup
    (json_loads : PyStr.str -> Py.outcome Py.value)
    (parse_float : PyStr.str -> option Q) (parse_int : PyStr.str -> option Z)
    (fromisoformat : PyStr.str -> option Database.date)
    (add_expense : Z -> Py.value -> Py.value -> Q -> Database.date
                   -> Py.value -> Py.value -> Py.M Database.db Py.value)
    (add_income : Z -> Py.value -> Q -> Database.date -> Py.value
                  -> Py.M Database.db Py.value)
    (set_budget : Z -> Py.value -> Py.value -> Q -> Z -> Z
                  -> Py.M Database.db Py.value)
    (user_id : Z) (backup_json : PyStr.str)
    (backup : list (string * Py.value)) (es ics bs : list Py.value)
    (d d' : Database.db) (v : Py.value) :
  json_loads backup_json = Py.Return (Py.VDict backup) ->
  Py.iterate (PyDict.get_default backup "expenses" (Py.VList [])) = Py.Return es ->
  Py.iterate (PyDict.get_default backup "income" (Py.VList [])) = Py.Return ics ->
  Py.iterate (PyDict.get_default backup "budgets" (Py.VList [])) = Py.Return bs ->
  DataExport.restore_from_backup json_loads parse_float parse_int fromisoformat
    add_expense add_income set_budget user_id backup_json d = (Py.Return v, d') ->
  Py.getitem v "success" = Py.Return (Py.VBool true) ->
  exists ne ni nb : nat,
    Py.getitem v "details"
      = Py.Return (Py.VDict [("expenses", Py.VInt (Z.of_nat ne));
                             ("income", Py.VInt (Z.of_nat ni));
                             ("budgets", Py.VInt (Z.of_nat nb))]) /\
    (ne <= List.length es)%nat /\ (ni <= List.length ics)%nat /\
    (nb <= List.length bs)%nat.
Proof.
  intros Hjson He Hi Hb Hrun Hok.
  unfold DataExport.restore_from_backup, Py.try_except in Hrun.
  destruct (DataExport.restore_body _ _ _ _ _ _ _ user_id backup_json d)
    as [[v0|e] d0] eqn:E.
  2:{ injection Hrun as <- _. discriminate. }
  injection Hrun as -> ->.
  unfold DataExport.restore_body in E.
  rewrite bind_lift, Hjson in E.
  rewrite bind_lift in E. cbn [Py.get_method DataExport.and_then] in E.
  rewrite He in E.
  apply bind_returns in E as (r1 & s1 & H1 & E).
  rewrite bind_lift in E. cbn [Py.get_method DataExport.and_then] in E.
  rewrite Hi in E.
  apply bind_returns in E as (r2 & s2 & H2 & E).
  rewrite bind_lift in E. cbn [Py.get_method DataExport.and_then] in E.
  rewrite Hb in E.
  apply bind_returns in E as (r3 & s3 & H3 & E).
  injection E as <- _.
  exists (DataExport.n_expenses r3), (DataExport.n_income r3),
         (DataExport.n_budgets r3).
  split; [reflexivity|].
  pose proof (for_each_bounded DataExport.n_expenses _
    (fun acc x s acc' s' H =>
       proj2 (proj2 (restore_expense_counts _ _ _ _ _ _ _ _ _ H)))
    _ _ _ _ _ H1) as B1.
  pose proof (for_each_keeps DataExport.n_expenses _
    (fun acc x s acc' s' H =>
       proj1 (restore_income_counts _ _ _ _ _ _ _ _ _ H))
    _ _ _ _ _ H2) as K12.
  pose proof (for_each_keeps DataExport.n_expenses _
    (fun acc x s acc' s' H =>
       proj1 (restore_budget_counts _ _ _ _ _ _ _ _ _ H))
    _ _ _ _ _ H3) as K13.
  pose proof (for_each_keeps DataExport.n_income _
    (fun acc x s acc' s' H =>
       proj1 (restore_expense_counts _ _ _ _ _ _ _ _ _ H))
    _ _ _ _ _ H1) as K21.
  pose proof (for_each_bounded DataExport.n_income _
    (fun acc x s acc' s' H =>
       proj2 (proj2 (restore_income_counts _ _ _ _ _ _ _ _ _ H)))
    _ _ _ _ _ H2) as B2.
  pose proof (for_each_keeps DataExport.n_income _
    (fun acc x s acc' s' H =>
       proj1 (proj2 (restore_budget_counts _ _ _ _ _ _ _ _ _ H)))
    _ _ _ _ _ H3) as K23.
  pose proof (for_each_keeps DataExport.n_budgets _
    (fun acc x s acc' s' H =>
       proj1 (proj2 (restore_expense_counts _ _ _ _ _ _ _ _ _ H)))
    _ _ _ _ _ H1) as K31.
  pose proof (for_each_keeps DataExport.n_budgets _
    (fun acc x s acc' s' H =>
       proj1 (proj2 (restore_income_counts _ _ _ _ _ _ _ _ _ H)))
    _ _ _ _ _ H2) as K32.
  pose proof (for_each_bounded DataExport.n_budgets _
    (fun acc x s acc' s' H =>
       proj2 (proj2 (restore_budget_counts _ _ _ _ _ _ _ _ _ H)))
    _ _ _ _ _ H3) as B3.
  cbn in B1, K21, K31. lia.
Qed.

Lemma restored_counts_are_bounded_by_the_backup_witness :
  let record :=
    Py.VDict [("category", Py.VStr "Food"); ("subcategory", Py.VStr "Groceries");
              ("amount", Py.VInt 100); ("expense_date", Py.VStr "2026-02-01")] in
  let backup := [("expenses", Py.VList [record; record])] in
  exists ne ni nb : nat,
    (ne <= 2)%nat /\ (ni <= 0)%nat /\ (nb <= 0)%nat /\
    Py.getitem
      (Py.VDict
         [("success", Py.VBool true);
          ("message", Py.VStr "Restored 2 expenses, 0 income entries, 0 budgets");
          ("details",
            Py.VDict [("expenses", Py.VInt 2); ("income", Py.VInt 0);
                      ("budgets", Py.VInt 0)])]) "details"
    = Py.Return (Py.VDict [("expenses", Py.VInt (Z.of_nat ne));
                           ("income", Py.VInt (Z.of_nat ni));
                           ("budgets", Py.VInt (Z.of_nat nb))]).
Proof.
  intros record backup.
  destruct (restored_counts_are_bounded_by_the_backup
    (fun _ => Py.Return (Py.VDict backup))
    (fun _ => None) (fun _ => None) (fun _ => Some (Database.Date 2026 2 1))
    (Models.add_expense "2026-03-01") (Models.add_income "2026-03-01")
    (Models.set_budget "2026-03-01") 1 "backup.json"
    backup [record; record] [] []
    (Database.init_database Database.empty_db)
    (snd (DataExport.restore_from_backup (fun _ => Py.Return (Py.VDict backup))
            (fun _ => None) (fun _ => None)
            (fun _ => Some (Database.Date 2026 2 1))
            (Models.add_expense "2026-03-01") (Models.add_income "2026-03-01")
            (Models.set_budget "2026-03-01") 1 "backup.json"
            (Database.init_database Database.empty_db)))
    (Py.VDict
       [("success", Py.VBool true);
        ("message", Py.VStr "Restored 2 expenses, 0 income entries, 0 budgets");
        ("details",
          Py.VDict [("expenses", Py.VInt 2); ("income", Py.VInt 0);
                    ("budgets", Py.VInt 0)])])
    eq_refl eq_refl eq_refl eq_refl
    ltac:(vm_compute; reflexivity) eq_refl)
    as (ne & ni & nb & Hd & H1 & H2 & H3).
  exists ne, ni, nb. repeat split; assumption.
Defined.

(** ** The flat list of the taxonomy *)

Section FlatFacts.
Import PyDict Categories.

Lemma get_some_in {V} (d : dict V) (k : string) (v : V) :
  get d k = Some v -> In (k, v) d.
Proof.
  induction d as [|[k' v'] d IH]; simpl; [discriminate|].
  destruct (String.eqb_spec k k') as [->|Hne]; intros H.
  - left. congruence.
  - right. now apply IH.
Qed.

(** Every entry of the table is the one a lookup of its name finds, and
    its name has an icon and a colour. *)
Lemma taxonomy_entries_found :
  Forall (fun entry : string * list string =>
            get BUDGET_CATEGORIES (fst entry) = Some (snd entry) /\
            has_key CATEGORY_ICONS (fst entry) = true /\
            has_key CATEGORY_COLORS (fst entry) = true)
         BUDGET_CATEGORIES.
Proof. repeat constructor. Qed.

Lemma in_taxonomy_In (c s : string) :
  in_taxonomy c s = true <-> In s (get_subcategories c).
Proof.
  unfold in_taxonomy. rewrite existsb_exists. split.
  - intros (x & Hin & E). apply String.eqb_eq in E. now subst.
  - intros Hin. exists s. split; [exact Hin | apply String.eqb_refl].
Qed.
End FlatFacts.

(** X18.  [get_all_subcategories_flat] lists the pairs of the taxonomy
    and nothing else: a dict is in the list exactly when it is
    [{category, subcategory, icon, color}] for a pair that
    [get_subcategories] accepts, with the icon and the colour configured
    for that category; the fallbacks of the two [.get] calls are never
    used. *)
Theorem flat_subcategories_are_the_taxonomy_pairs (r : PyDict.dict string) :
  In r Categories.get_all_subcategories_flat <->
  exists c s icon color,
    Categories.in_taxonomy c s = true /\
    PyDict.get Categories.CATEGORY_ICONS c = Some icon /\
    PyDict.get Categories.CATEGORY_COLORS c = Some color /\
    r = [("category", c); ("subcategory", s); ("icon", icon); ("color", color)].
Proof.
  unfold Categories.get_all_subcategories_flat. rewrite in_flat_map. split.
  - intros ([c subs] & Hin & Hr).
    apply in_map_iff in Hr as (s & <- & Hs).
    destruct (proj1 (Forall_forall _ _) taxonomy_entries_found _ Hin)
      as (Hget & Hi & Hc).
    cbn [fst snd] in Hget, Hi, Hc.
    apply has_key_get in Hi as (icon & Hi).
    apply has_key_get in Hc as (color & Hc).
    exists c, s, icon, color. repeat split; try assumption.
    + apply in_taxonomy_In. unfold Categories.get_subcategories,
        PyDict.get_default. now rewrite Hget.
    + unfold PyDict.get_default. now rewrite Hi, Hc.
  - intros (c & s & icon & color & Hin & Hi & Hc & ->).
    apply in_taxonomy_In in Hin.
    unfold Categories.get_subcategories, PyDict.get_default in Hin.
    destruct (PyDict.get Categories.BUDGET_CATEGORIES c) as [subs|] eqn:Hget;
      [|contradiction].
    exists (c, subs). split; [now apply get_some_in|].
    apply in_map_iff. exists s. split; [|exact Hin].
    unfold PyDict.get_default. now rewrite Hi, Hc.
Qed.

(** ** The forms of the login page *)

Section FormFacts.
Import PyStr Py Database App.

Lemma on_database_run {A} (f : M db A) (s : state) o d1 :
  f (database s) = (o, d1) ->
  on_database f s = (o, State (session_user_id s) (session_username s) d1 (screen s)).
Proof. intros H. unfold on_database. now rewrite H. Qed.
End FormFacts.



(** X20.  The registration form never logs anybody in and registers only
    when the two passwords agree.  Submitting it leaves the session as
    it was.  When it returns, either one error was shown and the
    database is unchanged, or the username is not empty, the two typed
    passwords are equal, [register_user] succeeded on these fields, and
    the screen got its message and the balloons.  It raises only for a
    password that does not encode as UTF-8 or on a database file that
    does not open, and then nothing has changed. *)
Theorem register_form_keeps_the_session
    (random_bytes : list N) (now : Database.timestamp)
    (new_username new_email new_password confirm_password : PyStr.str)
    (s s' : App.state) (o : Py.outcome unit) :
  App.register_submitted random_bytes now new_username new_email
    new_password confirm_password s = (o, s') ->
  App.session_user_id s' = App.session_user_id s /\
  App.session_username s' = App.session_username s /\
  App.main s' = App.main s /\
  ((o = Py.Return tt /\
    ((exists m, App.screen s' = (App.screen s ++ [App.StError m])%list /\
                App.database s' = App.database s) \/
     (new_username <> "" /\ confirm_password = new_password /\
      (exists v,
         Auth.register_user random_bytes now new_username new_password
           (Some new_email) (App.database s) = (Py.Return v, App.database s') /\
         Py.getitem v "success" = Py.Return (Py.VBool true)) /\
      App.screen s' =
        (App.screen s ++ [App.StSuccess (Py.VStr "Account created successfully!");
                          App.StBalloons])%list))) \/
   (exists e, o = Py.Raise e /\ s' = s /\
              (Utf8.encodable new_password = false \/
               Database.opens (App.database s) = false))).
Proof.
  intros H. unfold App.register_submitted in H.
  destruct (String.eqb_spec new_username "") as [Eu|Eu].
  { cbn [orb] in H. injection H as <- <-. repeat split.
    left. split; [reflexivity|]. left. eexists. cbn. split; reflexivity. }
  destruct (String.eqb new_password "") eqn:Ep.
  { cbn [orb] in H. injection H as <- <-. repeat split.
    left. split; [reflexivity|]. left. eexists. cbn. split; reflexivity. }
  cbn [orb] in H.
  destruct (String.eqb_spec new_password confirm_password) as [Ec|Ec].
  2:{ cbn [negb] in H. injection H as <- <-. repeat split.
      left. split; [reflexivity|]. left. eexists. cbn. split; reflexivity. }
  cbn [negb] in H.
  destruct (Auth.register_user random_bytes now new_username new_password
              (Some new_email) (App.database s)) as [[v|e] d1] eqn:L.
  2:{ rewrite (bind_of_raise _ _ _ _ _ (on_database_run _ _ _ _ L)) in H.
      pose proof (register_user_raised _ _ _ _ _ _ _ _ L) as ->.
      injection H as <- <-. cbn. repeat split.
      right. exists e. repeat split; [now destruct s|].
      exact (register_user_raised_cause _ _ _ _ _ _ _ _ L). }
  destruct (register_user_returned_structured _ _ _ _ _ _ _ _ L)
    as (b & m & Hb & Hm).
  rewrite (bind_of_return _ _ _ _ _ (on_database_run _ _ _ _ L)) in H.
  rewrite bind_lift, Hb in H. cbn [Py.truthy] in H.
  destruct b.
  - destruct (register_user_succeeded _ _ _ _ _ _ _ _ L Hb)
      as (tu & tp & _ & _ & _ & _ & _ & _ & Hv & _).
    rewrite bind_lift, Hm in H.
    assert (m = "Account created successfully!") as ->
      by (rewrite Hv in Hm; cbn in Hm; congruence).
    injection H as <- <-. repeat split.
    left. split; [reflexivity|].
    right. cbn. repeat split;
      [exact Eu | now symmetry
       | exists v; split; (reflexivity || assumption) |].
    now rewrite <- app_assoc.
  - pose proof (register_user_failed _ _ _ _ _ _ _ _ L Hb) as ->.
    rewrite bind_lift, Hm in H.
    injection H as <- <-. repeat split.
    left. split; [reflexivity|].
    left. exists (Py.VStr m). cbn. split; reflexivity.
Qed.

Lemma register_form_keeps_the_session_witness :
  let s := App.State Py.VNone Py.VNone
             (Database.init_database Database.empty_db) [] in
  let run := App.register_submitted [1; 2; 3; 4]%N "2026-01-01 10:00:00"
               "alice" "alice@example.org" "secret1" "secret1" s in
  fst run = Py.Return tt /\
  App.session_user_id (snd run) = Py.VNone /\
  App.main (snd run) = App.LoginPage.
Proof.
  intros s run.
  destruct (register_form_keeps_the_session
              [1; 2; 3; 4]%N "2026-01-01 10:00:00"
              "alice" "alice@example.org" "secret1" "secret1" s
              (snd run) (fst run) ltac:(vm_compute; reflexivity))
    as (Hid & _ & Hmain & [[Ho _]|(e & Ho & _)]).
  - repeat split; assumption.
  - vm_compute in Ho. discriminate Ho.
Defined.

Section FormRuns.
Import PyStr Py Database App.

End FormRuns.


